(** * Abandoned-cart reminder pipeline: a shallow embedding

    The development follows three source files of the repository:

    - the message generator ([generateReminderMessage]),
    - [track-view-endpoint.js] (the [POST /track-view] handler),
    - the cron job ([checkAbandonedCarts] and [sendActualSMS]).

    JavaScript strings are embedded as [string]; a character stands for the
    code unit of the same number, so the development covers strings whose
    code units are below 256.  Instants (ISO-8601 strings in the source) are
    embedded as [Z], the number of milliseconds since the epoch. *)

From Stdlib Require Import ZArith List String Ascii Bool Arith Lia.
Import ListNotations.
Local Open Scope string_scope.
Local Open Scope Z_scope.

(* ================================================================== *)
(** * JavaScript values and string primitives                          *)
(* ================================================================== *)

Module Js.

(** [\s] of a regular expression and the set removed by [trim()], restricted
    to code units below 256: TAB, LF, VT, FF, CR, SPACE and NBSP. *)
Definition is_space (c : ascii) : bool :=
  let n := nat_of_ascii c in
  ((9 <=? n) && (n <=? 13) || (n =? 32) || (n =? 160))%nat.

Definition dquote : ascii := ascii_of_nat 34.
Definition squote : ascii := ascii_of_nat 39.

(** The character class of the composer's clean-up regular expression. *)
Definition is_quote (c : ascii) : bool :=
  (Ascii.eqb c dquote || Ascii.eqb c squote)%bool.

Fixpoint trimStart (s : string) : string :=
  match s with
  | String c r => if is_space c then trimStart r else s
  | EmptyString => EmptyString
  end.

(** [all_space s]: every code unit of [s] is white space. *)
Fixpoint all_space (s : string) : bool :=
  match s with
  | String c r => is_space c && all_space r
  | EmptyString => true
  end.

Fixpoint trimEnd (s : string) : string :=
  match s with
  | String c r => if all_space s then EmptyString else String c (trimEnd r)
  | EmptyString => EmptyString
  end.

(** [String.prototype.trim]. *)
Definition trim (s : string) : string := trimEnd (trimStart s).

(** Truthiness of a string: only the empty string is falsy. *)
Definition truthy_str (s : string) : bool :=
  match s with EmptyString => false | _ => true end.

(** Truthiness of a nullable string ([null] is falsy). *)
Definition truthy_opt (o : option string) : bool :=
  match o with Some s => truthy_str s | None => false end.

(** [a.join(sep)] on an array of strings. *)
Fixpoint join (sep : string) (l : list string) : string :=
  match l with
  | [] => ""
  | [x] => x
  | x :: r => x ++ sep ++ join sep r
  end.

(** [[...new Set(l)]]: distinct elements in order of first occurrence. *)
Fixpoint dedupe_acc (seen : list string) (l : list string) : list string :=
  match l with
  | [] => []
  | x :: r =>
      if existsb (String.eqb x) seen then dedupe_acc seen r
      else x :: dedupe_acc (x :: seen) r
  end.

Definition dedupe (l : list string) : list string := dedupe_acc [] l.

(** [s.split(sep)[0]] for a one-character separator: the text before the
    first separator (the whole string when there is none). *)
Fixpoint before_first (sep : ascii) (s : string) : string :=
  match s with
  | EmptyString => EmptyString
  | String c r => if Ascii.eqb c sep then EmptyString
                  else String c (before_first sep r)
  end.

(** [arr.reduce(f)] without an initial value; [None] stands for the
    TypeError raised on an empty array. *)
Definition reduce {A : Type} (f : A -> A -> A) (l : list A) : option A :=
  match l with
  | [] => None
  | x :: r => Some (fold_left f r x)
  end.

(** A value of a parsed JSON body.  [JObj p] is an object or an array, [p]
    being the string its conversion to a primitive yields; numbers are the
    integer-valued ones. *)
Inductive value : Type :=
| JUndefined
| JNull
| JBool (b : bool)
| JNum (n : Z)
| JStr (s : string)
| JObj (prim : string).

Definition truthy (v : value) : bool :=
  match v with
  | JUndefined | JNull => false
  | JBool b => b
  | JNum n => negb (n =? 0)
  | JStr s => truthy_str s
  | JObj _ => true
  end.

Definition is_string (v : value) : bool :=
  match v with JStr _ => true | _ => false end.

End Js.

(* ================================================================== *)
(** * Message clean-up of [generateReminderMessage]                    *)
(* ================================================================== *)

Module Cleanup.

(** [message.replace(/^["']|["']$/g, '')]: the first alternative can only
    match at index 0, the second only at the last index, and a one-character
    string is consumed by the first. *)
Definition strip_leading (s : string) : string :=
  match s with
  | String c r => if Js.is_quote c then r else s
  | EmptyString => EmptyString
  end.

Fixpoint strip_trailing (s : string) : string :=
  match s with
  | EmptyString => EmptyString
  | String c EmptyString => if Js.is_quote c then EmptyString else s
  | String c r => String c (strip_trailing r)
  end.

Definition strip_quotes (s : string) : string :=
  strip_trailing (strip_leading s).

(** [if (message.length > 160) message = message.substring(0, 157) + '...'] *)
Definition truncate (s : string) : string :=
  if (160 <? String.length s)%nat then String.substring 0 157 s ++ "..."
  else s.

(** Lines 265-274: from the completion's content to the returned message. *)
Definition clean (content : string) : string :=
  truncate (strip_quotes (Js.trim content)).

End Cleanup.

(* ================================================================== *)
(** * Urgency of a user's group ([checkAbandonedCarts], lines 675-683) *)
(* ================================================================== *)

Module Urgency.

(** [Math.floor((Date.now() - new Date(oldestView.timestamp)) / (1000 * 60))] *)
Definition minutesSinceView (now oldest : Z) : Z :=
  (now - oldest) / (1000 * 60).

Definition urgencyLevel (minutes : Z) : string :=
  if 20 <? minutes then "high"
  else if 15 <? minutes then "medium"
  else "low".

(** The tiers as the specification words them, on an age that is not
    rounded: the age is given in milliseconds, so that 15.01 minutes is
    900600. *)
Definition spec_tier (age_ms : Z) : string :=
  if 20 * 60000 <? age_ms then "high"
  else if 15 * 60000 <? age_ms then "medium"
  else "low".

End Urgency.

(* ================================================================== *)
(** * The persistence collaborator (tables of [supabase_schema.sql])   *)
(* ================================================================== *)

(** The four tables, with the constraints the programs meet: the primary
    key of [products] (line 18), the missing default of [users.id] (line 9),
    and NOT NULL and the two foreign keys of [products_viewed] (lines 30-31).
    The clients use the service-role key, which the access policies (lines
    55-102) do not apply to.  Identifiers are compared as strings. *)

Module Users.
Record row : Type := { id : string; email : option string; full_name : option string }.
End Users.

Module Products.
Record row : Type := { id : string; name : string }.
End Products.

Module ProductsViewed.
Record row : Type :=
  { id : string;
    user_id : option string;
    product_id : string;
    product_name : string;
    timestamp : Z }.
End ProductsViewed.

Module MessagesSent.
Record row : Type :=
  { id : string;
    user_id : string;
    message_type : string;
    content : string;
    sent_at : Z }.
End MessagesSent.

Module Pg.

Record Db : Type :=
  { users : list Users.row;
    products : list Products.row;
    products_viewed : list ProductsViewed.row;
    messages_sent : list MessagesSent.row }.

(** The [error] member of a Supabase response. *)
Record PgError : Type := { code : string; message : string }.

(** A Supabase response [{ data, error }]. *)
Inductive Reply (A : Type) : Type :=
| Data (a : A)
| Error (e : PgError).
Arguments Data {A} a.
Arguments Error {A} e.

Definition no_rows : PgError :=
  {| code := "PGRST116"; message := "JSON object requested, multiple (or no) rows returned" |}.

Definition unique_violation : PgError :=
  {| code := "23505"; message := "duplicate key value violates unique constraint" |}.

Definition quoted (s : string) : string :=
  String Js.dquote (s ++ String Js.dquote "").

(** The refusal of a row that leaves a NOT NULL column empty. *)
Definition not_null_violation (column table : string) : PgError :=
  {| code := "23502";
     message := "null value in column " ++ quoted column ++ " of relation "
                  ++ quoted table ++ " violates not-null constraint" |}.

(** The refusal of a row whose reference designates no row. *)
Definition foreign_key_violation (table constraint : string) : PgError :=
  {| code := "23503";
     message := "insert or update on table " ++ quoted table
                  ++ " violates foreign key constraint " ++ quoted constraint |}.

(** [.single()]: exactly one row, otherwise the PGRST116 error. *)
Definition single {A : Type} (rows : list A) : Reply A :=
  match rows with
  | [r] => Data r
  | _ => Error no_rows
  end.

Definition with_users (d : Db) (l : list Users.row) : Db :=
  {| users := l; products := products d;
     products_viewed := products_viewed d; messages_sent := messages_sent d |}.

Definition with_products (d : Db) (l : list Products.row) : Db :=
  {| users := users d; products := l;
     products_viewed := products_viewed d; messages_sent := messages_sent d |}.

Definition with_products_viewed (d : Db) (l : list ProductsViewed.row) : Db :=
  {| users := users d; products := products d;
     products_viewed := l; messages_sent := messages_sent d |}.

Definition with_messages_sent (d : Db) (l : list MessagesSent.row) : Db :=
  {| users := users d; products := products d;
     products_viewed := products_viewed d; messages_sent := l |}.

Definition email_is (e : string) (u : Users.row) : bool :=
  match Users.email u with Some e' => String.eqb e' e | None => false end.

(** [from('users').select('id').eq('email', e).single()] *)
Definition select_user_by_email (e : string) (d : Db) : Reply Users.row :=
  single (filter (email_is e) (users d)).

(** [from('users').insert({ email: e, full_name: null }).select('id').single()].
    The row names no [id], and that column (line 9 of the schema) is the
    primary key of [users] and has no default: it is the identifier of the
    [auth.users] row, copied by the trigger [handle_new_user] (lines 121-133).
    The table refuses the row, whatever the address. *)
Definition insert_user (e : string) (d : Db) : Reply Users.row * Db :=
  (Error (not_null_violation "id" "users"), d).

Definition user_is (i : string) (u : Users.row) : bool :=
  String.eqb (Users.id u) i.

Definition product_is (i : string) (p : Products.row) : bool :=
  String.eqb (Products.id p) i.

(** [from('products').select('id').eq('id', i).single()] *)
Definition select_product (i : string) (d : Db) : Reply Products.row :=
  single (filter (product_is i) (products d)).

(** [from('products').insert({ id: i, name: n, ... })]; [id] is the
    primary key. *)
Definition insert_product (i n : string) (d : Db) : Reply unit * Db :=
  if existsb (product_is i) (products d) then (Error unique_violation, d)
  else
    (Data tt, with_products d (products d ++ [{| Products.id := i; Products.name := n |}])).

(** The constraint of [products_viewed] (lines 30-31 of the schema) that a
    row with user reference [u] and product reference [p] violates first, if
    any: [user_id] is NOT NULL, then the two foreign keys in the order of
    their declaration. *)
Definition view_violation (u : option string) (p : string) (d : Db) : option PgError :=
  match u with
  | None => Some (not_null_violation "user_id" "products_viewed")
  | Some i =>
      if negb (existsb (user_is i) (users d))
      then Some (foreign_key_violation "products_viewed" "products_viewed_user_id_fkey")
      else if negb (existsb (product_is p) (products d))
      then Some (foreign_key_violation "products_viewed" "products_viewed_product_id_fkey")
      else None
  end.

(** [from('products_viewed').insert({...}).select().single()] *)
Definition insert_view (u : option string) (p n : string) (t : Z) (fresh : string)
    (d : Db) : Reply ProductsViewed.row * Db :=
  match view_violation u p d with
  | Some e => (Error e, d)
  | None =>
      let r := {| ProductsViewed.id := fresh; ProductsViewed.user_id := u;
                  ProductsViewed.product_id := p; ProductsViewed.product_name := n;
                  ProductsViewed.timestamp := t |} in
      (Data r, with_products_viewed d (products_viewed d ++ [r]))
  end.

(** [from('messages_sent').insert({...}).select().single()].  The
    callers pass the [id] of a row they read from [users] (joined to the
    views of the group, or looked up by address) and the type sms, which the
    foreign key and the CHECK of lines 40-41 accept. *)
Definition insert_message (u ty c : string) (t : Z) (fresh : string)
    (d : Db) : Reply MessagesSent.row * Db :=
  let r := {| MessagesSent.id := fresh; MessagesSent.user_id := u;
              MessagesSent.message_type := ty; MessagesSent.content := c;
              MessagesSent.sent_at := t |} in
  (Data r, with_messages_sent d (messages_sent d ++ [r])).

(** The filter of the cooldown query:
    [.eq('user_id', u).eq('message_type', ty).gte('sent_at', cutoff)]. *)
Definition recent_message (u ty : string) (cutoff : Z) (m : MessagesSent.row) : bool :=
  String.eqb (MessagesSent.user_id m) u
  && String.eqb (MessagesSent.message_type m) ty
  && (cutoff <=? MessagesSent.sent_at m).

(** [from('messages_sent').select('id')] with that filter. *)
Definition select_recent_messages (u ty : string) (cutoff : Z) (d : Db) : list string :=
  map MessagesSent.id (filter (recent_message u ty cutoff) (messages_sent d)).

(** A row of [products_viewed] with the embedded [users!inner(...)] row. *)
Record RecentView : Type := { view : ProductsViewed.row; joined : Users.row }.

(** The inner join: a view without a user row is dropped ([id] is the
    primary key of [users], so the first match is the only one). *)
Definition join_user (d : Db) (v : ProductsViewed.row) : option RecentView :=
  match ProductsViewed.user_id v with
  | None => None
  | Some i =>
      match find (user_is i) (users d) with
      | Some u => Some {| view := v; joined := u |}
      | None => None
      end
  end.

Fixpoint joined_views (d : Db) (l : list ProductsViewed.row) : list RecentView :=
  match l with
  | [] => []
  | v :: r =>
      match join_user d v with
      | Some j => j :: joined_views d r
      | None => joined_views d r
      end
  end.

(** [.order('timestamp', { ascending: false })]: views of equal timestamp
    keep the order of the table. *)
Fixpoint insert_desc (x : RecentView) (l : list RecentView) : list RecentView :=
  match l with
  | [] => [x]
  | y :: r =>
      if ProductsViewed.timestamp (view y) <=? ProductsViewed.timestamp (view x)
      then x :: y :: r
      else y :: insert_desc x r
  end.

Definition order_desc (l : list RecentView) : list RecentView :=
  fold_right insert_desc [] l.

(** The scanner's first query (lines 601-612). *)
Definition select_recent_views (cutoff : Z) (d : Db) : list RecentView :=
  order_desc
    (joined_views d
       (filter (fun v => cutoff <=? ProductsViewed.timestamp v) (products_viewed d))).

End Pg.

(* ================================================================== *)
(** * Environment, world and the monad of effects                      *)
(* ================================================================== *)

Module Run.

(** The [message] of a thrown [Error]. *)
Definition Exn : Type := string.

(** What the environment does to one Supabase call: it lets it through,
    makes it return [{ data: null, error }], or rejects the promise.  A
    failure stands for anything the tables above do not model: the network,
    the access policy, the conversion of an identifier to the type of its
    column. *)
Inductive Fault : Type :=
| NoFault
| Fails (e : Pg.PgError)
| Rejects (x : Exn).

(** What [openai.chat.completions.create] yields: a completion whose
    [choices[0].message.content] is a string, or a failure (a rejected
    promise, or a completion without such a content, on which the source
    throws a TypeError inside the same [try]). *)
Inductive ChatReply : Type :=
| Content (s : string)
| Failure (x : Exn).

(** The requests sent to the database client. *)
Inductive Query : Type :=
| SelectUserByEmail (e : string)
| InsertUser (e : string)
| SelectProduct (i : string)
| InsertProduct (i n : string)
| InsertView (u : option string) (p n : string) (t : Z)
| SelectRecentViews (cutoff : Z)
| SelectRecentMessages (u ty : string) (cutoff : Z)
| InsertMessage (u ty c : string) (t : Z).

(** Everything outside the program, indexed by the number of interactions
    that took place before: the clock, the behaviour of the database client,
    the text generator, the SMS gateway and the identifiers the database
    generates; then the engine's date parser and [process.env.SHOP_URL]. *)
Record Env : Type :=
  { Date_now : nat -> Z;
    supabase_fault : nat -> Query -> Fault;
    openai_reply : nat -> ChatReply;
    twilio_reply : nat -> Exn + string;
    uuid : nat -> string;
    Date_parse : string -> option Z;
    SHOP_URL : option string }.

(** The lines written to the console, one constructor per call site. *)
Inductive Line : Type :=
(* generateReminderMessage *)
| ErrGenerating (x : Exn)
(* POST /track-view *)
| ErrQueryingUser (e : Pg.PgError)
| ErrCreatingUser (e : Pg.PgError)
| ErrHandlingUser (x : Exn)
| ErrQueryingProduct (e : Pg.PgError)
| ErrCreatingProduct (e : Pg.PgError)
| ErrHandlingProduct (x : Exn)
| ErrInsertingView (e : Pg.PgError)
| ViewTracked (view_id : string)
| ErrTrackView (x : Exn)
(* checkAbandonedCarts *)
| Checking (t : Z)
| ErrFetchingViews (e : Pg.PgError)
| NoRecentViews
| FoundViews (n : nat)
| SkipNoEmail (userId : string)
| ErrCheckingOrders (userId : string) (e : Pg.PgError)
| SkipRecentlyReminded (email : string)
| Generated (email message : string)
| TestModeWouldSend (email message : string)
| ErrLoggingMessage (userId : string) (e : Pg.PgError)
| MessageLogged (email : string)
| ErrProcessingUser (userId : string) (x : Exn)
| Summary (processed sent : nat)
| ErrAbandonedCheck (x : Exn)
(* sendActualSMS *)
| SmsSent (sid : string)
| SmsFailed (x : Exn).

(** What the program does to the outside, in order. *)
Inductive Event : Type :=
| Console (l : Line)
| Supabase (q : Query)
| OpenAI (userName productName urgencyLevel : string) (checkoutLink : option string)
| Twilio (to body : string)
| Delay (ms : Z).

(** The world: the database, the number of interactions so far, the
    events so far (the latest first) and the local variables [L] of the
    running function that outlive a [catch]. *)
Record World (L : Type) : Type :=
  { db : Pg.Db;
    steps : nat;
    trace : list Event;
    locals : L }.
Arguments db {L} w.
Arguments steps {L} w.
Arguments trace {L} w.
Arguments locals {L} w.

Inductive Completion (A : Type) : Type :=
| Normal (a : A)
| Thrown (x : Exn).
Arguments Normal {A} a.
Arguments Thrown {A} x.

Definition M (L A : Type) : Type := World L -> Completion A * World L.

Section Monad.
Context {L : Type}.

Definition ret {A : Type} (a : A) : M L A := fun w => (Normal a, w).

Definition bind {A B : Type} (m : M L A) (f : A -> M L B) : M L B :=
  fun w =>
    match m w with
    | (Normal a, w') => f a w'
    | (Thrown x, w') => (Thrown x, w')
    end.

Definition throw {A : Type} (x : Exn) : M L A := fun w => (Thrown x, w).

(** [try { m } catch (error) { h error }] *)
Definition try_catch {A : Type} (m : M L A) (h : Exn -> M L A) : M L A :=
  fun w =>
    match m w with
    | (Normal a, w') => (Normal a, w')
    | (Thrown x, w') => h x w'
    end.

Definition emit (e : Event) : M L unit :=
  fun w => (Normal tt,
            {| db := db w; steps := steps w; trace := e :: trace w; locals := locals w |}).

Definition log (l : Line) : M L unit := emit (Console l).

(** The index of the next interaction. *)
Definition next : M L nat :=
  fun w => (Normal (steps w),
            {| db := db w; steps := S (steps w); trace := trace w; locals := locals w |}).

Definition update (f : L -> L) : M L unit :=
  fun w => (Normal tt,
            {| db := db w; steps := steps w; trace := trace w; locals := f (locals w) |}).

Definition read : M L L := fun w => (Normal (locals w), w).

(** A database operation [op], once the environment lets it through. *)
Definition commit {A : Type} (op : Pg.Db -> Pg.Reply A * Pg.Db) : M L (Pg.Reply A) :=
  fun w =>
    let (r, d) := op (db w) in
    (Normal r, {| db := d; steps := steps w; trace := trace w; locals := locals w |}).

End Monad.

Declare Scope js_scope.
Delimit Scope js_scope with js.
Notation "x <- m ;; k" := (bind m (fun x => k))
  (at level 61, m at next level, right associativity) : js_scope.
Notation "m ;; k" := (bind m (fun _ => k))
  (at level 61, right associativity) : js_scope.

Section Calls.
Context {L : Type}.
Variable env : Env.
Local Open Scope js_scope.

(** [Date.now()] and [new Date()]. *)
Definition now : M L Z := n <- next ;; ret (Date_now env n).

(** [await supabase.from(...)...]: [op] receives the identifier the
    database would generate for a new row. *)
Definition supabase {A : Type} (q : Query)
    (op : string -> Pg.Db -> Pg.Reply A * Pg.Db) : M L (Pg.Reply A) :=
  n <- next ;;
  emit (Supabase q) ;;
  match supabase_fault env n q with
  | Rejects x => throw x
  | Fails e => ret (Pg.Error e)
  | NoFault => commit (op (uuid env n))
  end.

(** [await openai.chat.completions.create(...)] followed by the access to
    [choices[0].message.content]. *)
Definition chat (userName productName urgencyLevel : string)
    (checkoutLink : option string) : M L string :=
  n <- next ;;
  emit (OpenAI userName productName urgencyLevel checkoutLink) ;;
  match openai_reply env n with
  | Content s => ret s
  | Failure x => throw x
  end.

(** [await client.messages.create({ body, from, to })], returning the
    message's [sid]. *)
Definition twilio_create (to body : string) : M L string :=
  n <- next ;;
  emit (Twilio to body) ;;
  match twilio_reply env n with
  | inr sid => ret sid
  | inl x => throw x
  end.

(** [await new Promise(resolve => setTimeout(resolve, ms))] *)
Definition sleep (ms : Z) : M L unit := emit (Delay ms).

End Calls.

End Run.

(* ================================================================== *)
(** * The Message Composer: [generateReminderMessage]                  *)
(* ================================================================== *)

Module Composer.
Import Run.
Local Open Scope js_scope.

Section Composer.
Context {L : Type}.
Variable env : Env.

Definition urgency_levels : list string := ["low"; "medium"; "high"].

(** The message of the second validation error, whose three level names
    stand in double quotes. *)
Definition urgency_error : string :=
  Eval cbv in
    (let q := String Js.dquote "" in
     "urgencyLevel must be " ++ q ++ "low" ++ q ++ ", " ++ q ++ "medium" ++ q
       ++ ", or " ++ q ++ "high" ++ q).

Definition generateReminderMessage (userName productName urgencyLevel : string)
    (checkoutLink : option string) : M L string :=
  try_catch
    (if negb (Js.truthy_str userName) || negb (Js.truthy_str productName)
     then throw "userName and productName are required"
     else if negb (existsb (String.eqb urgencyLevel) urgency_levels)
     then throw urgency_error
     else
       content <- chat env userName productName urgencyLevel checkoutLink ;;
       ret (Cleanup.clean content))
    (fun error => log (ErrGenerating error) ;; throw error).

End Composer.
End Composer.

(* ================================================================== *)
(** * The Abandonment Scanner: [checkAbandonedCarts]                   *)
(* ================================================================== *)

Module Scanner.
Import Run.
Local Open Scope js_scope.

(** [let processedCount = 0; let sentCount = 0;] *)
Record Tally : Type := { processedCount : nat; sentCount : nat }.

Definition View : Type := Pg.RecentView.

Definition timestamp (v : View) : Z := ProductsViewed.timestamp (Pg.view v).
Definition product_id (v : View) : string := ProductsViewed.product_id (Pg.view v).
Definition product_name (v : View) : string := ProductsViewed.product_name (Pg.view v).

(** The property key [view.user_id] is converted to. *)
Definition key (v : View) : string :=
  match ProductsViewed.user_id (Pg.view v) with
  | Some i => i
  | None => "null"
  end.

(** [userGroups]: an object whose keys are user identifiers (UUIDs, which
    are neither array indices nor names inherited from [Object.prototype]),
    so [Object.entries] lists them in the order of their creation. *)
Definition Groups : Type := list (string * list View).

(** [if (!userGroups[k]) userGroups[k] = []; userGroups[k].push(v)] *)
Fixpoint push (k : string) (v : View) (g : Groups) : Groups :=
  match g with
  | [] => [(k, [v])]
  | (k', vs) :: r =>
      if String.eqb k' k then (k', (vs ++ [v])%list) :: r
      else (k', vs) :: push k v r
  end.

Definition groupByUser (recentViews : list View) : Groups :=
  fold_left (fun g v => push (key v) v g) recentViews [].

(** The callback of [views.reduce] (lines 676-678). *)
Definition older (oldest v : View) : View :=
  if timestamp v <? timestamp oldest then v else oldest.

(** A string or [undefined] inside a template literal. *)
Definition template (o : option string) : string :=
  match o with Some s => s | None => "undefined" end.

Definition email_text (u : Users.row) : string :=
  match Users.email u with Some e => e | None => "null" end.

(** [user.full_name || user.email.split('@')[0]] *)
Definition display_name (u : Users.row) : string :=
  if Js.truthy_opt (Users.full_name u) then template (Users.full_name u)
  else Js.before_first "@" (email_text u).

Section Scanner.
Variable env : Env.

Definition bump_processed : M Tally unit :=
  update (fun t => {| processedCount := S (processedCount t); sentCount := sentCount t |}).

Definition bump_sent : M Tally unit :=
  update (fun t => {| processedCount := processedCount t; sentCount := S (sentCount t) |}).

(** Lines 669-720: what follows the two skips for one user. *)
Definition remind (userId : string) (views : list View) (user : Users.row) : M Tally unit :=
  bump_processed ;;
  let productIds := Js.dedupe (map product_id views) in
  let checkoutLink :=
    template (SHOP_URL env) ++ "/checkout?products=" ++ Js.join "," productIds
      ++ "&user=" ++ userId in
  match Js.reduce older views with
  | None => throw "Reduce of empty array with no initial value"
  | Some oldestView =>
      t <- now env ;;
      let minutesSinceView := Urgency.minutesSinceView t (timestamp oldestView) in
      let urgencyLevel := Urgency.urgencyLevel minutesSinceView in
      let productNames := Js.join ", " (Js.dedupe (map product_name views)) in
      message <- Composer.generateReminderMessage env (display_name user) productNames
                   urgencyLevel (Some checkoutLink) ;;
      log (Generated (email_text user) message) ;;
      log (TestModeWouldSend (email_text user) message) ;;
      sent_at <- now env ;;
      r <- supabase env (InsertMessage userId "sms" message sent_at)
             (Pg.insert_message userId "sms" message sent_at) ;;
      match r with
      | Pg.Error messageError => log (ErrLoggingMessage userId messageError)
      | Pg.Data _ => bump_sent ;; log (MessageLogged (email_text user))
      end ;;
      sleep 1000
  end.

(** Lines 640-724: the body of the loop for one entry of [userGroups]. *)
Definition processUser (cutoffTime : Z) (userId : string) (views : list View) : M Tally unit :=
  try_catch
    (match views with
     | [] => throw "Cannot read properties of undefined (reading 'users')"
     | first :: _ =>
         let user := Pg.joined first in
         if negb (Js.truthy_opt (Users.email user))
         then log (SkipNoEmail userId)
         else
           r <- supabase env (SelectRecentMessages userId "sms" cutoffTime)
                  (fun _ d => (Pg.Data (Pg.select_recent_messages userId "sms" cutoffTime d), d)) ;;
           match r with
           | Pg.Error ordersError => log (ErrCheckingOrders userId ordersError)
           | Pg.Data recentOrders =>
               if (0 <? List.length recentOrders)%nat
               then log (SkipRecentlyReminded (email_text user))
               else remind userId views user
           end
     end)
    (fun error => log (ErrProcessingUser userId error)).

(** [for (const [userId, views] of Object.entries(userGroups)) { ... }] *)
Fixpoint forEachUser (cutoffTime : Z) (g : Groups) : M Tally unit :=
  match g with
  | [] => ret tt
  | (userId, views) :: r =>
      processUser cutoffTime userId views ;; forEachUser cutoffTime r
  end.

Definition checkAbandonedCarts : M Tally unit :=
  try_catch
    (t <- now env ;;
     log (Checking t) ;;
     t0 <- now env ;;
     let cutoffTime := t0 - 30 * 60 * 1000 in
     r <- supabase env (SelectRecentViews cutoffTime)
            (fun _ d => (Pg.Data (Pg.select_recent_views cutoffTime d), d)) ;;
     match r with
     | Pg.Error viewsError => log (ErrFetchingViews viewsError)
     | Pg.Data recentViews =>
         if (List.length recentViews =? 0)%nat then log NoRecentViews
         else
           log (FoundViews (List.length recentViews)) ;;
           let userGroups := groupByUser recentViews in
           update (fun _ => {| processedCount := 0; sentCount := 0 |}) ;;
           forEachUser cutoffTime userGroups ;;
           t <- read ;;
           log (Summary (processedCount t) (sentCount t))
     end)
    (fun error => log (ErrAbandonedCheck error)).

(** [sendActualSMS] (lines 737-750), which nothing in the file calls. *)
Definition sendActualSMS (phoneNumber message : string) : M Tally string :=
  try_catch
    (sid <- twilio_create env phoneNumber message ;;
     log (SmsSent sid) ;;
     ret sid)
    (fun error => log (SmsFailed error) ;; throw error).

End Scanner.
End Scanner.

(* ================================================================== *)
(** * The View Recorder: [app.post('/track-view', ...)]                *)
(* ================================================================== *)

Module Recorder.
Import Run.
Local Open Scope js_scope.

(** [req.body], destructured (line 28). *)
Record Request : Type :=
  { user_email : Js.value;
    product_id : Js.value;
    product_name : Js.value;
    timestamp : Js.value }.

(** The JSON bodies the handler sends. *)
Inductive Body : Type :=
| ErrorOnly (error : string)
| ErrorDetails (error details : string)
| ErrorMessage (error message : string)
| Success (view_id : string) (user_id : option string) (product_id : string)
          (timestamp : Z).

Record Response : Type := { status : Z; body : Body }.

Definition bad_request (error : string) : Response :=
  {| status := 400; body := ErrorOnly error |}.

(** A code unit matched by [[^\s@]]. *)
Definition plain (c : ascii) : bool :=
  negb (Js.is_space c) && negb (Ascii.eqb c "@").

Fixpoint all_plain (s : string) : bool :=
  match s with
  | EmptyString => true
  | String c r => plain c && all_plain r
  end.

(** Some dot of [s] is followed by at least one more code unit. *)
Fixpoint dot_inside (s : string) : bool :=
  match s with
  | EmptyString => false
  | String c r => (Ascii.eqb c "." && Js.truthy_str r) || dot_inside r
  end.

(** [[^\s@]+\.[^\s@]+$], to be matched by all of [s]. *)
Definition domain_ok (s : string) : bool :=
  match s with
  | EmptyString => false
  | String c r => plain c && all_plain r && dot_inside r
  end.

(** [^[^\s@]+@] followed by the domain; [some] tells whether the local
    part read so far is non-empty. *)
Fixpoint local_then_domain (some : bool) (s : string) : bool :=
  match s with
  | EmptyString => false
  | String c r =>
      if Ascii.eqb c "@" then some && domain_ok r
      else plain c && local_then_domain true r
  end.

(** [/^[^\s@]+@[^\s@]+\.[^\s@]+$/.test(s)] *)
Definition emailRegex (s : string) : bool := local_then_domain false s.

(** The string a truthy [user_email] is read as by the regular
    expression and by the database client.  The string of a boolean or of
    a number holds no [@] and never passes the test. *)
Definition email_string (v : Js.value) : option string :=
  match v with
  | Js.JStr s | Js.JObj s => Some s
  | _ => None
  end.

Definition email_test (v : Js.value) : bool :=
  match email_string v with
  | Some s => emailRegex s
  | None => false
  end.

(** The largest time value of a [Date] (8.64e15 ms). *)
Definition max_time : Z := 8640000000000000.

Section Recorder.
Variable env : Env.

(** [new Date(v).getTime()] for a truthy [v]; [None] is NaN. *)
Definition parse_timestamp (v : Js.value) : option Z :=
  match v with
  | Js.JStr s | Js.JObj s => Date_parse env s
  | Js.JNum n => if Z.abs n <=? max_time then Some n else None
  | Js.JBool true => Some 1
  | Js.JBool false => Some 0
  | Js.JNull => Some 0
  | Js.JUndefined => None
  end.

(** Lines 74-107; the local variable [userId] is the monad's local. *)
Definition resolve_user (email : string) : M (option string) unit :=
  try_catch
    (r <- supabase env (SelectUserByEmail email)
            (fun _ d => (Pg.select_user_by_email email d, d)) ;;
     match r with
     | Pg.Data existingUser =>
         update (fun _ => Some (Users.id existingUser))
     | Pg.Error userQueryError =>
         (if negb (String.eqb (Pg.code userQueryError) "PGRST116")
          then log (ErrQueryingUser userQueryError) else ret tt) ;;
         r' <- supabase env (InsertUser email) (fun _ => Pg.insert_user email) ;;
         match r' with
         | Pg.Error userCreateError => log (ErrCreatingUser userCreateError)
         | Pg.Data newUser => update (fun _ => Some (Users.id newUser))
         end
     end)
    (fun error => log (ErrHandlingUser error)).

(** Lines 110-140. *)
Definition resolve_product (id name : string) : M (option string) unit :=
  try_catch
    (r <- supabase env (SelectProduct id) (fun _ d => (Pg.select_product id d, d)) ;;
     match r with
     | Pg.Data existingProduct => ret tt
     | Pg.Error productQueryError =>
         (if negb (String.eqb (Pg.code productQueryError) "PGRST116")
          then log (ErrQueryingProduct productQueryError) else ret tt) ;;
         r' <- supabase env (InsertProduct id name) (fun _ => Pg.insert_product id name) ;;
         match r' with
         | Pg.Error productCreateError => log (ErrCreatingProduct productCreateError)
         | Pg.Data _ => ret tt
         end
     end)
    (fun error => log (ErrHandlingProduct error)).

(** Lines 110-181: what follows the validation. *)
Definition record (id name : string) (validatedTimestamp : Z) : M (option string) Response :=
  resolve_product id name ;;
  userId <- read ;;
  r <- supabase env (InsertView userId id name validatedTimestamp)
         (Pg.insert_view userId id name validatedTimestamp) ;;
  match r with
  | Pg.Error viewError =>
      log (ErrInsertingView viewError) ;;
      ret {| status := 500;
             body := ErrorDetails "Failed to track product view" (Pg.message viewError) |}
  | Pg.Data viewRecord =>
      log (ViewTracked (ProductsViewed.id viewRecord)) ;;
      ret {| status := 200;
             body := Success (ProductsViewed.id viewRecord) userId id validatedTimestamp |}
  end.

(** Lines 51-108, then [record]. *)
Definition validated (req : Request) (id name : string) : M (option string) Response :=
  t <- now env ;;
  match (if Js.truthy (timestamp req) then parse_timestamp (timestamp req) else Some t) with
  | None =>
      ret (bad_request
             "Invalid timestamp format. Use ISO 8601 format (e.g., 2024-01-01T12:00:00.000Z)")
  | Some validatedTimestamp =>
      update (fun _ => None) ;;
      if Js.truthy (user_email req) then
        if negb (email_test (user_email req)) then ret (bad_request "Invalid email format")
        else
          match email_string (user_email req) with
          | Some email => resolve_user email ;; record id name validatedTimestamp
          | None => record id name validatedTimestamp
          end
      else record id name validatedTimestamp
  end.

Definition trackView (req : Request) : M (option string) Response :=
  try_catch
    (if negb (Js.truthy (product_id req)) || negb (Js.truthy (product_name req))
     then ret (bad_request
                 "Missing required fields: product_id and product_name are required")
     else
       match product_id req with
       | Js.JStr id =>
           if String.eqb (Js.trim id) ""
           then ret (bad_request "Invalid product_id: must be a non-empty string")
           else
             match product_name req with
             | Js.JStr name =>
                 if String.eqb (Js.trim name) ""
                 then ret (bad_request "Invalid product_name: must be a non-empty string")
                 else validated req id name
             | _ => ret (bad_request "Invalid product_name: must be a non-empty string")
             end
       | _ => ret (bad_request "Invalid product_id: must be a non-empty string")
       end)
    (fun error =>
       log (ErrTrackView error) ;;
       ret {| status := 500; body := ErrorMessage "Internal server error" error |}).

End Recorder.
End Recorder.

(* ================================================================== *)
(** * Observations on traces and tables                                *)
(* ================================================================== *)

Module Obs.
Import Run.

(** An insert into [messages_sent] for user [u]. *)
Definition insert_for (u : string) (e : Event) : bool :=
  match e with
  | Supabase (InsertMessage u' _ _ _) => String.eqb u' u
  | _ => false
  end.

Definition is_twilio (e : Event) : bool :=
  match e with
  | Twilio _ _ => true
  | _ => false
  end.

(** How many inserts into [messages_sent] for [u] a trace holds, and how
    many calls of the SMS gateway. *)
Definition inserts (u : string) (tr : list Event) : nat :=
  List.length (filter (insert_for u) tr).

Definition deliveries (tr : list Event) : nat :=
  List.length (filter is_twilio tr).

Definition row_for (u : string) (m : MessagesSent.row) : bool :=
  String.eqb (MessagesSent.user_id m) u.

(** The rows of [messages_sent] that belong to [u]. *)
Definition rows_for (u : string) (d : Pg.Db) : list MessagesSent.row :=
  filter (row_for u) (Pg.messages_sent d).

(** The user row a view refers to has an address: the row exists and its
    [email] is truthy. *)
Definition has_address (d : Pg.Db) (i : string) : bool :=
  match find (Pg.user_is i) (Pg.users d) with
  | Some u => Js.truthy_opt (Users.email u)
  | None => false
  end.

(** Some SMS reminder of [u] was sent at or after [cutoff]. *)
Definition reminded (u : string) (cutoff : Z) (d : Pg.Db) : bool :=
  existsb (Pg.recent_message u "sms" cutoff) (Pg.messages_sent d).

(** [g] groups the views of [batch]: no key occurs twice, no group is
    empty, and a group holds views of the batch whose key is the group's. *)
Definition grouped (batch : list Scanner.View) (g : Scanner.Groups) : Prop :=
  NoDup (map fst g)
  /\ forall k vs, In (k, vs) g ->
       vs <> [] /\ forall j, In j vs -> Scanner.key j = k /\ In j batch.

(** A product field the claim rejects: missing, empty or not a string. *)
Definition unusable (v : Js.value) : bool :=
  match v with
  | Js.JStr s => negb (Js.truthy_str s)
  | _ => true
  end.

(** A product field the handler rejects: not a string, or a string that
    is empty once trimmed. *)
Definition blank (v : Js.value) : bool :=
  match v with
  | Js.JStr s => String.eqb (Js.trim s) ""
  | _ => true
  end.

(** A request that passes the validation of the handler in environment
    [env] at clock reading [t0], with the product identifier, the product
    name and the timestamp it is recorded under. *)
Definition accepted (env : Run.Env) (t0 : Z) (req : Recorder.Request)
    (id name : string) (t : Z) : Prop :=
  Recorder.product_id req = Js.JStr id
  /\ String.eqb (Js.trim id) "" = false
  /\ Recorder.product_name req = Js.JStr name
  /\ String.eqb (Js.trim name) "" = false
  /\ (if Js.truthy (Recorder.timestamp req)
      then Recorder.parse_timestamp env (Recorder.timestamp req) else Some t0) = Some t
  /\ (Js.truthy (Recorder.user_email req) = true ->
      Recorder.email_test (Recorder.user_email req) = true).

(** [w'] comes after [w]: interactions, events and rows of
    [messages_sent] were added, none was removed. *)
Definition follows (w w' : Run.World Scanner.Tally) : Prop :=
  (Run.steps w <= Run.steps w')%nat
  /\ (exists events, Run.trace w' = (events ++ Run.trace w)%list)
  /\ (exists rows,
        Pg.messages_sent (Run.db w') = (Pg.messages_sent (Run.db w) ++ rows)%list).

(** The run of the loop body on the group [(k, vs)] is part of the run
    that leads from [w] to [w']: it starts in a world that comes after [w]
    and ends in a world that [w'] comes after. *)
Definition processed_in (env : Run.Env) (cutoff : Z) (k : string)
    (vs : list Scanner.View) (w w' : Run.World Scanner.Tally) : Prop :=
  exists w1 w2,
    Scanner.processUser env cutoff k vs w1 = (Run.Normal tt, w2)
    /\ follows w w1 /\ follows w1 w2 /\ follows w2 w'.

Definition is_insert_view (q : Run.Query) : bool :=
  match q with Run.InsertView _ _ _ _ => true | _ => false end.

Definition is_user_query (q : Run.Query) : bool :=
  match q with Run.SelectUserByEmail _ | Run.InsertUser _ => true | _ => false end.

Definition is_product_query (q : Run.Query) : bool :=
  match q with Run.SelectProduct _ | Run.InsertProduct _ _ => true | _ => false end.

(** The product row stored under identifier [i], if any. *)
Definition product (i : string) (d : Pg.Db) : option Products.row :=
  find (Pg.product_is i) (Pg.products d).

(** What the insert of the view decides inside [record]: [n] is the
    index of that request, [userId] the user reference it carries, [pv] the
    table [products_viewed] before and [w'] the world after.  The request goes
    through and the table takes the row, or the table refuses it, or the
    request returns an error, or it is rejected. *)
Definition verdict (env : Run.Env) (id name : string) (t : Z)
    (pv : list ProductsViewed.row) (n : nat) (userId : option string)
    (c : Run.Completion Recorder.Response) (w' : Run.World (option string)) : Prop :=
  let row := {| ProductsViewed.id := Run.uuid env n; ProductsViewed.user_id := userId;
                ProductsViewed.product_id := id; ProductsViewed.product_name := name;
                ProductsViewed.timestamp := t |} in
  let refused e :=
    c = Run.Normal {| Recorder.status := 500;
                      Recorder.body :=
                        Recorder.ErrorDetails "Failed to track product view"
                          (Pg.message e) |}
    /\ Pg.products_viewed (Run.db w') = pv
    /\ hd_error (Run.trace w') = Some (Run.Console (Run.ErrInsertingView e)) in
  match Run.supabase_fault env n (Run.InsertView userId id name t) with
  | Run.NoFault =>
      match Pg.view_violation userId id (Run.db w') with
      | None =>
          c = Run.Normal {| Recorder.status := 200;
                            Recorder.body := Recorder.Success (Run.uuid env n) userId id t |}
          /\ Pg.products_viewed (Run.db w') = (pv ++ [row])%list
          /\ hd_error (Run.trace w') = Some (Run.Console (Run.ViewTracked (Run.uuid env n)))
      | Some e => refused e
      end
  | Run.Fails e => refused e
  | Run.Rejects x =>
      c = Run.Thrown x
      /\ Pg.products_viewed (Run.db w') = pv
      /\ hd_error (Run.trace w')
         = Some (Run.Supabase (Run.InsertView userId id name t))
  end.

(** The same for the whole handler, whose [catch] answers a rejection. *)
Definition answer (env : Run.Env) (id name : string) (t : Z)
    (pv : list ProductsViewed.row) (n : nat) (userId : option string)
    (resp : Recorder.Response) (w' : Run.World (option string)) : Prop :=
  let row := {| ProductsViewed.id := Run.uuid env n; ProductsViewed.user_id := userId;
                ProductsViewed.product_id := id; ProductsViewed.product_name := name;
                ProductsViewed.timestamp := t |} in
  let refused e :=
    resp = {| Recorder.status := 500;
              Recorder.body :=
                Recorder.ErrorDetails "Failed to track product view" (Pg.message e) |}
    /\ Pg.products_viewed (Run.db w') = pv
    /\ hd_error (Run.trace w') = Some (Run.Console (Run.ErrInsertingView e)) in
  match Run.supabase_fault env n (Run.InsertView userId id name t) with
  | Run.NoFault =>
      match Pg.view_violation userId id (Run.db w') with
      | None =>
          resp = {| Recorder.status := 200;
                    Recorder.body := Recorder.Success (Run.uuid env n) userId id t |}
          /\ Pg.products_viewed (Run.db w') = (pv ++ [row])%list
          /\ hd_error (Run.trace w') = Some (Run.Console (Run.ViewTracked (Run.uuid env n)))
      | Some e => refused e
      end
  | Run.Fails e => refused e
  | Run.Rejects x =>
      resp = {| Recorder.status := 500;
                Recorder.body := Recorder.ErrorMessage "Internal server error" x |}
      /\ Pg.products_viewed (Run.db w') = pv
      /\ hd_error (Run.trace w') = Some (Run.Console (Run.ErrTrackView x))
  end.

End Obs.

(* ================================================================== *)
(** * A small shop, for concrete runs                                  *)
(* ================================================================== *)

Module Sample.
Import Run.

Definition alice : Users.row :=
  {| Users.id := "u-alice"; Users.email := Some "a@x.com"; Users.full_name := None |}.

(** A user row without an address. *)
Definition ghost : Users.row :=
  {| Users.id := "u-ghost"; Users.email := Some ""; Users.full_name := Some "Ghost" |}.

Definition view (id : string) (user : option string) (product name : string) (t : Z)
    : ProductsViewed.row :=
  {| ProductsViewed.id := id; ProductsViewed.user_id := user;
     ProductsViewed.product_id := product; ProductsViewed.product_name := name;
     ProductsViewed.timestamp := t |}.

Definition widget : Products.row := {| Products.id := "p1"; Products.name := "Widget" |}.

(** Alice looked at the widget at instant 0; so did the address-less
    user, an anonymous visitor and a user that has no row. *)
Definition shop : Pg.Db :=
  {| Pg.users := [alice; ghost];
     Pg.products := [widget];
     Pg.products_viewed :=
       [view "v1" (Some "u-alice") "p1" "Widget" 0;
        view "v2" (Some "u-ghost") "p1" "Widget" 0;
        view "v3" None "p1" "Widget" 0;
        view "v4" (Some "u-gone") "p1" "Widget" 0];
     Pg.messages_sent := [] |}.

Definition reminder (id : string) (t : Z) : MessagesSent.row :=
  {| MessagesSent.id := id; MessagesSent.user_id := "u-alice";
     MessagesSent.message_type := "sms"; MessagesSent.content := "Hi a!";
     MessagesSent.sent_at := t |}.

(** The same shop after Alice was reminded at instant [t]. *)
Definition shop_reminded (t : Z) : Pg.Db :=
  Pg.with_messages_sent shop [reminder "m0" t].

Definition text : string := "Hi a, your Widget is still waiting for you!".

(** A quiet environment: the clock shows 15.01 minutes, nothing fails. *)
Definition quiet : Env :=
  {| Date_now := fun _ => 900600;
     supabase_fault := fun _ _ => NoFault;
     openai_reply := fun _ => Content text;
     twilio_reply := fun _ => inr "SM1";
     uuid := fun _ => "m1";
     Date_parse := fun _ => None;
     SHOP_URL := Some "https://shop.example" |}.

Definition down : Pg.PgError := {| Pg.code := "08006"; Pg.message := "connection failure" |}.

(** The same, but every insert into [messages_sent] returns an error. *)
Definition no_log : Env :=
  {| Date_now := Date_now quiet;
     supabase_fault := fun _ q =>
       match q with InsertMessage _ _ _ _ => Fails down | _ => NoFault end;
     openai_reply := openai_reply quiet;
     twilio_reply := twilio_reply quiet;
     uuid := uuid quiet;
     Date_parse := Date_parse quiet;
     SHOP_URL := SHOP_URL quiet |}.





(** A completion of 204 characters: a text of 200 in quotes, in spaces. *)
Fixpoint many (n : nat) (c : ascii) : string :=
  match n with
  | O => EmptyString
  | S n' => String c (many n' c)
  end.

Definition long_text : string :=
  String " " (String Js.dquote (many 200 "x" ++ String Js.dquote " ")).

Definition verbose : Env :=
  {| Date_now := Date_now quiet;
     supabase_fault := supabase_fault quiet;
     openai_reply := fun _ => Content long_text;
     twilio_reply := twilio_reply quiet;
     uuid := uuid quiet;
     Date_parse := Date_parse quiet;
     SHOP_URL := SHOP_URL quiet |}.

Definition start {L : Type} (d : Pg.Db) (l : L) : World L :=
  {| db := d; steps := 0; trace := []; locals := l |}.

Definition tally0 : Scanner.Tally :=
  {| Scanner.processedCount := 0; Scanner.sentCount := 0 |}.

Definition alice_view : Scanner.View :=
  {| Pg.view := view "v1" (Some "u-alice") "p1" "Widget" 0; Pg.joined := alice |}.

Definition ghost_view : Scanner.View :=
  {| Pg.view := view "v2" (Some "u-ghost") "p1" "Widget" 0; Pg.joined := ghost |}.

End Sample.

(* ================================================================== *)
(** * The Next.js route of the View Recorder                           *)
(* ================================================================== *)

Module NextRoute.
Import Run Recorder.

(** [export default async function handler(req, res)]: the method check,
    then the body of the Express route, line for line. *)
Definition handler (env : Env) (method : string) (req : Request)
    : M (option string) Response :=
  if negb (String.eqb method "POST")
  then ret {| status := 405;
              body := ErrorOnly "Method not allowed. Only POST requests are accepted." |}
  else trackView env req.

End NextRoute.

(* ================================================================== *)
(** * Lines and requests of the remaining functions                    *)
(* ================================================================== *)

Module Aside.
Import Run.

(** What the functions below write to the console or ask of the text
    generator at call sites of their own. *)
Inductive Entry : Type :=
(* generateMessageVariations *)
| ErrVariations (x : Exn)
(* generateMessageFromTemplate *)
| TemplateRequest (template userName productName : string) (checkoutLink : option string)
| ErrTemplate (x : Exn)
(* trackViewHandler *)
| ErrTrackViewHandler (x : Exn)
(* sendSMS *)
| SmsSentSuccessfully (sid : string)
| SmsSendingFailed (x : Exn)
(* sendAbandonedCartReminder *)
| ErrLoggingReminder (e : Pg.PgError)
| ErrSendingReminder (x : Exn).

(** The caller's variables [own] together with the entries made so far,
    the latest first; each entry is stamped with the number of events that
    preceded it, which places it among the events of the trace. *)
Record Aside (L : Type) : Type := { own : L; said : list (nat * Entry) }.
Arguments own {L} a.
Arguments said {L} a.

Section Aside.
Context {L : Type}.

Definition note (e : Entry) : M (Aside L) unit :=
  fun w =>
    (Normal tt,
     {| db := db w; steps := steps w; trace := trace w;
        locals := {| own := own (locals w);
                     said := (List.length (trace w), e) :: said (locals w) |} |}).

(** A computation on the caller's variables, run beside the entries. *)
Definition lift {A : Type} (m : M L A) : M (Aside L) A :=
  fun w =>
    let (c, w') := m {| db := db w; steps := steps w; trace := trace w;
                        locals := own (locals w) |} in
    (c, {| db := db w'; steps := steps w'; trace := trace w';
           locals := {| own := locals w'; said := said (locals w) |} |}).

End Aside.
End Aside.

(* ================================================================== *)
(** * The other two generators                                         *)
(* ================================================================== *)

Module Generators.
Import Run Aside.
Local Open Scope js_scope.

Section Generators.
Context {L : Type}.
Variable env : Env.

(** [for (let i = 0; i < variations; i++) { ...; messages.push(message) }],
    [n] being the number of rounds left. *)
Fixpoint rounds (userName productName urgencyLevel : string)
    (checkoutLink : option string) (n : nat) (messages : list string)
    : M (Aside L) (list string) :=
  match n with
  | O => ret messages
  | S n' =>
      message <- Composer.generateReminderMessage env userName productName
                   urgencyLevel checkoutLink ;;
      rounds userName productName urgencyLevel checkoutLink n' (messages ++ [message])%list
  end.

(** [generateMessageVariations]; [variations] is an integer, and the loop
    runs [max 0 variations] times. *)
Definition generateMessageVariations (userName productName urgencyLevel : string)
    (checkoutLink : option string) (variations : Z) : M (Aside L) (list string) :=
  try_catch
    (rounds userName productName urgencyLevel checkoutLink (Z.to_nat variations) [])
    (fun error => note (ErrVariations error) ;; throw error).

(** The chat request of [generateMessageFromTemplate] and the access to
    the content of its completion. *)
Definition chat_template (template userName productName : string)
    (checkoutLink : option string) : M (Aside L) string :=
  n <- next ;;
  note (TemplateRequest template userName productName checkoutLink) ;;
  match openai_reply env n with
  | Content s => ret s
  | Failure x => throw x
  end.

(** [generateMessageFromTemplate]: no check of its arguments. *)
Definition generateMessageFromTemplate (userName productName template : string)
    (checkoutLink : option string) : M (Aside L) string :=
  try_catch
    (content <- chat_template template userName productName checkoutLink ;;
     ret (Cleanup.clean content))
    (fun error => note (ErrTemplate error) ;; throw error).

End Generators.
End Generators.

(* ================================================================== *)
(** * The Delivery Channel: [sendSMS]                                  *)
(* ================================================================== *)

Module Delivery.
Import Run Aside.
Local Open Scope js_scope.

Section Delivery.
Context {L : Type}.
Variable env : Env.

(** [process.env.TWILIO_ACCOUNT_SID], [TWILIO_AUTH_TOKEN] and
    [TWILIO_PHONE_NUMBER], read when the module is loaded. *)
Variables accountSid authToken fromNumber : option string.

Definition sendSMS (phoneNumber message : string) : M (Aside L) string :=
  if negb (Js.truthy_str phoneNumber) || negb (Js.truthy_str message)
  then throw "phoneNumber and message are required"
  else if negb (Js.truthy_opt accountSid) || negb (Js.truthy_opt authToken)
          || negb (Js.truthy_opt fromNumber)
  then throw "Twilio credentials are not set in environment variables"
  else
    try_catch
      (sid <- twilio_create env phoneNumber message ;;
       note (SmsSentSuccessfully sid) ;;
       ret sid)
      (fun error => note (SmsSendingFailed error) ;; throw error).

End Delivery.
End Delivery.

(* ================================================================== *)
(** * The exported handler: [trackViewHandler]                         *)
(* ================================================================== *)

Module Exported.
Import Run Recorder Aside.
Local Open Scope js_scope.

Section Exported.
Variable env : Env.

(** As [Recorder.record] (lines 288-350), without the line that reports
    the tracked view. *)
Definition record (id name : string) (validatedTimestamp : Z) : M (option string) Response :=
  resolve_product env id name ;;
  userId <- read ;;
  r <- supabase env (InsertView userId id name validatedTimestamp)
         (Pg.insert_view userId id name validatedTimestamp) ;;
  match r with
  | Pg.Error viewError =>
      log (ErrInsertingView viewError) ;;
      ret {| status := 500;
             body := ErrorDetails "Failed to track product view" (Pg.message viewError) |}
  | Pg.Data viewRecord =>
      ret {| status := 200;
             body := Success (ProductsViewed.id viewRecord) userId id validatedTimestamp |}
  end.

(** Lines 229-286, then [record]. *)
Definition validated (req : Request) (id name : string) : M (option string) Response :=
  t <- now env ;;
  match (if Js.truthy (timestamp req) then parse_timestamp env (timestamp req) else Some t) with
  | None =>
      ret (bad_request
             "Invalid timestamp format. Use ISO 8601 format (e.g., 2024-01-01T12:00:00.000Z)")
  | Some validatedTimestamp =>
      update (fun _ => None) ;;
      if Js.truthy (user_email req) then
        if negb (email_test (user_email req)) then ret (bad_request "Invalid email format")
        else
          match email_string (user_email req) with
          | Some email => resolve_user env email ;; record id name validatedTimestamp
          | None => record id name validatedTimestamp
          end
      else record id name validatedTimestamp
  end.

(** The body of the [try] (lines 206-350). *)
Definition attempt (req : Request) : M (option string) Response :=
  if negb (Js.truthy (product_id req)) || negb (Js.truthy (product_name req))
  then ret (bad_request
              "Missing required fields: product_id and product_name are required")
  else
    match product_id req with
    | Js.JStr id =>
        if String.eqb (Js.trim id) ""
        then ret (bad_request "Invalid product_id: must be a non-empty string")
        else
          match product_name req with
          | Js.JStr name =>
              if String.eqb (Js.trim name) ""
              then ret (bad_request "Invalid product_name: must be a non-empty string")
              else validated req id name
          | _ => ret (bad_request "Invalid product_name: must be a non-empty string")
          end
    | _ => ret (bad_request "Invalid product_id: must be a non-empty string")
    end.

Definition trackViewHandler (req : Request) : M (Aside (option string)) Response :=
  try_catch
    (lift (attempt req))
    (fun error =>
       note (ErrTrackViewHandler error) ;;
       ret {| status := 500; body := ErrorMessage "Internal server error" error |}).

End Exported.
End Exported.

(* ================================================================== *)
(** * A reminder on request: [sendAbandonedCartReminder]               *)
(* ================================================================== *)

Module OnRequest.
Import Run Aside.
Local Open Scope js_scope.

(** The object the function returns ([success] is always true);
    [message_id] is [undefined] when the insert returned no row. *)
Record Sent : Type :=
  { message : string;
    user_id : string;
    product_id : string;
    message_id : option string }.

Section OnRequest.
Context {L : Type}.
Variable env : Env.

Definition sendAbandonedCartReminder (userEmail productId urgencyLevel : string)
    : M (Aside L) Sent :=
  try_catch
    (r <- supabase env (SelectUserByEmail userEmail)
            (fun _ d => (Pg.select_user_by_email userEmail d, d)) ;;
     match r with
     | Pg.Error _ => throw "User not found"
     | Pg.Data user =>
         r' <- supabase env (SelectProduct productId)
                 (fun _ d => (Pg.select_product productId d, d)) ;;
         match r' with
         | Pg.Error _ => throw "Product not found"
         | Pg.Data product =>
             let checkoutLink :=
               Scanner.template (SHOP_URL env) ++ "/checkout?product=" ++ productId
                 ++ "&user=" ++ Users.id user in
             message <- Composer.generateReminderMessage env (Scanner.display_name user)
                          (Products.name product) urgencyLevel (Some checkoutLink) ;;
             sent_at <- now env ;;
             r'' <- supabase env (InsertMessage (Users.id user) "sms" message sent_at)
                      (Pg.insert_message (Users.id user) "sms" message sent_at) ;;
             (match r'' with
              | Pg.Error messageError => note (ErrLoggingReminder messageError)
              | Pg.Data _ => ret tt
              end) ;;
             ret {| message := message;
                    user_id := Users.id user;
                    product_id := productId;
                    message_id :=
                      match r'' with
                      | Pg.Data messageRecord => Some (MessagesSent.id messageRecord)
                      | Pg.Error _ => None
                      end |}
         end
     end)
    (fun error => note (ErrSendingReminder error) ;; throw error).

End OnRequest.
End OnRequest.

(* ================================================================== *)
(** * Symbolic execution                                               *)
(* ================================================================== *)

(** [run] unfolds the monad's operations and the calls to the outside, and
    projects the worlds built on the way. *)
Ltac run :=
  cbn [negb orb andb];
  cbv beta iota zeta delta
    [Run.bind Run.try_catch Run.ret Run.throw Run.emit Run.log Run.next
     Run.update Run.read Run.commit Run.now Run.supabase Run.chat Run.sleep
     Run.twilio_create Js.reduce Pg.insert_message Pg.with_messages_sent
     Pg.insert_user Pg.with_users Pg.insert_product Pg.with_products
     Pg.insert_view Pg.with_products_viewed
     Scanner.bump_processed Scanner.bump_sent];
  cbn [Run.db Run.steps Run.trace Run.locals
       Pg.users Pg.products Pg.products_viewed Pg.messages_sent].

(** Case analysis on the innermost [match] of the goal. *)
Ltac branch :=
  match goal with
  | |- context [match ?x with _ => _ end] =>
      lazymatch x with
      | context [match _ with _ => _ end] => fail
      | _ => destruct x eqn:?
      end
  end.

(** The closing steps of the leaves of a symbolic execution. *)
Ltac grown := repeat apply incl_tl; apply incl_refl.

Ltac others userId :=
  let u := fresh "u" in
  let Hu := fresh "Hu" in
  let E := fresh "E" in
  intros u Hu;
  assert (E : String.eqb userId u = false) by (apply String.eqb_neq; congruence);
  unfold Obs.inserts; cbn [filter Obs.insert_for]; rewrite ?E; reflexivity.

Ltac self := unfold Obs.inserts; cbn [filter Obs.insert_for]; rewrite ?String.eqb_refl;
             cbn [List.length]; lia.

Ltac no_rows :=
  exists []; split; [now rewrite app_nil_r |];
  split; [unfold Obs.inserts; cbn [filter Obs.insert_for]; rewrite ?String.eqb_refl;
          cbn [List.length]; lia
         | intros ? []].

Ltac one_row :=
  eexists [_]; split; [reflexivity |];
  split; [unfold Obs.inserts; cbn [filter Obs.insert_for]; rewrite ?String.eqb_refl;
          cbn [List.length]; lia
         | intros ? [<- | []]; split; reflexivity].

(** The events added in front of a trace. *)
Ltac prefixed :=
  first [ exists []; reflexivity
        | eexists [_]; reflexivity
        | eexists [_; _]; reflexivity
        | eexists [_; _; _]; reflexivity
        | eexists [_; _; _; _]; reflexivity
        | eexists [_; _; _; _; _]; reflexivity
        | eexists [_; _; _; _; _; _]; reflexivity
        | eexists [_; _; _; _; _; _; _]; reflexivity
        | eexists [_; _; _; _; _; _; _; _]; reflexivity
        | eexists [_; _; _; _; _; _; _; _; _]; reflexivity ].

(* ================================================================== *)
(** * Properties of the message clean-up                               *)
(* ================================================================== *)

Section CleanupFacts.
Import Cleanup.
Local Open Scope nat_scope.

Lemma length_append (s t : string) :
  String.length (s ++ t) = String.length s + String.length t.
Proof.
  induction s as [|c s IH]; simpl; [reflexivity | now rewrite IH].
Qed.

Lemma length_substring_0 (n : nat) (s : string) :
  String.length (String.substring 0 n s) = Nat.min n (String.length s).
Proof.
  revert s; induction n as [|n IH]; intros [|c s]; simpl; try reflexivity.
  now rewrite IH.
Qed.

(** [substring(0, n)] is a prefix: the rest of the string follows it. *)
Lemma substring_0_prefix (n : nat) (s : string) :
  exists rest, s = String.substring 0 n s ++ rest.
Proof.
  revert s; induction n as [|n IH]; intros [|c s]; simpl.
  - now exists "".
  - now exists (String c s).
  - now exists "".
  - destruct (IH s) as [rest E]. exists rest. now rewrite <- E.
Qed.

Lemma truncate_length (s : string) : String.length (truncate s) <= 160.
Proof.
  unfold truncate.
  destruct (Nat.ltb_spec 160 (String.length s)) as [H | H]; [| exact H].
  rewrite length_append, length_substring_0.
  change (String.length "...") with 3. lia.
Qed.

Lemma strip_trailing_snoc (body : string) (q : ascii) :
  Js.is_quote q = true ->
  strip_trailing (body ++ String q "") = body.
Proof.
  intros Hq. induction body as [|c body IH]; simpl.
  - now rewrite Hq.
  - rewrite IH. destruct body; reflexivity.
Qed.

Lemma strip_quotes_both (q q' : ascii) (body : string) :
  Js.is_quote q = true -> Js.is_quote q' = true ->
  strip_quotes (String q (body ++ String q' "")) = body.
Proof.
  intros Hq Hq'. unfold strip_quotes. simpl. rewrite Hq.
  now apply strip_trailing_snoc.
Qed.

End CleanupFacts.

(** C8.  Whenever the text generator returns a string [c] for a valid call,
    [generateReminderMessage] returns [Cleanup.clean c], which has at most
    160 characters; the clean-up removes one quote character at each end of
    the trimmed text (a text written between two quote characters loses
    exactly these two), leaves a text of at most 160 characters as it is,
    and replaces a longer one by its first 157 characters followed by three
    dots. *)
Theorem generateReminderMessage_at_most_160
    (L : Type) (env : Run.Env) (userName productName urgencyLevel : string)
    (checkoutLink : option string) (w : Run.World L) (c : string) :
  Js.truthy_str userName = true ->
  Js.truthy_str productName = true ->
  In urgencyLevel Composer.urgency_levels ->
  Run.openai_reply env (Run.steps w) = Run.Content c ->
  let m := Cleanup.strip_quotes (Js.trim c) in
  (exists w',
      Composer.generateReminderMessage env userName productName urgencyLevel
        checkoutLink w = (Run.Normal (Cleanup.clean c), w')
      /\ Run.db w' = Run.db w)
  /\ (String.length (Cleanup.clean c) <= 160)%nat
  /\ (forall q q' body, Js.is_quote q = true -> Js.is_quote q' = true ->
        Cleanup.strip_quotes (String q (body ++ String q' "")) = body)
  /\ ((String.length m <= 160)%nat -> Cleanup.clean c = m)
  /\ ((160 < String.length m)%nat ->
        Cleanup.clean c = String.substring 0 157 m ++ "..."
        /\ String.length (String.substring 0 157 m) = 157%nat
        /\ exists rest, m = String.substring 0 157 m ++ rest).
Proof.
  intros Hn Hp Hu Hc m.
  split; [| split; [| split; [| split]]].
  - assert (Hin : existsb (String.eqb urgencyLevel) Composer.urgency_levels = true).
    { apply existsb_exists. exists urgencyLevel. split; [exact Hu | apply String.eqb_refl]. }
    unfold Composer.generateReminderMessage.
    rewrite Hn, Hp, Hin. run. rewrite Hc.
    eexists. split; reflexivity.
  - apply truncate_length.
  - intros. now apply strip_quotes_both.
  - intros Hle. unfold Cleanup.clean, Cleanup.truncate. fold m.
    destruct (Nat.ltb_spec 160 (String.length m)); [lia | reflexivity].
  - intros Hgt. split; [| split].
    + unfold Cleanup.clean, Cleanup.truncate. fold m.
      destruct (Nat.ltb_spec 160 (String.length m)); [reflexivity | lia].
    + rewrite length_substring_0. lia.
    + apply substring_0_prefix.
Qed.

(** A quoted completion of 200 characters comes back as its first 157
    characters and three dots. *)
Lemma generateReminderMessage_at_most_160_witness :
  (exists w',
     Composer.generateReminderMessage Sample.verbose "Sarah" "Widget" "high" None
       (Sample.start Sample.shop tt)
     = (Run.Normal (Cleanup.clean Sample.long_text), w'))
  /\ (String.length (Cleanup.clean Sample.long_text) <= 160)%nat
  /\ Cleanup.clean Sample.long_text = Sample.many 157 "x" ++ "...".
Proof.
  destruct (generateReminderMessage_at_most_160 unit Sample.verbose "Sarah" "Widget"
              "high" None (Sample.start Sample.shop tt) Sample.long_text
              eq_refl eq_refl)
    as [(w' & Hrun & _) [Hlen [_ [_ Hcut]]]].
  { cbn. tauto. }
  { reflexivity. }
  split; [now exists w' |]. split; [exact Hlen |].
  destruct Hcut as [E _]; [vm_compute; lia |].
  rewrite E. reflexivity.
Defined.

(* ================================================================== *)
(** * Urgency                                                          *)
(* ================================================================== *)

Section UrgencyFacts.
Import Scanner.

Lemma fold_older_spec (r : list View) (v : View) :
  let o := fold_left older r v in
  In o (v :: r) /\ forall x, In x (v :: r) -> timestamp o <= timestamp x.
Proof.
  revert v. induction r as [|y r IH]; intros v; simpl.
  - split; [now left | intros x [<- | []]; lia].
  - destruct (IH (older v y)) as [Hin Hmin].
    assert (Ho : (older v y = v \/ older v y = y)
                 /\ timestamp (older v y) <= timestamp v
                 /\ timestamp (older v y) <= timestamp y).
    { unfold older. destruct (Z.ltb_spec (timestamp y) (timestamp v)); split;
        auto; lia. }
    destruct Ho as [Hcase [Hv Hy]].
    split.
    + destruct Hin as [E | Hin]; [| now right; right].
      rewrite <- E. destruct Hcase as [-> | ->]; [now left | now right; left].
    + intros x [<- | [<- | Hx]].
      * specialize (Hmin _ (or_introl eq_refl)). lia.
      * specialize (Hmin _ (or_introl eq_refl)). lia.
      * apply Hmin. now right.
Qed.

Lemma minutes_floor (now oldest : Z) :
  let m := Urgency.minutesSinceView now oldest in
  m * 60000 <= now - oldest < (m + 1) * 60000.
Proof.
  unfold Urgency.minutesSinceView. simpl.
  change (1000 * 60) with 60000.
  pose proof (Z.div_mod (now - oldest) 60000 ltac:(lia)).
  pose proof (Z.mod_pos_bound (now - oldest) 60000 ltac:(lia)). lia.
Qed.

End UrgencyFacts.

(* ================================================================== *)
(** * One user of a tick                                               *)
(* ================================================================== *)

Section UserFacts.
Import Run Scanner Obs.
Variable env : Env.

Lemma no_recent_orders (l : list string) :
  (0 <? List.length l)%nat = false -> l = [].
Proof. destruct l; [reflexivity | discriminate]. Qed.

(** Whatever the environment does, the loop body for one user returns
    normally; it touches no table but [messages_sent], to which it adds at
    most one row, for this user, after one insert request; it never calls
    the SMS gateway; and it inserts only for a user with an address and no
    reminder since the cutoff. *)
Lemma processUser_spec (cutoff : Z) (userId : string) (views : list View)
    (w : World Tally) :
  exists w',
    processUser env cutoff userId views w = (Normal tt, w')
    /\ incl (trace w) (trace w')
    /\ Pg.users (db w') = Pg.users (db w)
    /\ Pg.products_viewed (db w') = Pg.products_viewed (db w)
    /\ Pg.products (db w') = Pg.products (db w)
    /\ deliveries (trace w') = deliveries (trace w)
    /\ (forall u, u <> userId -> inserts u (trace w') = inserts u (trace w))
    /\ (inserts userId (trace w') <= inserts userId (trace w) + 1)%nat
    /\ (exists rows,
          Pg.messages_sent (db w') = (Pg.messages_sent (db w) ++ rows)%list
          /\ (List.length rows + inserts userId (trace w)
              <= inserts userId (trace w'))%nat
          /\ forall m, In m rows ->
               MessagesSent.user_id m = userId /\ MessagesSent.message_type m = "sms")
    /\ (inserts userId (trace w') <> inserts userId (trace w) ->
        exists first rest,
          views = first :: rest
          /\ Js.truthy_opt (Users.email (Pg.joined first)) = true
          /\ Pg.select_recent_messages userId "sms" cutoff (db w) = [])
    /\ (forall first rest,
          views = first :: rest ->
          Js.truthy_opt (Users.email (Pg.joined first)) = true ->
          In (Supabase (SelectRecentMessages userId "sms" cutoff)) (trace w')).
Proof.
  unfold processUser, remind, Composer.generateReminderMessage.
  repeat (run; try branch).
  all: eexists; split; [reflexivity |]; cbn [db trace].
  all: split; [grown |].
  all: do 4 (split; [reflexivity |]).
  all: split; [others userId |].
  all: split; [self |].
  all: split; [first [no_rows | one_row] |].
  all: split.
  all: try (intros Hchg; exfalso; apply Hchg; unfold inserts;
            cbn [filter insert_for]; reflexivity).
  all: try (intros f r Hv Ht; first [discriminate Hv | injection Hv as <- <-];
            first [ rewrite Ht in *; discriminate
                  | cbn [In]; tauto ]).
  all: intros _; do 2 eexists; split; [reflexivity |]; split;
    [ match goal with H : negb _ = false |- _ => now apply negb_false_iff in H end
    | match goal with H : (0 <? _)%nat = false |- _ => now apply no_recent_orders in H end ].
Qed.

Lemma filter_row_for_self (userId : string) (rows : list MessagesSent.row) :
  (forall m, In m rows -> MessagesSent.user_id m = userId) ->
  filter (row_for userId) rows = rows.
Proof.
  induction rows as [|m rows IH]; intros H; cbn [filter]; [reflexivity |].
  unfold row_for at 1. rewrite (H m (or_introl eq_refl)), String.eqb_refl.
  f_equal. apply IH. intros x Hx. apply H. now right.
Qed.

Lemma filter_row_for_other (userId u : string) (rows : list MessagesSent.row) :
  u <> userId ->
  (forall m, In m rows -> MessagesSent.user_id m = userId) ->
  filter (row_for u) rows = [].
Proof.
  intros Hu. induction rows as [|m rows IH]; intros H; cbn [filter]; [reflexivity |].
  unfold row_for at 1. rewrite (H m (or_introl eq_refl)).
  assert (E : String.eqb userId u = false) by (apply String.eqb_neq; congruence).
  rewrite E. apply IH. intros x Hx. apply H. now right.
Qed.

Lemma reminded_app (u : string) (cutoff : Z) (d d' : Pg.Db) (rows : list MessagesSent.row) :
  Pg.messages_sent d' = (Pg.messages_sent d ++ rows)%list ->
  Pg.select_recent_messages u "sms" cutoff d' = [] ->
  reminded u cutoff d = false.
Proof.
  unfold Pg.select_recent_messages, reminded. intros -> H.
  rewrite filter_app, map_app in H. apply app_eq_nil in H as [H _].
  induction (Pg.messages_sent d) as [|m l IH]; cbn in *; [reflexivity |].
  destruct (Pg.recent_message u "sms" cutoff m); [discriminate | now apply IH].
Qed.

(** The loop over the groups: every group is visited, whatever happened
    to the ones before it. *)
Lemma forEachUser_spec (cutoff : Z) (g : Groups) :
  forall w : World Tally,
  exists w',
    forEachUser env cutoff g w = (Normal tt, w')
    /\ incl (trace w) (trace w')
    /\ Pg.users (db w') = Pg.users (db w)
    /\ Pg.products_viewed (db w') = Pg.products_viewed (db w)
    /\ Pg.products (db w') = Pg.products (db w)
    /\ deliveries (trace w') = deliveries (trace w)
    /\ (exists rows,
          Pg.messages_sent (db w') = (Pg.messages_sent (db w) ++ rows)%list
          /\ (forall m, In m rows -> MessagesSent.message_type m = "sms")
          /\ forall u, (List.length (filter (row_for u) rows) + inserts u (trace w)
                        <= inserts u (trace w'))%nat)
    /\ (forall u, (inserts u (trace w')
                   <= inserts u (trace w) + count_occ string_dec (map fst g) u)%nat)
    /\ (forall u, inserts u (trace w') <> inserts u (trace w) ->
          exists first rest,
            In (u, first :: rest) g
            /\ Js.truthy_opt (Users.email (Pg.joined first)) = true
            /\ reminded u cutoff (db w) = false)
    /\ (forall k first rest,
          In (k, first :: rest) g ->
          Js.truthy_opt (Users.email (Pg.joined first)) = true ->
          In (Supabase (SelectRecentMessages k "sms" cutoff)) (trace w')).
Proof.
  induction g as [|[userId views] g IH]; intros w.
  - exists w. cbn [forEachUser map count_occ]. run.
    split; [reflexivity |]. split; [apply incl_refl |].
    do 4 (split; [reflexivity |]).
    split; [exists []; rewrite app_nil_r; split; [reflexivity |];
            split; [intros ? [] | intros u; cbn; lia] |].
    split; [intros u; lia |].
    split; [intros u H; now elim H | intros k f r []].
  - destruct (processUser_spec cutoff userId views w)
      as (w1 & Hrun & Hincl & Hu & Hpv & Hp & Hd & Hoth & Hself & Hrows & Hwhy & Hask).
    destruct (IH w1)
      as (w' & Hrun' & Hincl' & Hu' & Hpv' & Hp' & Hd' & Hrows' & Hcnt' & Hwhy' & Hask').
    destruct Hrows as (rows1 & Hm1 & Hlen1 & Hfor1).
    destruct Hrows' as (rows2 & Hm2 & Hsms2 & Hlen2).
    exists w'. cbn [forEachUser]. unfold bind at 1. rewrite Hrun. fold (forEachUser env cutoff g).
    split; [exact Hrun' |].
    split; [eapply incl_tran; eassumption |].
    split; [congruence |]. split; [congruence |]. split; [congruence |].
    split; [congruence |].
    split; [| split; [| split]].
    + exists (rows1 ++ rows2)%list.
      split; [rewrite Hm2, Hm1; now rewrite app_assoc |].
      split.
      * intros m Hm. apply in_app_or in Hm as [Hm | Hm];
          [now apply Hfor1 | now apply Hsms2].
      * intros u. rewrite filter_app, length_app. specialize (Hlen2 u).
        destruct (string_dec u userId) as [-> | Hne].
        -- rewrite filter_row_for_self by (intros m Hm; now apply Hfor1). lia.
        -- rewrite (filter_row_for_other userId u) by
             (try assumption; intros m Hm; now apply Hfor1).
           rewrite (Hoth u Hne) in Hlen2. cbn [List.length]. lia.
    + intros u. specialize (Hcnt' u). cbn [map fst count_occ].
      destruct (string_dec userId u) as [<- | Hne].
      * lia.
      * rewrite (Hoth u (not_eq_sym Hne)) in Hcnt'. lia.
    + intros u Hchg.
      destruct (Nat.eq_dec (inserts u (trace w')) (inserts u (trace w1))) as [E | N].
      * rewrite E in Hchg.
        destruct (string_dec u userId) as [-> | Hne];
          [| now elim Hchg; apply Hoth].
        destruct (Hwhy Hchg) as (first & rest & -> & Ht & Hsel).
        exists first, rest. split; [now left |]. split; [exact Ht |].
        apply (reminded_app userId cutoff (db w) (db w) []);
          [now rewrite app_nil_r | exact Hsel].
      * destruct (Hwhy' u N) as (first & rest & Hin & Ht & Hrem).
        exists first, rest. split; [now right |]. split; [exact Ht |].
        unfold reminded in *. rewrite Hm1, existsb_app in Hrem.
        now apply orb_false_iff in Hrem as [Hrem _].
    + intros k first rest [Hin | Hin] Ht.
      * injection Hin as -> ->. apply Hincl'. eapply Hask; [reflexivity | exact Ht].
      * eapply Hask'; eassumption.
Qed.

End UserFacts.

(* ================================================================== *)
(** * Grouping the batch by user                                       *)
(* ================================================================== *)

Section GroupFacts.
Import Scanner Obs.

Lemma push_keys_old (k : string) (v : View) (g : Groups) :
  In k (map fst g) -> map fst (push k v g) = map fst g.
Proof.
  induction g as [|[k' vs] g IH]; cbn [push map fst In]; [intros [] |].
  intros H. destruct (String.eqb_spec k' k) as [E | N]; cbn [map fst]; [reflexivity |].
  f_equal. apply IH. destruct H as [H | H]; [congruence | exact H].
Qed.

Lemma push_keys_new (k : string) (v : View) (g : Groups) :
  ~ In k (map fst g) -> map fst (push k v g) = (map fst g ++ [k])%list.
Proof.
  induction g as [|[k' vs] g IH]; cbn [push map fst In app]; [reflexivity |].
  intros H. destruct (String.eqb_spec k' k) as [E | N]; [tauto |].
  cbn [map fst]. f_equal. apply IH. tauto.
Qed.

Lemma push_NoDup (k : string) (v : View) (g : Groups) :
  NoDup (map fst g) -> NoDup (map fst (push k v g)).
Proof.
  intros H. destruct (in_dec string_dec k (map fst g)) as [I | N].
  - now rewrite push_keys_old.
  - rewrite push_keys_new by assumption.
    apply NoDup_rev in H. rewrite <- (rev_involutive (map fst g ++ [k])).
    apply NoDup_rev. rewrite rev_app_distr. cbn [rev app].
    constructor; [now rewrite <- in_rev | exact H].
Qed.

(** What a group of [push k v g] holds: an old group, possibly with [v]
    added when its key is [k], or the new group of [v] alone. *)
Lemma push_In (k : string) (v : View) (g : Groups) (k' : string) (vs : list View) :
  In (k', vs) (push k v g) ->
  In (k', vs) g
  \/ (k' = k /\ exists old, vs = (old ++ [v])%list /\ (old = [] \/ In (k, old) g)).
Proof.
  induction g as [|[k0 vs0] g IH]; cbn [push In].
  - intros [E | []]. injection E as <- <-. right. split; [reflexivity |].
    exists []. split; [reflexivity | now left].
  - destruct (String.eqb_spec k0 k) as [E | N]; cbn [In].
    + intros [H | H]; [| now left; right].
      injection H as <- <-. right. split; [exact E |].
      exists vs0. split; [reflexivity |]. right. left. now rewrite E.
    + intros [H | H]; [now left; left |].
      destruct (IH H) as [H' | (-> & old & -> & Hold)]; [now left; right |].
      right. split; [reflexivity |]. exists old. split; [reflexivity |].
      destruct Hold; [now left | now right; right].
Qed.

(** Pushing keeps what the groups hold and files [v] under its key. *)
Lemma push_keeps (k : string) (v : View) (g : Groups) (k' : string) (vs : list View) :
  In (k', vs) g -> exists vs', In (k', vs') (push k v g) /\ incl vs vs'.
Proof.
  induction g as [|[k0 vs0] g IH]; cbn [push In]; [intros [] |].
  destruct (String.eqb_spec k0 k) as [E | N]; cbn [In].
  - intros [H | H].
    + injection H as <- <-. exists (vs0 ++ [v])%list. split; [now left |].
      now apply incl_appl, incl_refl.
    + exists vs. split; [now right | apply incl_refl].
  - intros [H | H].
    + exists vs. split; [now left | apply incl_refl].
    + destruct (IH H) as (vs' & Hin & Hincl). exists vs'. split; [now right | exact Hincl].
Qed.

Lemma push_files (k : string) (v : View) (g : Groups) :
  exists vs, In (k, vs) (push k v g) /\ In v vs.
Proof.
  induction g as [|[k0 vs0] g IH]; cbn [push].
  - exists [v]. split; now left.
  - destruct (String.eqb_spec k0 k) as [E | N].
    + exists (vs0 ++ [v])%list. split; [left; now rewrite E |].
      apply in_or_app. right. now left.
    + destruct IH as (vs & Hin & Hv). exists vs. split; [now right | exact Hv].
Qed.

Lemma fold_push_grouped (batch l : list View) (g : Groups) :
  incl l batch -> grouped batch g ->
  grouped batch (fold_left (fun g v => push (key v) v g) l g).
Proof.
  revert g. induction l as [|v l IH]; intros g Hl Hg; cbn [fold_left]; [exact Hg |].
  apply IH; [intros x Hx; apply Hl; now right |].
  destruct Hg as [Hnd Hg]. split; [now apply push_NoDup |].
  intros k vs Hin.
  destruct (push_In _ _ _ _ _ Hin) as [Hold | (-> & old & -> & Hold)];
    [now apply Hg |].
  split; [now destruct old |].
  intros j Hj. apply in_app_or in Hj as [Hj | [<- | []]].
  - destruct Hold as [-> | Hold]; [now elim Hj |]. now apply (Hg _ _ Hold).
  - split; [reflexivity | apply Hl; now left].
Qed.

Lemma fold_push_covers (l : list View) (g : Groups) :
  (forall j, In j l ->
     exists vs, In (key j, vs) (fold_left (fun g v => push (key v) v g) l g) /\ In j vs)
  /\ (forall k vs, In (k, vs) g ->
        exists vs', In (k, vs') (fold_left (fun g v => push (key v) v g) l g)
                    /\ incl vs vs').
Proof.
  revert g. induction l as [|v l IH]; intros g; cbn [fold_left].
  - split; [intros j [] |]. intros k vs H. exists vs. split; [exact H | apply incl_refl].
  - destruct (IH (push (key v) v g)) as [IH1 IH2]. split.
    + intros j [<- | Hj]; [| now apply IH1].
      destruct (push_files (key v) v g) as (vs & Hin & Hv).
      destruct (IH2 _ _ Hin) as (vs' & Hin' & Hincl).
      exists vs'. split; [exact Hin' | now apply Hincl].
    + intros k vs H. destruct (push_keeps (key v) v g _ _ H) as (vs1 & H1 & I1).
      destruct (IH2 _ _ H1) as (vs' & H' & I'). exists vs'. split; [exact H' |].
      eapply incl_tran; eassumption.
Qed.

(** Every view of the batch is filed under its user's key, in a group
    that no other entry of [userGroups] shares the key of. *)
Lemma groupByUser_grouped (batch : list View) :
  grouped batch (groupByUser batch)
  /\ forall j, In j batch -> exists vs, In (key j, vs) (groupByUser batch) /\ In j vs.
Proof.
  split.
  - apply fold_push_grouped; [apply incl_refl |].
    split; [constructor | intros k vs []].
  - apply (fold_push_covers batch []).
Qed.

Lemma NoDup_fst_unique (g : Groups) (k : string) (vs vs' : list View) :
  NoDup (map fst g) -> In (k, vs) g -> In (k, vs') g -> vs = vs'.
Proof.
  induction g as [|[k0 vs0] g IH]; cbn [map fst In]; [intros _ [] |].
  intros Hnd. inversion Hnd as [|? ? Hnot Hnd']; subst.
  intros [H | H] [H' | H'].
  - congruence.
  - injection H as -> ->. elim Hnot. apply in_map_iff. now exists (k, vs').
  - injection H' as -> ->. elim Hnot. apply in_map_iff. now exists (k, vs).
  - now apply IH.
Qed.

End GroupFacts.

(* ================================================================== *)
(** * The batch of recent views                                        *)
(* ================================================================== *)

Section BatchFacts.
Import Scanner Obs.

Lemma insert_desc_In (x j : View) (l : list View) :
  In j (Pg.insert_desc x l) <-> j = x \/ In j l.
Proof.
  induction l as [|y l IH]; cbn [Pg.insert_desc In].
  - intuition congruence.
  - destruct (ProductsViewed.timestamp (Pg.view y) <=? ProductsViewed.timestamp (Pg.view x));
      cbn [In]; rewrite ?IH; intuition congruence.
Qed.

Lemma order_desc_In (j : View) (l : list View) :
  In j (Pg.order_desc l) <-> In j l.
Proof.
  unfold Pg.order_desc. induction l as [|x l IH]; cbn [fold_right In]; [tauto |].
  rewrite insert_desc_In, IH. intuition congruence.
Qed.

Lemma joined_views_In (d : Pg.Db) (j : View) (l : list ProductsViewed.row) :
  In j (Pg.joined_views d l) <-> exists v, In v l /\ Pg.join_user d v = Some j.
Proof.
  induction l as [|v l IH]; cbn [Pg.joined_views In].
  - split; [intros [] | intros (v & [] & _)].
  - destruct (Pg.join_user d v) as [j0|] eqn:E; cbn [In]; rewrite IH; split.
    + intros [<- | (v' & Hv & Hj)]; [exists v | exists v']; auto.
    + intros (v' & [<- | Hv] & Hj); [left; congruence | right; now exists v'].
    + intros (v' & Hv & Hj). exists v'. auto.
    + intros (v' & [<- | Hv] & Hj); [congruence | now exists v'].
Qed.

(** A fetched view comes from [products_viewed], is not older than the
    cutoff, and carries the user row its [user_id] designates. *)
Lemma select_recent_views_In (cutoff : Z) (d : Pg.Db) (j : View) :
  In j (Pg.select_recent_views cutoff d) <->
  In (Pg.view j) (Pg.products_viewed d)
  /\ cutoff <= timestamp j
  /\ Pg.join_user d (Pg.view j) = Some j.
Proof.
  unfold Pg.select_recent_views. rewrite order_desc_In, joined_views_In. split.
  - intros (v & Hv & Hj). apply filter_In in Hv as [Hv Ht].
    assert (E : Pg.view j = v).
    { unfold Pg.join_user in Hj. destruct (ProductsViewed.user_id v); [| discriminate].
      destruct (find _ _); [| discriminate]. now injection Hj as <-. }
    subst v. split; [exact Hv |]. split; [now apply Z.leb_le | exact Hj].
  - intros (Hv & Ht & Hj). exists (Pg.view j). split; [| exact Hj].
    apply filter_In. split; [exact Hv | now apply Z.leb_le].
Qed.

Lemma join_user_Some (d : Pg.Db) (v : ProductsViewed.row) (j : View) :
  Pg.join_user d v = Some j ->
  Pg.view j = v
  /\ ProductsViewed.user_id v = Some (key j)
  /\ find (Pg.user_is (key j)) (Pg.users d) = Some (Pg.joined j).
Proof.
  unfold Pg.join_user, key. destruct (ProductsViewed.user_id v) as [i|] eqn:Ei; [| discriminate].
  destruct (find _ _) as [u|] eqn:Ef; [| discriminate].
  intros H. injection H as <-. cbn [Pg.view Pg.joined]. rewrite Ei. auto.
Qed.

(** In a group of the batch the first view carries the user row of the
    group's key. *)
Lemma group_user (cutoff : Z) (d : Pg.Db) (k : string) (first : View) (rest : list View) :
  In (k, first :: rest) (groupByUser (Pg.select_recent_views cutoff d)) ->
  find (Pg.user_is k) (Pg.users d) = Some (Pg.joined first)
  /\ ProductsViewed.user_id (Pg.view first) = Some k
  /\ In (Pg.view first) (Pg.products_viewed d)
  /\ cutoff <= timestamp first.
Proof.
  intros Hin.
  destruct (groupByUser_grouped (Pg.select_recent_views cutoff d)) as [[_ Hg] _].
  destruct (Hg _ _ Hin) as [_ Hj].
  destruct (Hj first (or_introl eq_refl)) as [Hk Hb].
  apply select_recent_views_In in Hb as (Hv & Ht & Hjoin).
  destruct (join_user_Some _ _ _ Hjoin) as (_ & Hu & Hf).
  rewrite Hk in *. auto.
Qed.

End BatchFacts.

(* ================================================================== *)
(** * One tick                                                         *)
(* ================================================================== *)

Section TickFacts.
Import Run Scanner Obs.
Variable env : Env.

(** The cutoff of the tick started in [w]: the second reading of the
    clock, less thirty minutes. *)
Lemma checkAbandonedCarts_spec (w : World Tally) :
  let cutoff := Date_now env (S (steps w)) - 30 * 60 * 1000 in
  exists w',
    checkAbandonedCarts env w = (Normal tt, w')
    /\ incl (trace w) (trace w')
    /\ Pg.users (db w') = Pg.users (db w)
    /\ Pg.products_viewed (db w') = Pg.products_viewed (db w)
    /\ Pg.products (db w') = Pg.products (db w)
    /\ deliveries (trace w') = deliveries (trace w)
    /\ (exists rows,
          Pg.messages_sent (db w') = (Pg.messages_sent (db w) ++ rows)%list
          /\ (forall m, In m rows -> MessagesSent.message_type m = "sms")
          /\ forall u, (List.length (filter (row_for u) rows) + inserts u (trace w)
                        <= inserts u (trace w'))%nat)
    /\ (forall u, (inserts u (trace w') <= inserts u (trace w) + 1)%nat)
    /\ (forall u, inserts u (trace w') <> inserts u (trace w) ->
          has_address (db w) u = true
          /\ reminded u cutoff (db w) = false
          /\ exists v, In v (Pg.products_viewed (db w))
                       /\ ProductsViewed.user_id v = Some u
                       /\ cutoff <= ProductsViewed.timestamp v).
Proof.
  intros cutoff. unfold checkAbandonedCarts. fold cutoff.
  run. fold cutoff.
  destruct (supabase_fault env (S (S (steps w))) (SelectRecentViews cutoff)) eqn:Ef; run.
  2, 3: eexists; split; [reflexivity |]; cbn [db trace];
    split; [grown |]; do 4 (split; [reflexivity |]);
    split; [exists []; rewrite app_nil_r; split; [reflexivity |];
            split; [intros ? [] | intros u; unfold inserts; cbn [filter insert_for List.length]; lia] |];
    split; [intros u; unfold inserts; cbn [filter insert_for List.length]; lia | intros u H; now elim H].
  destruct (List.length (Pg.select_recent_views cutoff (db w)) =? 0)%nat eqn:El; run.
  - eexists; split; [reflexivity |]; cbn [db trace].
    split; [grown |]. do 4 (split; [reflexivity |]).
    split; [exists []; rewrite app_nil_r; split; [reflexivity |];
            split; [intros ? [] | intros u; unfold inserts; cbn [filter insert_for List.length]; lia] |].
    split; [intros u; unfold inserts; cbn [filter insert_for List.length]; lia | intros u H; now elim H].
  - match goal with
    | |- context [forEachUser env cutoff ?g ?w1] =>
        destruct (forEachUser_spec env cutoff g w1)
          as (w2 & Hrun & Hincl & Hu & Hpv & Hp & Hd & Hrows & Hcnt & Hwhy & _);
        rewrite Hrun
    end.
    cbn [db trace] in *.
    destruct (groupByUser_grouped (Pg.select_recent_views cutoff (db w))) as [[Hnd Hg] _].
    eexists; split; [reflexivity |]; cbn [db trace].
    split; [apply incl_tl; eapply incl_tran; [| exact Hincl]; grown |].
    do 3 (split; [assumption |]).
    split; [exact Hd |].
    split; [exact Hrows |].
    split.
    + intros u. specialize (Hcnt u).
      pose proof (proj1 (NoDup_count_occ string_dec _) Hnd u) as Hocc.
      unfold inserts in *. cbn [filter insert_for] in *. lia.
    + intros u Hchg.
      destruct (Hwhy u Hchg) as (first & rest & Hin & Ht & Hrem).
      destruct (group_user _ _ _ _ _ Hin) as (Hf & Hid & Hv & Hts).
      split; [unfold has_address; now rewrite Hf |].
      split; [exact Hrem |].
      exists (Pg.view first). auto.
Qed.

End TickFacts.

(* ================================================================== *)
(** * The gates of the loop body and the reminder                      *)
(* ================================================================== *)

Section GateFacts.
Import Run Scanner Obs.
Variable env : Env.

Lemma urgencyLevel_valid (minutes : Z) :
  existsb (String.eqb (Urgency.urgencyLevel minutes)) Composer.urgency_levels = true.
Proof.
  unfold Urgency.urgencyLevel.
  destruct (20 <? minutes); [reflexivity |].
  destruct (15 <? minutes); reflexivity.
Qed.

Lemma reminded_select (u : string) (cutoff : Z) (d : Pg.Db) :
  reminded u cutoff d = (0 <? List.length (Pg.select_recent_messages u "sms" cutoff d))%nat.
Proof.
  unfold reminded, Pg.select_recent_messages.
  induction (Pg.messages_sent d) as [|m l IH]; cbn [existsb filter]; [reflexivity |].
  destruct (Pg.recent_message u "sms" cutoff m); [reflexivity | exact IH].
Qed.

(** The dedupe rule on one group: with a recent reminder the body only
    asks and logs the skip. *)
Lemma processUser_skips_reminded (cutoff : Z) (userId : string) (first : View)
    (rest : list View) (w : World Tally) :
  Js.truthy_opt (Users.email (Pg.joined first)) = true ->
  supabase_fault env (steps w) (SelectRecentMessages userId "sms" cutoff) = NoFault ->
  reminded userId cutoff (db w) = true ->
  processUser env cutoff userId (first :: rest) w
  = (Normal tt,
     {| db := db w; steps := S (steps w);
        trace := Console (SkipRecentlyReminded (email_text (Pg.joined first)))
                 :: Supabase (SelectRecentMessages userId "sms" cutoff) :: trace w;
        locals := locals w |}).
Proof.
  intros Ht Hf Hr. rewrite reminded_select in Hr.
  unfold processUser. rewrite Ht. run. rewrite Hf. run. rewrite Hr. reflexivity.
Qed.

(** Without a recent reminder the user is processed: [processedCount]
    goes up by one. *)
Lemma processUser_counts (cutoff : Z) (userId : string) (first : View)
    (rest : list View) (w : World Tally) :
  Js.truthy_opt (Users.email (Pg.joined first)) = true ->
  supabase_fault env (steps w) (SelectRecentMessages userId "sms" cutoff) = NoFault ->
  reminded userId cutoff (db w) = false ->
  exists w',
    processUser env cutoff userId (first :: rest) w = (Normal tt, w')
    /\ processedCount (locals w') = S (processedCount (locals w)).
Proof.
  intros Ht Hf Hr. rewrite reminded_select in Hr.
  unfold processUser, remind, Composer.generateReminderMessage.
  rewrite Ht. run. rewrite Hf. run. rewrite Hr.
  repeat (run; try branch).
  all: eexists; split; reflexivity.
Qed.

(** The path on which the text generator answers: the events of the
    loop body, in order, and what the insert request decides. *)
Lemma processUser_reminds (cutoff : Z) (userId : string) (first : View)
    (rest : list View) (w : World Tally) (c : string) :
  let user := Pg.joined first in
  let views := first :: rest in
  let productNames := Js.join ", " (Js.dedupe (map product_name views)) in
  let urgencyLevel :=
    Urgency.urgencyLevel
      (Urgency.minutesSinceView (Date_now env (1 + steps w))
         (timestamp (fold_left older rest first))) in
  let checkoutLink :=
    template (SHOP_URL env) ++ "/checkout?products="
      ++ Js.join "," (Js.dedupe (map product_id views)) ++ "&user=" ++ userId in
  let message := Cleanup.clean c in
  let sent_at := Date_now env (3 + steps w) in
  let q := InsertMessage userId "sms" message sent_at in
  let asked :=
    [Supabase q;
     Console (TestModeWouldSend (email_text user) message);
     Console (Generated (email_text user) message);
     OpenAI (display_name user) productNames urgencyLevel (Some checkoutLink);
     Supabase (SelectRecentMessages userId "sms" cutoff)] in
  Js.truthy_opt (Users.email user) = true ->
  supabase_fault env (steps w) (SelectRecentMessages userId "sms" cutoff) = NoFault ->
  reminded userId cutoff (db w) = false ->
  Js.truthy_str (display_name user) = true ->
  Js.truthy_str productNames = true ->
  openai_reply env (2 + steps w) = Content c ->
  exists w',
    processUser env cutoff userId views w = (Normal tt, w')
    /\ inserts userId (trace w') = S (inserts userId (trace w))
    /\ In (Supabase q) (trace w')
    /\ In (Console (Generated (email_text user) message)) (trace w')
    /\ In (Console (TestModeWouldSend (email_text user) message)) (trace w')
    /\ deliveries (trace w') = deliveries (trace w)
    /\ processedCount (locals w') = S (processedCount (locals w))
    /\ match supabase_fault env (4 + steps w) q with
       | NoFault =>
           trace w'
           = (Delay 1000 :: Console (MessageLogged (email_text user)) :: asked
                ++ trace w)%list
           /\ sentCount (locals w') = S (sentCount (locals w))
           /\ Pg.messages_sent (db w')
              = (Pg.messages_sent (db w)
                   ++ [{| MessagesSent.id := uuid env (4 + steps w);
                          MessagesSent.user_id := userId;
                          MessagesSent.message_type := "sms";
                          MessagesSent.content := message;
                          MessagesSent.sent_at := sent_at |}])%list
       | Fails e =>
           trace w'
           = (Delay 1000 :: Console (ErrLoggingMessage userId e) :: asked
                ++ trace w)%list
           /\ sentCount (locals w') = sentCount (locals w)
           /\ Pg.messages_sent (db w') = Pg.messages_sent (db w)
       | Rejects x =>
           trace w' = (Console (ErrProcessingUser userId x) :: asked ++ trace w)%list
           /\ sentCount (locals w') = sentCount (locals w)
       end.
Proof.
  intros user views productNames urgencyLevel checkoutLink message sent_at q asked
    Ht Hf Hr Hn Hp Hc.
  subst user views productNames urgencyLevel checkoutLink message sent_at q asked.
  rewrite reminded_select in Hr. cbn [Nat.add] in *.
  unfold processUser, remind, Composer.generateReminderMessage.
  rewrite Ht. run. rewrite Hf. run. rewrite Hr.
  rewrite Hn, Hp, urgencyLevel_valid. run. rewrite Hc. run.
  branch; run.
  all: eexists; split; [reflexivity |]; cbn [db trace locals].
  all: split; [unfold inserts; cbn [filter insert_for];
               rewrite String.eqb_refl; reflexivity |].
  all: split; [cbn [In]; tauto |].
  all: split; [cbn [In]; tauto |].
  all: split; [cbn [In]; tauto |].
  all: split; [reflexivity |].
  all: split; [reflexivity |].
  all: repeat split; reflexivity.
Qed.

(** The tier handed to the composer is the one computed from the oldest
    view of the group at the clock's reading. *)
Lemma processUser_asks_composer (cutoff : Z) (userId : string) (first : View)
    (rest : list View) (w : World Tally) :
  Js.truthy_opt (Users.email (Pg.joined first)) = true ->
  supabase_fault env (steps w) (SelectRecentMessages userId "sms" cutoff) = NoFault ->
  reminded userId cutoff (db w) = false ->
  Js.truthy_str (display_name (Pg.joined first)) = true ->
  Js.truthy_str (Js.join ", " (Js.dedupe (map product_name (first :: rest)))) = true ->
  exists w' link,
    processUser env cutoff userId (first :: rest) w = (Normal tt, w')
    /\ In (OpenAI (display_name (Pg.joined first))
             (Js.join ", " (Js.dedupe (map product_name (first :: rest))))
             (Urgency.urgencyLevel
                (Urgency.minutesSinceView (Date_now env (1 + steps w))
                   (timestamp (fold_left older rest first))))
             (Some link)) (trace w').
Proof.
  intros Ht Hf Hr Hn Hp. rewrite reminded_select in Hr. cbn [Nat.add].
  unfold processUser, remind, Composer.generateReminderMessage.
  rewrite Ht. run. rewrite Hf. run. rewrite Hr.
  rewrite Hn, Hp, urgencyLevel_valid.
  repeat (run; try branch).
  all: do 2 eexists; split; [reflexivity |]; cbn [trace In]; tauto.
Qed.

End GateFacts.

(* ================================================================== *)
(** * The claims on the scanner                                        *)
(* ================================================================== *)

Section ScannerClaims.
Import Run Scanner Obs.

Lemma rows_for_unchanged (u : string) (d d' : Pg.Db) (rows : list MessagesSent.row)
    (n : nat) :
  Pg.messages_sent d' = (Pg.messages_sent d ++ rows)%list ->
  (List.length (filter (row_for u) rows) + n <= n)%nat ->
  rows_for u d' = rows_for u d.
Proof.
  intros Hm Hl. unfold rows_for. rewrite Hm, filter_app.
  destruct (filter (row_for u) rows); [now rewrite app_nil_r | cbn in Hl; lia].
Qed.

Lemma reminded_iff (u : string) (cutoff : Z) (d : Pg.Db) :
  reminded u cutoff d = true <->
  exists m, In m (Pg.messages_sent d)
            /\ MessagesSent.user_id m = u
            /\ MessagesSent.message_type m = "sms"
            /\ cutoff <= MessagesSent.sent_at m.
Proof.
  unfold reminded. rewrite existsb_exists. unfold Pg.recent_message.
  split; intros (m & Hin & H); exists m; (split; [exact Hin |]).
  - apply andb_true_iff in H as [H Ht]. apply andb_true_iff in H as [Hu Hs].
    apply String.eqb_eq in Hu, Hs. apply Z.leb_le in Ht. auto.
  - destruct H as (-> & -> & Ht). rewrite !String.eqb_refl. now apply Z.leb_le.
Qed.

(** The tick leaves a user alone when no insert request was made for it. *)
Lemma tick_quiet_for (env : Env) (w : World Tally) (u : string) :
  let cutoff := Date_now env (S (steps w)) - 30 * 60 * 1000 in
  has_address (db w) u = false \/ reminded u cutoff (db w) = true ->
  exists w',
    checkAbandonedCarts env w = (Normal tt, w')
    /\ inserts u (trace w') = inserts u (trace w)
    /\ rows_for u (db w') = rows_for u (db w).
Proof.
  intros cutoff Hq.
  destruct (checkAbandonedCarts_spec env w)
    as (w' & Hrun & _ & _ & _ & _ & _ & (rows & Hm & _ & Hlen) & _ & Hwhy).
  fold cutoff in Hwhy. exists w'. split; [exact Hrun |].
  assert (E : inserts u (trace w') = inserts u (trace w)).
  { destruct (Nat.eq_dec (inserts u (trace w')) (inserts u (trace w))) as [E | N];
      [exact E |].
    destruct (Hwhy u N) as (Ha & Hr & _). destruct Hq; congruence. }
  split; [exact E |].
  apply (rows_for_unchanged u _ _ rows (inserts u (trace w))); [exact Hm |].
  specialize (Hlen u). rewrite E in Hlen. exact Hlen.
Qed.

(** A user with an address and a view not older than the cutoff has a
    group in the tick, and the group passes the address gate. *)
Lemma qualifying_view_has_group (cutoff : Z) (d : Pg.Db) (u : string)
    (v : ProductsViewed.row) :
  In v (Pg.products_viewed d) ->
  ProductsViewed.user_id v = Some u ->
  cutoff <= ProductsViewed.timestamp v ->
  has_address d u = true ->
  exists first rest,
    In (u, first :: rest) (groupByUser (Pg.select_recent_views cutoff d))
    /\ Js.truthy_opt (Users.email (Pg.joined first)) = true.
Proof.
  intros Hv Hu Ht Ha. unfold has_address in Ha.
  destruct (find (Pg.user_is u) (Pg.users d)) as [usr|] eqn:Ef; [| discriminate].
  set (j := {| Pg.view := v; Pg.joined := usr |}).
  assert (Hj : In j (Pg.select_recent_views cutoff d)).
  { apply select_recent_views_In. cbn [Pg.view j]. split; [exact Hv |].
    split; [exact Ht |]. unfold Pg.join_user. now rewrite Hu, Ef. }
  destruct (groupByUser_grouped (Pg.select_recent_views cutoff d)) as [_ Hcov].
  destruct (Hcov j Hj) as (vs & Hin & Hjv).
  assert (Hk : key j = u) by (unfold key; cbn [Pg.view j]; now rewrite Hu).
  rewrite Hk in Hin.
  destruct vs as [|first rest]; [now elim Hjv |].
  exists first, rest. split; [exact Hin |].
  destruct (group_user _ _ _ _ _ Hin) as (Hf & _).
  rewrite Ef in Hf. injection Hf as <-. exact Ha.
Qed.

End ScannerClaims.

(** C1, as the code has it.  The age of a group is measured from its
    oldest view and rounded down to whole minutes before it is compared:
    the tier is high from 21 minutes on, medium from 16 minutes up to (not
    including) 21, and low below 16 minutes.  Ages of 14, 15, 15.01, 20 and
    20.01 minutes give low, low, low, medium and medium.  That tier, at the
    clock's reading, is the one the loop body hands to the composer. *)
Theorem urgency_by_whole_minutes
    (env : Run.Env) (cutoff : Z) (userId : string) (w : Run.World Scanner.Tally)
    (v : Scanner.View) (r : list Scanner.View) :
  let now := Run.Date_now env (1 + Run.steps w) in
  exists oldest,
    Js.reduce Scanner.older (v :: r) = Some oldest
    /\ In oldest (v :: r)
    /\ (forall x, In x (v :: r) -> Scanner.timestamp oldest <= Scanner.timestamp x)
    /\ (let age := now - Scanner.timestamp oldest in
        let minutes := Urgency.minutesSinceView now (Scanner.timestamp oldest) in
        minutes * 60000 <= age < (minutes + 1) * 60000
        /\ (Urgency.urgencyLevel minutes = "high" /\ 20 < minutes /\ 21 * 60000 <= age
            \/ Urgency.urgencyLevel minutes = "medium" /\ 15 < minutes <= 20
               /\ 16 * 60000 <= age < 21 * 60000
            \/ Urgency.urgencyLevel minutes = "low" /\ minutes <= 15
               /\ age < 16 * 60000))
    /\ map (fun age => Urgency.urgencyLevel
                         (Urgency.minutesSinceView (Scanner.timestamp oldest + age)
                            (Scanner.timestamp oldest)))
         [14 * 60000; 15 * 60000; 900600; 20 * 60000; 1200600]
       = ["low"; "low"; "low"; "medium"; "medium"]
    /\ (Js.truthy_opt (Users.email (Pg.joined v)) = true ->
        Run.supabase_fault env (Run.steps w) (Run.SelectRecentMessages userId "sms" cutoff)
        = Run.NoFault ->
        Obs.reminded userId cutoff (Run.db w) = false ->
        Js.truthy_str (Scanner.display_name (Pg.joined v)) = true ->
        Js.truthy_str (Js.join ", " (Js.dedupe (map Scanner.product_name (v :: r)))) = true ->
        exists w' link,
          Scanner.processUser env cutoff userId (v :: r) w = (Run.Normal tt, w')
          /\ In (Run.OpenAI (Scanner.display_name (Pg.joined v))
                   (Js.join ", " (Js.dedupe (map Scanner.product_name (v :: r))))
                   (Urgency.urgencyLevel
                      (Urgency.minutesSinceView now (Scanner.timestamp oldest)))
                   (Some link)) (Run.trace w')).
Proof.
  intros now.
  exists (fold_left Scanner.older r v).
  destruct (fold_older_spec r v) as [Hin Hmin].
  split; [reflexivity |]. split; [exact Hin |]. split; [exact Hmin |].
  split; [| split].
  - cbv zeta.
    pose proof (minutes_floor now (Scanner.timestamp (fold_left Scanner.older r v))) as Hf.
    cbv zeta in Hf. split; [exact Hf |].
    unfold Urgency.urgencyLevel.
    destruct (Z.ltb_spec 20 (Urgency.minutesSinceView now
                (Scanner.timestamp (fold_left Scanner.older r v)))) as [H20 | H20].
    + left. split; [reflexivity | lia].
    + destruct (Z.ltb_spec 15 (Urgency.minutesSinceView now
                  (Scanner.timestamp (fold_left Scanner.older r v)))) as [H15 | H15].
      * right; left. split; [reflexivity | lia].
      * right; right. split; [reflexivity | lia].
  - cbn [map]. unfold Urgency.minutesSinceView.
    repeat match goal with
           | |- context [?t + ?a - ?t] => replace (t + a - t) with a by lia
           end.
    reflexivity.
  - intros Ht Hf Hr Hn Hp. now apply processUser_asks_composer.
Qed.

(** Alice's view is 15.01 minutes old when her group is processed: the
    composer is asked for a low-urgency text. *)
Lemma urgency_by_whole_minutes_witness :
  exists w' link,
    Scanner.processUser Sample.quiet (900600 - 1800000) "u-alice" [Sample.alice_view]
      (Sample.start Sample.shop Sample.tally0) = (Run.Normal tt, w')
    /\ In (Run.OpenAI "a" "Widget" "low" (Some link)) (Run.trace w').
Proof.
  destruct (urgency_by_whole_minutes Sample.quiet (900600 - 1800000) "u-alice"
              (Sample.start Sample.shop Sample.tally0) Sample.alice_view [])
    as (oldest & Hred & _ & _ & _ & _ & Hask).
  injection Hred as <-.
  exact (Hask eq_refl eq_refl eq_refl eq_refl eq_refl).
Defined.

(** The claim C1 as it is worded compares the unrounded age; the code
    disagrees with it at 15.01 and 20.01 minutes (900600 and 1200600
    milliseconds).  In a tick run 15.01 minutes after Alice's only view, the
    composer is asked for a low-urgency text where the claim has medium. *)
Lemma urgency_of_15_01_minutes_is_low :
  Urgency.urgencyLevel (Urgency.minutesSinceView 900600 0) = "low"
  /\ Urgency.spec_tier (900600 - 0) = "medium"
  /\ Urgency.urgencyLevel (Urgency.minutesSinceView 1200600 0) = "medium"
  /\ Urgency.spec_tier (1200600 - 0) = "high"
  /\ ~ (forall now oldest,
          Urgency.urgencyLevel (Urgency.minutesSinceView now oldest)
          = Urgency.spec_tier (now - oldest))
  /\ exists w',
       Scanner.checkAbandonedCarts Sample.quiet (Sample.start Sample.shop Sample.tally0)
       = (Run.Normal tt, w')
       /\ In (Run.OpenAI "a" "Widget" "low"
                (Some "https://shop.example/checkout?products=p1&user=u-alice"))
            (Run.trace w').
Proof.
  do 4 (split; [reflexivity |]). split.
  - intros H. specialize (H 900600 0). vm_compute in H. discriminate H.
  - eexists. split; [vm_compute; reflexivity |]. cbn. tauto.
Qed.

(** C2.  A user for whom [messages_sent] holds an SMS reminder sent at or
    after the cutoff (the tick's clock less thirty minutes) gets no insert
    request and no new row in that tick: the loop body asks for such rows,
    logs the skip and goes on.  A user with an address and a view not older
    than the cutoff has a group in the tick; with no such row the group passes
    the gate and is counted in [processedCount] (the query itself
    succeeding). *)
Theorem cooldown_dedupe (env : Run.Env) (w : Run.World Scanner.Tally) (u : string) :
  let cutoff := Run.Date_now env (S (Run.steps w)) - 30 * 60 * 1000 in
  (forall c d, Obs.reminded u c d = true <->
     exists m, In m (Pg.messages_sent d)
               /\ MessagesSent.user_id m = u
               /\ MessagesSent.message_type m = "sms"
               /\ c <= MessagesSent.sent_at m)
  /\ (Obs.reminded u cutoff (Run.db w) = true ->
      exists w',
        Scanner.checkAbandonedCarts env w = (Run.Normal tt, w')
        /\ Obs.inserts u (Run.trace w') = Obs.inserts u (Run.trace w)
        /\ Obs.rows_for u (Run.db w') = Obs.rows_for u (Run.db w))
  /\ (forall c first rest (w1 : Run.World Scanner.Tally),
        Js.truthy_opt (Users.email (Pg.joined first)) = true ->
        Run.supabase_fault env (Run.steps w1) (Run.SelectRecentMessages u "sms" c)
        = Run.NoFault ->
        (Obs.reminded u c (Run.db w1) = true ->
         Scanner.processUser env c u (first :: rest) w1
         = (Run.Normal tt,
            {| Run.db := Run.db w1; Run.steps := S (Run.steps w1);
               Run.trace :=
                 Run.Console (Run.SkipRecentlyReminded
                                (Scanner.email_text (Pg.joined first)))
                 :: Run.Supabase (Run.SelectRecentMessages u "sms" c)
                 :: Run.trace w1;
               Run.locals := Run.locals w1 |}))
        /\ (Obs.reminded u c (Run.db w1) = false ->
            exists w2,
              Scanner.processUser env c u (first :: rest) w1 = (Run.Normal tt, w2)
              /\ Scanner.processedCount (Run.locals w2)
                 = S (Scanner.processedCount (Run.locals w1))))
  /\ (forall v,
        In v (Pg.products_viewed (Run.db w)) ->
        ProductsViewed.user_id v = Some u ->
        cutoff <= ProductsViewed.timestamp v ->
        Obs.has_address (Run.db w) u = true ->
        exists first rest,
          In (u, first :: rest)
             (Scanner.groupByUser (Pg.select_recent_views cutoff (Run.db w)))
          /\ Js.truthy_opt (Users.email (Pg.joined first)) = true).
Proof.
  intros cutoff. split; [intros c d; apply reminded_iff |]. split; [| split].
  - intros Hr. apply tick_quiet_for. now right.
  - intros c first rest w1 Ht Hf. split; intros Hr.
    + now apply processUser_skips_reminded.
    + now apply processUser_counts.
  - intros v. apply qualifying_view_has_group.
Qed.

(** A reminder sent five minutes before the tick silences it for Alice;
    one sent 31 minutes before does not, and Alice is processed again. *)
Lemma cooldown_dedupe_witness :
  (exists w',
     Scanner.checkAbandonedCarts Sample.quiet
       (Sample.start (Sample.shop_reminded 600600) Sample.tally0) = (Run.Normal tt, w')
     /\ Obs.inserts "u-alice" (Run.trace w') = 0%nat
     /\ Obs.rows_for "u-alice" (Run.db w') = [Sample.reminder "m0" 600600])
  /\ (exists w2,
        Scanner.processUser Sample.quiet (900600 - 1800000) "u-alice" [Sample.alice_view]
          (Sample.start (Sample.shop_reminded (900600 - 1860000)) Sample.tally0)
        = (Run.Normal tt, w2)
        /\ Scanner.processedCount (Run.locals w2) = 1%nat).
Proof.
  pose proof (cooldown_dedupe Sample.quiet
                (Sample.start (Sample.shop_reminded 600600) Sample.tally0) "u-alice")
    as (_ & Hskip & Hgate & _).
  split.
  - exact (Hskip eq_refl).
  - exact (proj2 (Hgate (900600 - 1800000) Sample.alice_view []
                    (Sample.start (Sample.shop_reminded (900600 - 1860000)) Sample.tally0)
                    eq_refl eq_refl) eq_refl).
Defined.

(** C3, as the code has it.  When the text generator answers for a user
    that passed the gates, the loop body makes exactly one insert request
    into [messages_sent] for that user, with [message_type] sms, the
    generated text as [content] and the clock's reading at that moment as
    [sent_at].  When the request succeeds the row is added, the success is
    logged and [sentCount] goes up by one; when it returns an error no row is
    added and the error is logged under the user's identifier; when it is
    rejected the loop body's [catch] logs the exception under the user's
    identifier; in the last two cases [sentCount] stays as it was.  The
    scanner has no production mode: it logs the text it would send, and
    neither the loop body nor the tick ever calls the SMS gateway, which
    [sendActualSMS] alone does. *)
Theorem reminder_recorded_once_never_delivered
    (env : Run.Env) (cutoff : Z) (userId : string) (first : Scanner.View)
    (rest : list Scanner.View) (w : Run.World Scanner.Tally) (c : string) :
  let user := Pg.joined first in
  let views := first :: rest in
  let productNames := Js.join ", " (Js.dedupe (map Scanner.product_name views)) in
  let urgencyLevel :=
    Urgency.urgencyLevel
      (Urgency.minutesSinceView (Run.Date_now env (1 + Run.steps w))
         (Scanner.timestamp (fold_left Scanner.older rest first))) in
  let checkoutLink :=
    Scanner.template (Run.SHOP_URL env) ++ "/checkout?products="
      ++ Js.join "," (Js.dedupe (map Scanner.product_id views)) ++ "&user=" ++ userId in
  let message := Cleanup.clean c in
  let sent_at := Run.Date_now env (3 + Run.steps w) in
  let q := Run.InsertMessage userId "sms" message sent_at in
  let asked :=
    [Run.Supabase q;
     Run.Console (Run.TestModeWouldSend (Scanner.email_text user) message);
     Run.Console (Run.Generated (Scanner.email_text user) message);
     Run.OpenAI (Scanner.display_name user) productNames urgencyLevel (Some checkoutLink);
     Run.Supabase (Run.SelectRecentMessages userId "sms" cutoff)] in
  Js.truthy_opt (Users.email user) = true ->
  Run.supabase_fault env (Run.steps w) (Run.SelectRecentMessages userId "sms" cutoff)
  = Run.NoFault ->
  Obs.reminded userId cutoff (Run.db w) = false ->
  Js.truthy_str (Scanner.display_name user) = true ->
  Js.truthy_str productNames = true ->
  Run.openai_reply env (2 + Run.steps w) = Run.Content c ->
  (exists w',
     Scanner.processUser env cutoff userId views w = (Run.Normal tt, w')
     /\ Obs.inserts userId (Run.trace w') = S (Obs.inserts userId (Run.trace w))
     /\ In (Run.Supabase q) (Run.trace w')
     /\ In (Run.Console (Run.Generated (Scanner.email_text user) message)) (Run.trace w')
     /\ In (Run.Console (Run.TestModeWouldSend (Scanner.email_text user) message))
          (Run.trace w')
     /\ Obs.deliveries (Run.trace w') = Obs.deliveries (Run.trace w)
     /\ Scanner.processedCount (Run.locals w') = S (Scanner.processedCount (Run.locals w))
     /\ match Run.supabase_fault env (4 + Run.steps w) q with
        | Run.NoFault =>
            Run.trace w'
            = (Run.Delay 1000
                 :: Run.Console (Run.MessageLogged (Scanner.email_text user))
                 :: asked ++ Run.trace w)%list
            /\ Scanner.sentCount (Run.locals w') = S (Scanner.sentCount (Run.locals w))
            /\ Pg.messages_sent (Run.db w')
               = (Pg.messages_sent (Run.db w)
                    ++ [{| MessagesSent.id := Run.uuid env (4 + Run.steps w);
                           MessagesSent.user_id := userId;
                           MessagesSent.message_type := "sms";
                           MessagesSent.content := message;
                           MessagesSent.sent_at := sent_at |}])%list
        | Run.Fails e =>
            Run.trace w'
            = (Run.Delay 1000
                 :: Run.Console (Run.ErrLoggingMessage userId e)
                 :: asked ++ Run.trace w)%list
            /\ Scanner.sentCount (Run.locals w') = Scanner.sentCount (Run.locals w)
            /\ Pg.messages_sent (Run.db w') = Pg.messages_sent (Run.db w)
        | Run.Rejects x =>
            Run.trace w'
            = (Run.Console (Run.ErrProcessingUser userId x) :: asked ++ Run.trace w)%list
            /\ Scanner.sentCount (Run.locals w') = Scanner.sentCount (Run.locals w)
        end)
  /\ (forall w0 : Run.World Scanner.Tally,
        exists w1,
          Scanner.checkAbandonedCarts env w0 = (Run.Normal tt, w1)
          /\ Obs.deliveries (Run.trace w1) = Obs.deliveries (Run.trace w0))
  /\ (forall phoneNumber text (w0 : Run.World Scanner.Tally),
        Obs.deliveries (Run.trace (snd (Scanner.sendActualSMS env phoneNumber text w0)))
        = S (Obs.deliveries (Run.trace w0))).
Proof.
  intros user views productNames urgencyLevel checkoutLink message sent_at q asked
    Ht Hf Hr Hn Hp Hc.
  split; [| split].
  - now apply processUser_reminds.
  - intros w0.
    destruct (checkAbandonedCarts_spec env w0) as (w1 & Hrun & _ & _ & _ & _ & Hd & _).
    now exists w1.
  - intros phoneNumber text w0. unfold Scanner.sendActualSMS. run.
    destruct (Run.twilio_reply env (Run.steps w0)); reflexivity.
Qed.

(** Alice's reminder with a working database, and with inserts into
    [messages_sent] returning an error: the error is logged and nothing is
    recorded. *)
Lemma reminder_recorded_once_never_delivered_witness :
  (exists w',
     Scanner.processUser Sample.quiet (900600 - 1800000) "u-alice" [Sample.alice_view]
       (Sample.start Sample.shop Sample.tally0) = (Run.Normal tt, w')
     /\ Obs.inserts "u-alice" (Run.trace w') = 1%nat
     /\ Obs.deliveries (Run.trace w') = 0%nat
     /\ Scanner.sentCount (Run.locals w') = 1%nat
     /\ Pg.messages_sent (Run.db w')
        = [{| MessagesSent.id := "m1"; MessagesSent.user_id := "u-alice";
              MessagesSent.message_type := "sms"; MessagesSent.content := Sample.text;
              MessagesSent.sent_at := 900600 |}])
  /\ (exists w' l,
        Scanner.processUser Sample.no_log (900600 - 1800000) "u-alice" [Sample.alice_view]
          (Sample.start Sample.shop Sample.tally0) = (Run.Normal tt, w')
        /\ Run.trace w'
           = Run.Delay 1000
               :: Run.Console (Run.ErrLoggingMessage "u-alice" Sample.down) :: l
        /\ Obs.inserts "u-alice" (Run.trace w') = 1%nat
        /\ Scanner.sentCount (Run.locals w') = 0%nat
        /\ Pg.messages_sent (Run.db w') = []).
Proof.
  split.
  - destruct (reminder_recorded_once_never_delivered Sample.quiet (900600 - 1800000)
                "u-alice" Sample.alice_view [] (Sample.start Sample.shop Sample.tally0)
                Sample.text eq_refl eq_refl eq_refl eq_refl eq_refl eq_refl)
      as [(w' & Hrun & Hins & _ & _ & _ & Hdel & _ & Hout) _].
    cbn in Hout. destruct Hout as (_ & Hsent & Hrow).
    exists w'. split; [exact Hrun |]. split; [exact Hins |]. split; [exact Hdel |].
    split; [exact Hsent | exact Hrow].
  - destruct (reminder_recorded_once_never_delivered Sample.no_log (900600 - 1800000)
                "u-alice" Sample.alice_view [] (Sample.start Sample.shop Sample.tally0)
                Sample.text eq_refl eq_refl eq_refl eq_refl eq_refl eq_refl)
      as [(w' & Hrun & Hins & _ & _ & _ & _ & _ & Hout) _].
    cbn in Hout. destruct Hout as (Htr & Hsent & Hrow).
    exists w'. eexists. split; [exact Hrun |]. split; [exact Htr |].
    split; [exact Hins |]. split; [exact Hsent | exact Hrow].
Defined.

(** The claim C3 as it is worded fails on two runs of the tick.  With a
    working database Alice's reminder is generated and recorded while the SMS
    gateway is not called once, in whatever mode the process runs (the tick
    reads no mode).  With inserts into [messages_sent] failing, the text is
    generated and no row is inserted. *)
Lemma generated_but_not_delivered_nor_always_recorded :
  (exists w',
     Scanner.checkAbandonedCarts Sample.quiet (Sample.start Sample.shop Sample.tally0)
     = (Run.Normal tt, w')
     /\ In (Run.Console (Run.Generated "a@x.com" Sample.text)) (Run.trace w')
     /\ Pg.messages_sent (Run.db w')
        = [{| MessagesSent.id := "m1"; MessagesSent.user_id := "u-alice";
              MessagesSent.message_type := "sms"; MessagesSent.content := Sample.text;
              MessagesSent.sent_at := 900600 |}]
     /\ Obs.deliveries (Run.trace w') = 0%nat
     /\ forall to body, ~ In (Run.Twilio to body) (Run.trace w'))
  /\ (exists w',
        Scanner.checkAbandonedCarts Sample.no_log (Sample.start Sample.shop Sample.tally0)
        = (Run.Normal tt, w')
        /\ In (Run.Console (Run.Generated "a@x.com" Sample.text)) (Run.trace w')
        /\ Pg.messages_sent (Run.db w') = []).
Proof.
  split; eexists; (split; [vm_compute; reflexivity |]).
  - split; [cbn; tauto |]. split; [reflexivity |]. split; [reflexivity |].
    intros to body H. cbn in H.
    repeat (destruct H as [H | H]; [discriminate H |]). exact H.
  - split; [cbn; tauto | reflexivity].
Qed.

(** C4.  A view whose [user_id] is null or designates no user row is in
    no batch, whatever the cutoff; a view whose user has no address (no row,
    or a falsy [email]) belongs to a group the loop body only logs and skips,
    and the tick makes no insert request and adds no row for that user. *)
Theorem no_address_no_reminder
    (env : Run.Env) (w : Run.World Scanner.Tally) (v : ProductsViewed.row) :
  In v (Pg.products_viewed (Run.db w)) ->
  let cutoff := Run.Date_now env (S (Run.steps w)) - 30 * 60 * 1000 in
  (Pg.join_user (Run.db w) v = None ->
   forall c j, In j (Pg.select_recent_views c (Run.db w)) -> Pg.view j <> v)
  /\ (forall i,
        ProductsViewed.user_id v = Some i ->
        Obs.has_address (Run.db w) i = false ->
        (forall first rest (w1 : Run.World Scanner.Tally),
           In (i, first :: rest)
              (Scanner.groupByUser (Pg.select_recent_views cutoff (Run.db w))) ->
           Scanner.processUser env cutoff i (first :: rest) w1
           = (Run.Normal tt,
              {| Run.db := Run.db w1; Run.steps := Run.steps w1;
                 Run.trace := Run.Console (Run.SkipNoEmail i) :: Run.trace w1;
                 Run.locals := Run.locals w1 |}))
        /\ exists w',
             Scanner.checkAbandonedCarts env w = (Run.Normal tt, w')
             /\ Obs.inserts i (Run.trace w') = Obs.inserts i (Run.trace w)
             /\ Obs.rows_for i (Run.db w') = Obs.rows_for i (Run.db w)).
Proof.
  intros Hv cutoff. split.
  - intros Hnone c j Hj E.
    apply select_recent_views_In in Hj as (_ & _ & Hjoin). congruence.
  - intros i Hi Ha. split.
    + intros first rest w1 Hin.
      destruct (group_user _ _ _ _ _ Hin) as (Hf & _).
      unfold Obs.has_address in Ha. rewrite Hf in Ha.
      unfold Scanner.processUser. rewrite Ha. reflexivity.
    + apply tick_quiet_for. now left.
Qed.

Lemma no_address_no_reminder_witness :
  (forall c j, In j (Pg.select_recent_views c Sample.shop) ->
     Pg.view j <> Sample.view "v3" None "p1" "Widget" 0)
  /\ exists w',
       Scanner.checkAbandonedCarts Sample.quiet (Sample.start Sample.shop Sample.tally0)
       = (Run.Normal tt, w')
       /\ Obs.inserts "u-ghost" (Run.trace w') = 0%nat
       /\ Obs.rows_for "u-ghost" (Run.db w') = [].
Proof.
  split.
  - refine (proj1 (no_address_no_reminder Sample.quiet
                     (Sample.start Sample.shop Sample.tally0)
                     (Sample.view "v3" None "p1" "Widget" 0) _) eq_refl).
    cbn. tauto.
  - refine (proj2 (proj2 (no_address_no_reminder Sample.quiet
                            (Sample.start Sample.shop Sample.tally0)
                            (Sample.view "v2" (Some "u-ghost") "p1" "Widget" 0) _)
                     "u-ghost" eq_refl eq_refl)).
    cbn. tauto.
Defined.

(** C9.  The keys of [userGroups] are pairwise distinct and every view of
    the batch lies in the group of its user and in no other; the loop body
    makes at most one insert request, for its own user; so a tick makes at
    most one insert request per user and adds at most one row per user. *)
Theorem one_insert_per_user_per_tick (env : Run.Env) (w : Run.World Scanner.Tally) :
  let cutoff := Run.Date_now env (S (Run.steps w)) - 30 * 60 * 1000 in
  let batch := Pg.select_recent_views cutoff (Run.db w) in
  let userGroups := Scanner.groupByUser batch in
  NoDup (map fst userGroups)
  /\ (forall j, In j batch ->
        exists vs, In (Scanner.key j, vs) userGroups /\ In j vs
                   /\ forall k' vs', In (k', vs') userGroups -> In j vs' ->
                                     k' = Scanner.key j /\ vs' = vs)
  /\ (forall c userId views (w1 : Run.World Scanner.Tally),
        exists w2,
          Scanner.processUser env c userId views w1 = (Run.Normal tt, w2)
          /\ (Obs.inserts userId (Run.trace w2)
              <= Obs.inserts userId (Run.trace w1) + 1)%nat
          /\ forall u, u <> userId ->
                       Obs.inserts u (Run.trace w2) = Obs.inserts u (Run.trace w1))
  /\ exists w' rows,
       Scanner.checkAbandonedCarts env w = (Run.Normal tt, w')
       /\ Pg.messages_sent (Run.db w') = (Pg.messages_sent (Run.db w) ++ rows)%list
       /\ forall u,
            (Obs.inserts u (Run.trace w') <= Obs.inserts u (Run.trace w) + 1)%nat
            /\ (List.length (filter (Obs.row_for u) rows) <= 1)%nat.
Proof.
  intros cutoff batch userGroups.
  destruct (groupByUser_grouped batch) as [[Hnd Hg] Hcov].
  split; [exact Hnd |]. split; [| split].
  - intros j Hj. destruct (Hcov j Hj) as (vs & Hin & Hjv).
    exists vs. split; [exact Hin |]. split; [exact Hjv |].
    intros k' vs' Hin' Hjv'.
    destruct (Hg _ _ Hin') as [_ Hmem]. destruct (Hmem j Hjv') as [Hk _].
    split; [now symmetry |]. subst k'.
    now apply (NoDup_fst_unique userGroups (Scanner.key j)).
  - intros c userId views w1.
    destruct (processUser_spec env c userId views w1)
      as (w2 & Hrun & _ & _ & _ & _ & _ & Hoth & Hself & _).
    exists w2. auto.
  - destruct (checkAbandonedCarts_spec env w)
      as (w' & Hrun & _ & _ & _ & _ & _ & (rows & Hm & _ & Hlen) & Hcnt & _).
    exists w', rows. split; [exact Hrun |]. split; [exact Hm |].
    intros u. split; [apply Hcnt |]. specialize (Hlen u). specialize (Hcnt u). lia.
Qed.

Section Isolation.
Import Run Scanner Obs.
Variable env : Env.

(** A failure of the text generator is logged twice, by the composer and
    by the loop body, and leaves the tables as they were. *)
Lemma processUser_composer_failure (cutoff : Z) (userId : string) (first : View)
    (rest : list View) (w : World Tally) (x : Exn) :
  Js.truthy_opt (Users.email (Pg.joined first)) = true ->
  supabase_fault env (steps w) (SelectRecentMessages userId "sms" cutoff) = NoFault ->
  reminded userId cutoff (db w) = false ->
  Js.truthy_str (display_name (Pg.joined first)) = true ->
  Js.truthy_str (Js.join ", " (Js.dedupe (map product_name (first :: rest)))) = true ->
  openai_reply env (2 + steps w) = Failure x ->
  exists w',
    processUser env cutoff userId (first :: rest) w = (Normal tt, w')
    /\ (exists l, trace w'
                  = Console (ErrProcessingUser userId x) :: Console (ErrGenerating x) :: l)
    /\ db w' = db w.
Proof.
  intros Ht Hf Hr Hn Hp Hc. rewrite reminded_select in Hr. cbn [Nat.add] in Hc.
  unfold processUser, remind, Composer.generateReminderMessage.
  rewrite Ht. run. rewrite Hf. run. rewrite Hr.
  rewrite Hn, Hp, urgencyLevel_valid. run. rewrite Hc. run.
  eexists. split; [reflexivity |]. cbn [trace db].
  split; [eexists; reflexivity | now destruct (db w)].
Qed.

Lemma processUser_query_rejected (cutoff : Z) (userId : string) (first : View)
    (rest : list View) (w : World Tally) (x : Exn) :
  Js.truthy_opt (Users.email (Pg.joined first)) = true ->
  supabase_fault env (steps w) (SelectRecentMessages userId "sms" cutoff) = Rejects x ->
  processUser env cutoff userId (first :: rest) w
  = (Normal tt,
     {| db := db w; steps := S (steps w);
        trace := Console (ErrProcessingUser userId x)
                 :: Supabase (SelectRecentMessages userId "sms" cutoff) :: trace w;
        locals := locals w |}).
Proof.
  intros Ht Hf. unfold processUser. rewrite Ht. run. rewrite Hf. reflexivity.
Qed.

Lemma tick_fetch_fails (w : World Tally) (f : Fault) :
  let cutoff := Date_now env (S (steps w)) - 30 * 60 * 1000 in
  supabase_fault env (2 + steps w) (SelectRecentViews cutoff) = f ->
  f <> NoFault ->
  checkAbandonedCarts env w
  = (Normal tt,
     {| db := db w; steps := 3 + steps w;
        trace := Console (match f with
                          | Rejects x => ErrAbandonedCheck x
                          | Fails e => ErrFetchingViews e
                          | NoFault => NoRecentViews
                          end)
                 :: Supabase (SelectRecentViews cutoff)
                 :: Console (Checking (Date_now env (steps w))) :: trace w;
        locals := locals w |}).
Proof.
  intros cutoff Hf Hne. unfold checkAbandonedCarts. run. fold cutoff.
  cbn [Nat.add] in Hf. rewrite Hf. destruct f; [congruence | reflexivity | reflexivity].
Qed.

End Isolation.

Section Visits.
Import Run Scanner Obs.
Variable env : Env.

Lemma follows_refl (w : World Tally) : follows w w.
Proof.
  split; [lia |]. split; [now exists [] | exists []; now rewrite app_nil_r].
Qed.

Lemma follows_trans (w1 w2 w3 : World Tally) :
  follows w1 w2 -> follows w2 w3 -> follows w1 w3.
Proof.
  intros (Hs & (l & Hl) & (r & Hr)) (Hs' & (l' & Hl') & (r' & Hr')).
  split; [lia |]. split.
  - exists (l' ++ l)%list. now rewrite Hl', Hl, app_assoc.
  - exists (r ++ r')%list. now rewrite Hr', Hr, app_assoc.
Qed.

(** The loop body only adds events and rows. *)
Lemma processUser_extends (cutoff : Z) (userId : string) (views : list View)
    (w : World Tally) :
  exists w', processUser env cutoff userId views w = (Normal tt, w') /\ follows w w'.
Proof.
  unfold processUser, remind, Composer.generateReminderMessage, follows.
  repeat (run; try branch).
  all: eexists; split; [reflexivity |]; cbn [db steps trace Pg.messages_sent].
  all: split; [lia |].
  all: split; [prefixed |].
  all: first [exists []; now rewrite app_nil_r | eexists [_]; reflexivity].
Qed.

(** The loop runs the body on every group, one after the other, whatever
    the runs before did. *)
Lemma forEachUser_visits (cutoff : Z) (g : Groups) :
  forall w : World Tally,
  exists w',
    forEachUser env cutoff g w = (Normal tt, w')
    /\ follows w w'
    /\ forall k vs, In (k, vs) g -> processed_in env cutoff k vs w w'.
Proof.
  induction g as [|[userId views] g IH]; intros w.
  - exists w. cbn [forEachUser]. run. split; [reflexivity |].
    split; [apply follows_refl | intros k vs []].
  - destruct (processUser_extends cutoff userId views w) as (w1 & Hrun & Hf1).
    destruct (IH w1) as (w' & Hrun' & Hf2 & Hall).
    exists w'. cbn [forEachUser]. unfold bind at 1. rewrite Hrun.
    fold (forEachUser env cutoff g).
    split; [exact Hrun' |].
    split; [now apply (follows_trans w w1 w') |].
    intros k vs [E | Hin].
    + injection E as <- <-.
      exists w, w1. split; [exact Hrun |]. split; [apply follows_refl | auto].
    + destruct (Hall k vs Hin) as (wa & wb & Hb & Ha & Hab & Hbw).
      exists wa, wb. split; [exact Hb |].
      split; [now apply (follows_trans w w1 wa) | auto].
Qed.

(** So does the tick, on every group of the batch it fetched. *)
Lemma checkAbandonedCarts_visits (w : World Tally) :
  let cutoff := Date_now env (S (steps w)) - 30 * 60 * 1000 in
  supabase_fault env (2 + steps w) (SelectRecentViews cutoff) = NoFault ->
  exists w',
    checkAbandonedCarts env w = (Normal tt, w')
    /\ forall k vs, In (k, vs) (groupByUser (Pg.select_recent_views cutoff (db w))) ->
                    processed_in env cutoff k vs w w'.
Proof.
  intros cutoff Hf. cbn [Nat.add] in Hf. unfold checkAbandonedCarts. fold cutoff.
  run. fold cutoff. rewrite Hf. run.
  destruct (Pg.select_recent_views cutoff (db w)) as [|v batch] eqn:Eb.
  - cbn [List.length Nat.eqb]. run. eexists. split; [reflexivity |].
    intros k vs [].
  - cbn [List.length Nat.eqb]. run.
    match goal with
    | |- context [forEachUser env cutoff ?g ?w1] =>
        destruct (forEachUser_visits cutoff g w1) as (w2 & Hrun & _ & Hall);
        rewrite Hrun
    end.
    eexists. split; [reflexivity |].
    intros k vs Hin.
    destruct (Hall k vs Hin) as (wa & wb & Hb & Ha & Hab & Hbw).
    exists wa, wb. split; [exact Hb |]. split; [| split; [exact Hab |]].
    + eapply follows_trans; [| exact Ha].
      split; [cbn [steps]; lia |]. cbn [trace db].
      split; [eexists [_; _; _]; reflexivity | exists []; now rewrite app_nil_r].
    + eapply follows_trans; [exact Hbw |].
      split; [cbn [steps]; lia |]. cbn [trace db].
      split; [eexists [_]; reflexivity | exists []; now rewrite app_nil_r].
Qed.

(** A cooldown query that returns an error is logged under the user's
    identifier, and the user is left alone. *)
Lemma processUser_query_fails (cutoff : Z) (userId : string) (first : View)
    (rest : list View) (w : World Tally) (e : Pg.PgError) :
  Js.truthy_opt (Users.email (Pg.joined first)) = true ->
  supabase_fault env (steps w) (SelectRecentMessages userId "sms" cutoff) = Fails e ->
  processUser env cutoff userId (first :: rest) w
  = (Normal tt,
     {| db := db w; steps := S (steps w);
        trace := Console (ErrCheckingOrders userId e)
                 :: Supabase (SelectRecentMessages userId "sms" cutoff) :: trace w;
        locals := locals w |}).
Proof.
  intros Ht Hf. unfold processUser. rewrite Ht. run. rewrite Hf. reflexivity.
Qed.

(** Whatever the composer throws is logged under the user's identifier by
    the loop body, which then returns. *)
Lemma processUser_composer_throws (cutoff : Z) (userId : string) (first : View)
    (rest : list View) (w wg : World Tally) (x : Exn) :
  let user := Pg.joined first in
  let views := first :: rest in
  let productNames := Js.join ", " (Js.dedupe (map product_name views)) in
  let urgencyLevel :=
    Urgency.urgencyLevel
      (Urgency.minutesSinceView (Date_now env (1 + steps w))
         (timestamp (fold_left older rest first))) in
  let checkoutLink :=
    template (SHOP_URL env) ++ "/checkout?products="
      ++ Js.join "," (Js.dedupe (map product_id views)) ++ "&user=" ++ userId in
  Js.truthy_opt (Users.email user) = true ->
  supabase_fault env (steps w) (SelectRecentMessages userId "sms" cutoff) = NoFault ->
  reminded userId cutoff (db w) = false ->
  Composer.generateReminderMessage env (display_name user) productNames urgencyLevel
    (Some checkoutLink)
    {| db := db w; steps := 2 + steps w;
       trace := Supabase (SelectRecentMessages userId "sms" cutoff) :: trace w;
       locals := {| processedCount := S (processedCount (locals w));
                    sentCount := sentCount (locals w) |} |}
  = (Thrown x, wg) ->
  processUser env cutoff userId views w
  = (Normal tt,
     {| db := db wg; steps := steps wg;
        trace := Console (ErrProcessingUser userId x) :: trace wg;
        locals := locals wg |}).
Proof.
  intros user views productNames urgencyLevel checkoutLink Ht Hf Hr Hg.
  subst user views productNames urgencyLevel checkoutLink.
  rewrite reminded_select in Hr. cbn [Nat.add] in Hg.
  unfold processUser, remind.
  rewrite Ht. run. rewrite Hf. run. rewrite Hr. run.
  rewrite Hg. reflexivity.
Qed.

End Visits.

(** C10.  [checkAbandonedCarts] returns normally in every environment, and
    every failure is logged.  A failed batch fetch, returned or thrown, is
    logged and ends the tick with the database untouched.  When the batch is
    fetched, the loop body is run on every group of the batch, whatever the
    runs on the groups before it did.  The loop body returns normally for
    every group, and logs under the user's identifier: a cooldown query that
    returns an error or is rejected; whatever the composer throws (a failure
    of the text generator is logged by the composer as well); an insert that
    returns an error or is rejected; and an exception thrown by the body
    itself. *)
Theorem checkAbandonedCarts_never_throws (env : Run.Env) (w : Run.World Scanner.Tally) :
  let cutoff := Run.Date_now env (S (Run.steps w)) - 30 * 60 * 1000 in
  (exists w', Scanner.checkAbandonedCarts env w = (Run.Normal tt, w'))
  /\ (forall f,
        Run.supabase_fault env (2 + Run.steps w) (Run.SelectRecentViews cutoff) = f ->
        f <> Run.NoFault ->
        Scanner.checkAbandonedCarts env w
        = (Run.Normal tt,
           {| Run.db := Run.db w; Run.steps := 3 + Run.steps w;
              Run.trace :=
                Run.Console (match f with
                             | Run.Rejects x => Run.ErrAbandonedCheck x
                             | Run.Fails e => Run.ErrFetchingViews e
                             | Run.NoFault => Run.NoRecentViews
                             end)
                :: Run.Supabase (Run.SelectRecentViews cutoff)
                :: Run.Console (Run.Checking (Run.Date_now env (Run.steps w)))
                :: Run.trace w;
              Run.locals := Run.locals w |}))
  /\ (Run.supabase_fault env (2 + Run.steps w) (Run.SelectRecentViews cutoff)
      = Run.NoFault ->
      exists w',
        Scanner.checkAbandonedCarts env w = (Run.Normal tt, w')
        /\ forall k vs,
             In (k, vs) (Scanner.groupByUser (Pg.select_recent_views cutoff (Run.db w))) ->
             Obs.processed_in env cutoff k vs w w')
  /\ (forall c userId views (w1 : Run.World Scanner.Tally),
        exists w2, Scanner.processUser env c userId views w1 = (Run.Normal tt, w2))
  /\ (forall c userId first rest (w1 : Run.World Scanner.Tally) f,
        Js.truthy_opt (Users.email (Pg.joined first)) = true ->
        Run.supabase_fault env (Run.steps w1) (Run.SelectRecentMessages userId "sms" c)
        = f ->
        f <> Run.NoFault ->
        Scanner.processUser env c userId (first :: rest) w1
        = (Run.Normal tt,
           {| Run.db := Run.db w1; Run.steps := S (Run.steps w1);
              Run.trace :=
                Run.Console (match f with
                             | Run.Rejects x => Run.ErrProcessingUser userId x
                             | Run.Fails e => Run.ErrCheckingOrders userId e
                             | Run.NoFault => Run.SkipNoEmail userId
                             end)
                :: Run.Supabase (Run.SelectRecentMessages userId "sms" c)
                :: Run.trace w1;
              Run.locals := Run.locals w1 |}))
  /\ (forall c userId first rest (w1 wg : Run.World Scanner.Tally) x,
        Js.truthy_opt (Users.email (Pg.joined first)) = true ->
        Run.supabase_fault env (Run.steps w1) (Run.SelectRecentMessages userId "sms" c)
        = Run.NoFault ->
        Obs.reminded userId c (Run.db w1) = false ->
        Composer.generateReminderMessage env (Scanner.display_name (Pg.joined first))
          (Js.join ", " (Js.dedupe (map Scanner.product_name (first :: rest))))
          (Urgency.urgencyLevel
             (Urgency.minutesSinceView (Run.Date_now env (1 + Run.steps w1))
                (Scanner.timestamp (fold_left Scanner.older rest first))))
          (Some (Scanner.template (Run.SHOP_URL env) ++ "/checkout?products="
                   ++ Js.join "," (Js.dedupe (map Scanner.product_id (first :: rest)))
                   ++ "&user=" ++ userId))
          {| Run.db := Run.db w1; Run.steps := 2 + Run.steps w1;
             Run.trace :=
               Run.Supabase (Run.SelectRecentMessages userId "sms" c) :: Run.trace w1;
             Run.locals :=
               {| Scanner.processedCount := S (Scanner.processedCount (Run.locals w1));
                  Scanner.sentCount := Scanner.sentCount (Run.locals w1) |} |}
        = (Run.Thrown x, wg) ->
        Scanner.processUser env c userId (first :: rest) w1
        = (Run.Normal tt,
           {| Run.db := Run.db wg; Run.steps := Run.steps wg;
              Run.trace := Run.Console (Run.ErrProcessingUser userId x) :: Run.trace wg;
              Run.locals := Run.locals wg |}))
  /\ (forall c userId first rest (w1 : Run.World Scanner.Tally) x,
        Js.truthy_opt (Users.email (Pg.joined first)) = true ->
        Run.supabase_fault env (Run.steps w1) (Run.SelectRecentMessages userId "sms" c)
        = Run.NoFault ->
        Obs.reminded userId c (Run.db w1) = false ->
        Js.truthy_str (Scanner.display_name (Pg.joined first)) = true ->
        Js.truthy_str
          (Js.join ", " (Js.dedupe (map Scanner.product_name (first :: rest)))) = true ->
        Run.openai_reply env (2 + Run.steps w1) = Run.Failure x ->
        exists w2 l,
          Scanner.processUser env c userId (first :: rest) w1 = (Run.Normal tt, w2)
          /\ Run.trace w2
             = Run.Console (Run.ErrProcessingUser userId x)
                 :: Run.Console (Run.ErrGenerating x) :: l
          /\ Run.db w2 = Run.db w1)
  /\ (forall c userId first rest (w1 : Run.World Scanner.Tally) text,
        let q := Run.InsertMessage userId "sms" (Cleanup.clean text)
                   (Run.Date_now env (3 + Run.steps w1)) in
        Js.truthy_opt (Users.email (Pg.joined first)) = true ->
        Run.supabase_fault env (Run.steps w1) (Run.SelectRecentMessages userId "sms" c)
        = Run.NoFault ->
        Obs.reminded userId c (Run.db w1) = false ->
        Js.truthy_str (Scanner.display_name (Pg.joined first)) = true ->
        Js.truthy_str
          (Js.join ", " (Js.dedupe (map Scanner.product_name (first :: rest)))) = true ->
        Run.openai_reply env (2 + Run.steps w1) = Run.Content text ->
        exists w2 l,
          Scanner.processUser env c userId (first :: rest) w1 = (Run.Normal tt, w2)
          /\ match Run.supabase_fault env (4 + Run.steps w1) q with
             | Run.NoFault =>
                 Run.trace w2
                 = Run.Delay 1000
                     :: Run.Console
                          (Run.MessageLogged (Scanner.email_text (Pg.joined first)))
                     :: Run.Supabase q :: l
             | Run.Fails e =>
                 Run.trace w2
                 = Run.Delay 1000 :: Run.Console (Run.ErrLoggingMessage userId e)
                     :: Run.Supabase q :: l
             | Run.Rejects x =>
                 Run.trace w2
                 = Run.Console (Run.ErrProcessingUser userId x) :: Run.Supabase q :: l
             end)
  /\ (forall c userId (w1 : Run.World Scanner.Tally),
        Scanner.processUser env c userId [] w1
        = (Run.Normal tt,
           {| Run.db := Run.db w1; Run.steps := Run.steps w1;
              Run.trace :=
                Run.Console
                  (Run.ErrProcessingUser userId
                     "Cannot read properties of undefined (reading 'users')")
                :: Run.trace w1;
              Run.locals := Run.locals w1 |}))
  /\ (forall c g (w1 : Run.World Scanner.Tally),
        exists w2,
          Scanner.forEachUser env c g w1 = (Run.Normal tt, w2)
          /\ (forall k vs, In (k, vs) g -> Obs.processed_in env c k vs w1 w2)
          /\ forall k first rest,
               In (k, first :: rest) g ->
               Js.truthy_opt (Users.email (Pg.joined first)) = true ->
               In (Run.Supabase (Run.SelectRecentMessages k "sms" c)) (Run.trace w2)).
Proof.
  intros cutoff.
  split.
  { destruct (checkAbandonedCarts_spec env w) as (w' & Hrun & _). now exists w'. }
  split; [intros f Hf Hne; now apply tick_fetch_fails |].
  split; [apply checkAbandonedCarts_visits |].
  split.
  { intros c userId views w1.
    destruct (processUser_spec env c userId views w1) as (w2 & Hrun & _). now exists w2. }
  split.
  { intros c userId first rest w1 f Ht Hf Hne. destruct f as [|e|x]; [now elim Hne | |].
    - now apply processUser_query_fails.
    - now apply processUser_query_rejected. }
  split; [intros; now apply processUser_composer_throws |].
  split.
  { intros c userId first rest w1 x Ht Hf Hr Hn Hp Hc.
    destruct (processUser_composer_failure env c userId first rest w1 x Ht Hf Hr Hn Hp Hc)
      as (w2 & Hrun & Htr & Hd).
    exists w2. destruct Htr as [l Htr]. exists l. auto. }
  split.
  { intros c userId first rest w1 text q Ht Hf Hr Hn Hp Hc.
    destruct (processUser_reminds env c userId first rest w1 text Ht Hf Hr Hn Hp Hc)
      as (w2 & Hrun & _ & _ & _ & _ & _ & _ & Hout).
    exists w2. fold q in Hout.
    destruct (Run.supabase_fault env (4 + Run.steps w1) q);
      [destruct Hout as (Htr & _) | destruct Hout as (Htr & _) | destruct Hout as (Htr & _)];
      eexists; (split; [exact Hrun |]); rewrite Htr; reflexivity. }
  split; [intros c userId w1; reflexivity |].
  intros c g w1.
  destruct (forEachUser_spec env c g w1)
    as (w2 & Hrun & _ & _ & _ & _ & _ & _ & _ & _ & Hask).
  destruct (forEachUser_visits env c g w1) as (w2' & Hrun' & _ & Hall).
  rewrite Hrun in Hrun'. injection Hrun' as <-.
  exists w2. split; [exact Hrun |]. split; [exact Hall | exact Hask].
Qed.

(* ================================================================== *)
(** * The View Recorder                                                *)
(* ================================================================== *)

Section RecorderFacts.
Import Run Recorder Obs.
Variable env : Env.

Lemma trim_empty_of_falsy (s : string) :
  Js.truthy_str s = false -> String.eqb (Js.trim s) "" = true.
Proof. destruct s; [reflexivity | discriminate]. Qed.

Lemma find_app_Some {A : Type} (f : A -> bool) (l l' : list A) (x : A) :
  find f l = Some x -> find f (l ++ l') = Some x.
Proof.
  induction l as [|y l IH]; cbn [find app]; [discriminate |].
  destruct (f y); [trivial | exact IH].
Qed.

Lemma find_None_filter {A : Type} (f : A -> bool) (l : list A) :
  find f l = None -> filter f l = [] /\ existsb f l = false.
Proof.
  induction l as [|y l IH]; cbn [find filter existsb]; [auto |].
  destruct (f y); [discriminate | exact IH].
Qed.

Lemma find_app_None {A : Type} (f : A -> bool) (l : list A) (x : A) :
  find f l = None -> f x = true -> find f (l ++ [x]) = Some x.
Proof.
  induction l as [|y l IH]; cbn [find app]; intros Hn Hx.
  - now rewrite Hx.
  - destruct (f y); [discriminate | now apply IH].
Qed.

(** User resolution never throws and leaves the products and the views
    as they were. *)
Lemma resolve_user_spec (email : string) (w : World (option string)) :
  exists w',
    resolve_user env email w = (Normal tt, w')
    /\ incl (trace w) (trace w')
    /\ Pg.products (db w') = Pg.products (db w)
    /\ Pg.products_viewed (db w') = Pg.products_viewed (db w)
    /\ ((forall n q, is_user_query q = true -> supabase_fault env n q <> NoFault) ->
        locals w' = locals w).
Proof.
  unfold resolve_user, Pg.select_user_by_email.
  repeat (run; try branch).
  all: eexists; split; [reflexivity |]; cbn [db trace locals].
  all: split; [grown |]; do 2 (split; [reflexivity |]).
  all: intros Hall; try reflexivity.
  all: exfalso;
    match goal with
    | H : supabase_fault env ?n ?q = NoFault |- _ => now apply (Hall n q)
    end.
Qed.

(** Product resolution never throws, keeps [userId] and every product row
    there is, and creates the row under the supplied name when there was
    none and the two requests go through. *)
Lemma resolve_product_spec (id name : string) (w : World (option string)) :
  exists w',
    resolve_product env id name w = (Normal tt, w')
    /\ incl (trace w) (trace w')
    /\ locals w' = locals w
    /\ Pg.products_viewed (db w') = Pg.products_viewed (db w)
    /\ (forall i p, product i (db w) = Some p -> product i (db w') = Some p)
    /\ (product id (db w) = None ->
        (forall n q, is_product_query q = true -> supabase_fault env n q = NoFault) ->
        product id (db w') = Some {| Products.id := id; Products.name := name |}).
Proof.
  unfold resolve_product, Pg.select_product, product.
  repeat (run; try branch).
  all: eexists; split; [reflexivity |]; cbn [db trace locals].
  all: split; [grown |]; do 2 (split; [reflexivity |]).
  all: split; [intros i p Hp; cbn [Pg.products]; first [exact Hp | now apply find_app_Some] |].
  all: intros Hnone Hall.
  all: try match goal with
           | H : supabase_fault env ?n ?q = Fails _ |- _ =>
               rewrite (Hall n q eq_refl) in H; discriminate H
           | H : supabase_fault env ?n ?q = Rejects _ |- _ =>
               rewrite (Hall n q eq_refl) in H; discriminate H
           end.
  all: destruct (find_None_filter _ _ Hnone) as [Hfil Hex].
  all: try (rewrite Hfil in *; discriminate).
  all: try (rewrite Hex in *; discriminate).
  all: cbn [Pg.products]; apply find_app_None; [exact Hnone |];
    unfold Pg.product_is; cbn [Products.id]; apply String.eqb_refl.
Qed.

Lemma unusable_blank (v : Js.value) : unusable v = true -> blank v = true.
Proof.
  destruct v as [| | | |s|]; cbn; try reflexivity.
  intros H. apply trim_empty_of_falsy. now destruct (Js.truthy_str s).
Qed.

Lemma truthy_of_not_blank (s : string) :
  String.eqb (Js.trim s) "" = false -> Js.truthy_str s = true.
Proof. destruct s; [discriminate | reflexivity]. Qed.

(** A blank product field ends the request before anything is read. *)
Lemma trackView_blank (req : Request) (w : World (option string)) :
  blank (product_id req) = true \/ blank (product_name req) = true ->
  exists error, trackView env req w = (Normal (bad_request error), w).
Proof.
  intros H. unfold trackView.
  destruct (product_id req) as [| |b|n|id|p], (product_name req) as [| |b'|n'|name|p'];
    cbn [Js.truthy blank] in *;
    repeat (run; try branch);
    try (eexists; reflexivity).
  all: destruct H; congruence.
Qed.

Lemma trackView_passes (req : Request) (id name : string) (w : World (option string)) :
  product_id req = Js.JStr id -> String.eqb (Js.trim id) "" = false ->
  product_name req = Js.JStr name -> String.eqb (Js.trim name) "" = false ->
  trackView env req w
  = try_catch (validated env req id name)
      (fun error =>
         bind (log (ErrTrackView error))
           (fun _ => ret {| status := 500;
                            body := ErrorMessage "Internal server error" error |})) w.
Proof.
  intros Hi Hbi Hn Hbn. unfold trackView. rewrite Hi, Hn. cbn [Js.truthy].
  rewrite (truthy_of_not_blank _ Hbi), (truthy_of_not_blank _ Hbn), Hbi, Hbn.
  reflexivity.
Qed.

(** An unparseable timestamp or an address that fails the pattern ends
    the request before any call to the database. *)
Lemma validated_rejects (req : Request) (id name : string) (w : World (option string)) :
  (Js.truthy (timestamp req) = true /\ parse_timestamp env (timestamp req) = None)
  \/ (Js.truthy (user_email req) = true /\ email_test (user_email req) = false) ->
  exists error w',
    validated env req id name w = (Normal (bad_request error), w')
    /\ db w' = db w /\ trace w' = trace w.
Proof.
  intros H. unfold validated. run.
  destruct (Js.truthy (timestamp req)) eqn:Et.
  - destruct (parse_timestamp env (timestamp req)) as [t|] eqn:Ep; run.
    + destruct H as [[_ H] | [He Hv]]; [discriminate |].
      rewrite He, Hv. run. do 2 eexists. split; [reflexivity |]. split; reflexivity.
    + do 2 eexists. split; [reflexivity |]. split; reflexivity.
  - destruct H as [[H _] | [He Hv]]; [discriminate |].
    rewrite He, Hv. run. do 2 eexists. split; [reflexivity |]. split; reflexivity.
Qed.

End RecorderFacts.

(** C5, as the code has it.  A request whose [product_id] or
    [product_name] is missing, empty or not a string, whose [user_email] is
    truthy (present and not empty) and fails the address pattern, or whose
    [timestamp] is truthy and does not parse, is answered with status 400 and
    a body [{ error }]; no request reaches the database and nothing is
    logged. *)
Theorem invalid_request_is_rejected
    (env : Run.Env) (req : Recorder.Request) (w : Run.World (option string)) :
  Obs.unusable (Recorder.product_id req) = true
  \/ Obs.unusable (Recorder.product_name req) = true
  \/ (Js.truthy (Recorder.user_email req) = true
      /\ Recorder.email_test (Recorder.user_email req) = false)
  \/ (Js.truthy (Recorder.timestamp req) = true
      /\ Recorder.parse_timestamp env (Recorder.timestamp req) = None) ->
  exists error w',
    Recorder.trackView env req w
    = (Run.Normal {| Recorder.status := 400; Recorder.body := Recorder.ErrorOnly error |}, w')
    /\ Run.db w' = Run.db w
    /\ Run.trace w' = Run.trace w.
Proof.
  intros H.
  destruct (Obs.blank (Recorder.product_id req)) eqn:Bi.
  { destruct (trackView_blank env req w (or_introl Bi)) as [error E].
    exists error, w. auto. }
  destruct (Obs.blank (Recorder.product_name req)) eqn:Bn.
  { destruct (trackView_blank env req w (or_intror Bn)) as [error E].
    exists error, w. auto. }
  destruct (Recorder.product_id req) as [| | | |id|] eqn:Ei; try discriminate Bi.
  destruct (Recorder.product_name req) as [| | | |name|] eqn:En; try discriminate Bn.
  cbn [Obs.blank] in Bi, Bn.
  destruct H as [H | [H | H]].
  - apply unusable_blank in H. cbn [Obs.blank] in H. congruence.
  - apply unusable_blank in H. cbn [Obs.blank] in H. congruence.
  - rewrite (trackView_passes env req id name w Ei Bi En Bn).
    destruct (validated_rejects env req id name w) as (error & w' & Hv & Hd & Ht);
      [tauto |].
    exists error, w'. unfold Run.try_catch. rewrite Hv. auto.
Qed.

Lemma invalid_request_is_rejected_witness :
  exists error w',
    Recorder.trackView Sample.quiet
      {| Recorder.user_email := Js.JStr "not-an-address";
         Recorder.product_id := Js.JStr "p1";
         Recorder.product_name := Js.JStr "Widget";
         Recorder.timestamp := Js.JUndefined |}
      (Sample.start Sample.shop None)
    = (Run.Normal {| Recorder.status := 400; Recorder.body := Recorder.ErrorOnly error |}, w')
    /\ Run.db w' = Sample.shop
    /\ Run.trace w' = [].
Proof.
  apply (invalid_request_is_rejected Sample.quiet
           {| Recorder.user_email := Js.JStr "not-an-address";
              Recorder.product_id := Js.JStr "p1";
              Recorder.product_name := Js.JStr "Widget";
              Recorder.timestamp := Js.JUndefined |}
           (Sample.start Sample.shop None)).
  right. right. left. split; reflexivity.
Defined.

(** The claim C5 as it is worded fails on requests whose [user_email] or
    [timestamp] is present and empty: neither is a valid address or a
    parseable instant, yet the handler treats both as absent and goes on to
    the insert of the view.  With Alice's address and an empty timestamp the
    view is recorded at the clock's reading and the answer is 200.  With an
    empty address as well, the insert carries a null user reference, which
    the table refuses: the answer is 500, not 400. *)
Lemma empty_email_and_timestamp_are_accepted :
  let req e := {| Recorder.user_email := Js.JStr e;
                  Recorder.product_id := Js.JStr "p1";
                  Recorder.product_name := Js.JStr "Widget";
                  Recorder.timestamp := Js.JStr "" |} in
  Recorder.email_test (Js.JStr "") = false
  /\ Recorder.parse_timestamp Sample.quiet (Js.JStr "") = None
  /\ (exists w',
        Recorder.trackView Sample.quiet (req "a@x.com") (Sample.start Sample.shop None)
        = (Run.Normal {| Recorder.status := 200;
                         Recorder.body :=
                           Recorder.Success "m1" (Some "u-alice") "p1" 900600 |}, w')
        /\ Pg.products_viewed (Run.db w')
           = (Pg.products_viewed Sample.shop
                ++ [Sample.view "m1" (Some "u-alice") "p1" "Widget" 900600])%list)
  /\ (exists w',
        Recorder.trackView Sample.quiet (req "") (Sample.start Sample.shop None)
        = (Run.Normal
             {| Recorder.status := 500;
                Recorder.body :=
                  Recorder.ErrorDetails "Failed to track product view"
                    (Pg.message (Pg.not_null_violation "user_id" "products_viewed")) |},
           w')
        /\ In (Run.Supabase (Run.InsertView None "p1" "Widget" 900600)) (Run.trace w')
        /\ Pg.products_viewed (Run.db w') = Pg.products_viewed Sample.shop).
Proof.
  cbv zeta. split; [reflexivity |]. split; [reflexivity |]. split.
  - eexists. split; [vm_compute; reflexivity | reflexivity].
  - eexists. split; [vm_compute; reflexivity |]. split; [cbn; tauto | reflexivity].
Qed.

Section RecorderRuns.
Import Run Recorder Obs.
Variable env : Env.

(** The handler never adds a user: the table refuses the row it offers. *)
Lemma resolve_user_db (email : string) (w : World (option string)) :
  exists w', resolve_user env email w = (Normal tt, w') /\ db w' = db w.
Proof.
  unfold resolve_user, Pg.select_user_by_email.
  repeat (run; try branch).
  all: eexists; split; [reflexivity |]; cbn [db]; now destruct (db w).
Qed.

Lemma resolve_product_users (id name : string) (w : World (option string)) :
  exists w', resolve_product env id name w = (Normal tt, w')
             /\ Pg.users (db w') = Pg.users (db w).
Proof.
  unfold resolve_product, Pg.select_product.
  repeat (run; try branch).
  all: eexists; split; reflexivity.
Qed.

Lemma view_violation_frame (u : option string) (p : string) (d d' : Pg.Db) :
  Pg.users d' = Pg.users d -> Pg.products d' = Pg.products d ->
  Pg.view_violation u p d' = Pg.view_violation u p d.
Proof. unfold Pg.view_violation. now intros -> ->. Qed.

Lemma record_spec (id name : string) (t : Z) (w : World (option string)) :
  exists n c w',
    record env id name t w = (c, w')
    /\ In (Supabase (InsertView (locals w) id name t)) (trace w')
    /\ Pg.users (db w') = Pg.users (db w)
    /\ (forall i p, product i (db w) = Some p -> product i (db w') = Some p)
    /\ (product id (db w) = None ->
        (forall k q, is_product_query q = true -> supabase_fault env k q = NoFault) ->
        product id (db w') = Some {| Products.id := id; Products.name := name |})
    /\ verdict env id name t (Pg.products_viewed (db w)) n (locals w) c w'.
Proof.
  destruct (resolve_product_spec env id name w)
    as (w1 & Hrun & Hincl & Hloc & Hpv & Hkeep & Hnew).
  destruct (resolve_product_users id name w) as (w1' & Hrun' & Husers).
  rewrite Hrun in Hrun'. injection Hrun' as <-.
  unfold record. unfold bind at 1. rewrite Hrun. run. rewrite Hloc.
  exists (steps w1). unfold verdict.
  destruct (supabase_fault env (steps w1) (InsertView (locals w) id name t)) eqn:Ef; run.
  1: destruct (Pg.view_violation (locals w) id (db w1)) as [e|] eqn:Ev; run.
  all: do 2 eexists; split; [reflexivity |]; cbn [db trace].
  all: split; [cbn [In]; tauto |].
  all: split; [first [exact Husers | reflexivity] |].
  all: split; [exact Hkeep |].
  all: split; [exact Hnew |].
  all: try (rewrite (view_violation_frame (locals w) id (db w1)) by reflexivity).
  all: rewrite ?Ev; cbn [Pg.products_viewed hd_error]; rewrite ?Hpv; auto.
Qed.

(** An accepted request always reaches the insert of the view, whatever
    the resolution of the user and of the product did. *)
Lemma trackView_accepted (req : Request) (id name : string) (t : Z)
    (w : World (option string)) :
  accepted env (Date_now env (steps w)) req id name t ->
  exists n userId resp w',
    trackView env req w = (Normal resp, w')
    /\ In (Supabase (InsertView userId id name t)) (trace w')
    /\ Pg.users (db w') = Pg.users (db w)
    /\ (forall i p, product i (db w) = Some p -> product i (db w') = Some p)
    /\ (product id (db w) = None ->
        (forall k q, is_product_query q = true -> supabase_fault env k q = NoFault) ->
        product id (db w') = Some {| Products.id := id; Products.name := name |})
    /\ answer env id name t (Pg.products_viewed (db w)) n userId resp w'
    /\ (Js.truthy (user_email req) = false -> userId = None)
    /\ ((forall k q, is_user_query q = true -> supabase_fault env k q <> NoFault) ->
        userId = None).
Proof.
  intros (Hi & Hbi & Hn & Hbn & Ht & He).
  rewrite (trackView_passes env req id name w Hi Hbi Hn Hbn).
  unfold validated. run. rewrite Ht. run.
  set (w0 := {| db := db w; steps := S (steps w); trace := trace w; locals := None |}).
  assert (Hfin : forall w1 : World (option string),
            db w1 = db w ->
            (Js.truthy (user_email req) = false -> locals w1 = None) ->
            ((forall k q, is_user_query q = true -> supabase_fault env k q <> NoFault) ->
             locals w1 = None) ->
            exists n userId resp w',
              (let (c, w') := record env id name t w1 in
               match c with
               | Normal a => (Normal a, w')
               | Thrown x =>
                   (Normal {| status := 500;
                              body := ErrorMessage "Internal server error" x |},
                    {| db := db w'; steps := steps w';
                       trace := Console (ErrTrackView x) :: trace w';
                       locals := locals w' |})
               end) = (Normal resp, w')
              /\ In (Supabase (InsertView userId id name t)) (trace w')
              /\ Pg.users (db w') = Pg.users (db w)
              /\ (forall i p, product i (db w) = Some p -> product i (db w') = Some p)
              /\ (product id (db w) = None ->
                  (forall k q, is_product_query q = true ->
                               supabase_fault env k q = NoFault) ->
                  product id (db w') = Some {| Products.id := id; Products.name := name |})
              /\ answer env id name t (Pg.products_viewed (db w)) n userId resp w'
              /\ (Js.truthy (user_email req) = false -> userId = None)
              /\ ((forall k q, is_user_query q = true ->
                               supabase_fault env k q <> NoFault) ->
                  userId = None)).
  { intros w1 Hd Hanon Hfail.
    destruct (record_spec id name t w1)
      as (n & c & w' & Hrun & Hin & Hus & Hkeep & Hnew & Hv).
    rewrite Hrun. rewrite Hd in *.
    exists n, (locals w1). unfold verdict in Hv. unfold answer.
    destruct (supabase_fault env n (InsertView (locals w1) id name t)).
    1: destruct (Pg.view_violation (locals w1) id (db w')) eqn:Ev.
    all: destruct Hv as (-> & Hpv & Hhd); do 2 eexists; (split; [reflexivity |]);
      cbn [db trace hd_error]; rewrite ?Ev;
      (split; [first [exact Hin | now right] |]); auto 10. }
  destruct (Js.truthy (user_email req)) eqn:Etr.
  - rewrite (He eq_refl). run.
    specialize (He eq_refl). unfold email_test in He.
    destruct (email_string (user_email req)) as [email|]; [| discriminate].
    destruct (resolve_user_spec env email w0) as (w1 & Hrun & _ & _ & _ & Hfail).
    destruct (resolve_user_db email w0) as (w1' & Hrun' & Hd).
    rewrite Hrun in Hrun'. injection Hrun' as <-.
    fold w0. rewrite Hrun.
    apply Hfin; [exact Hd | discriminate | exact Hfail].
  - fold w0. apply Hfin; try reflexivity; auto.
Qed.

(** Every request is answered; product rows are kept; the table of
    views grows by the row of the request exactly when the answer is 200. *)
Lemma trackView_total (req : Request) (w : World (option string)) :
  exists resp w',
    trackView env req w = (Normal resp, w')
    /\ (forall i p, product i (db w) = Some p -> product i (db w') = Some p)
    /\ (status resp = 200 ->
        exists id name row,
          product_id req = Js.JStr id /\ product_name req = Js.JStr name
          /\ Pg.products_viewed (db w') = (Pg.products_viewed (db w) ++ [row])%list
          /\ ProductsViewed.product_id row = id
          /\ ProductsViewed.product_name row = name)
    /\ (status resp <> 200 -> Pg.products_viewed (db w') = Pg.products_viewed (db w)).
Proof.
  assert (Hbad : forall error (w' : World (option string)),
            trackView env req w = (Normal (bad_request error), w') ->
            db w' = db w ->
            exists resp w',
              trackView env req w = (Normal resp, w')
              /\ (forall i p, product i (db w) = Some p -> product i (db w') = Some p)
              /\ (status resp = 200 ->
                  exists id name row,
                    product_id req = Js.JStr id /\ product_name req = Js.JStr name
                    /\ Pg.products_viewed (db w')
                       = (Pg.products_viewed (db w) ++ [row])%list
                    /\ ProductsViewed.product_id row = id
                    /\ ProductsViewed.product_name row = name)
              /\ (status resp <> 200 ->
                  Pg.products_viewed (db w') = Pg.products_viewed (db w))).
  { intros error w' E Hd. exists (bad_request error), w'. rewrite Hd.
    split; [exact E |]. split; [auto |]. split; [discriminate | reflexivity]. }
  destruct (blank (product_id req)) eqn:Bi.
  { destruct (trackView_blank env req w (or_introl Bi)) as [error E]. now apply (Hbad error w). }
  destruct (blank (product_name req)) eqn:Bn.
  { destruct (trackView_blank env req w (or_intror Bn)) as [error E]. now apply (Hbad error w). }
  destruct (product_id req) as [| | | |id|] eqn:Ei; try discriminate Bi.
  destruct (product_name req) as [| | | |name|] eqn:En; try discriminate Bn.
  cbn [blank] in Bi, Bn.
  assert (Hrej :
            (Js.truthy (timestamp req) = true /\ parse_timestamp env (timestamp req) = None)
            \/ (Js.truthy (user_email req) = true /\ email_test (user_email req) = false) ->
            exists error w', trackView env req w = (Normal (bad_request error), w')
                             /\ db w' = db w).
  { intros H. rewrite (trackView_passes env req id name w Ei Bi En Bn).
    destruct (validated_rejects env req id name w H) as (error & w' & Hv & Hd & _).
    exists error, w'. unfold try_catch. rewrite Hv. auto. }
  destruct (if Js.truthy (timestamp req) then parse_timestamp env (timestamp req)
            else Some (Date_now env (steps w))) as [t|] eqn:Et.
  2: { destruct (Js.truthy (timestamp req)); [| discriminate].
       destruct Hrej as (error & w' & E & Hd); [now left | now apply (Hbad error w')]. }
  destruct (Js.truthy (user_email req) && negb (email_test (user_email req))) eqn:Ee.
  { apply andb_true_iff in Ee as [E1 E2]. apply negb_true_iff in E2.
    destruct Hrej as (error & w' & E & Hd); [now right | now apply (Hbad error w')]. }
  assert (Hacc : accepted env (Date_now env (steps w)) req id name t).
  { repeat (split; [assumption |]). intros Htr. rewrite Htr in Ee.
    cbn in Ee. now apply negb_false_iff in Ee. }
  destruct (trackView_accepted req id name t w Hacc)
    as (n & userId & resp & w' & Hrun & _ & _ & Hkeep & _ & Hans & _).
  exists resp, w'. split; [exact Hrun |]. split; [exact Hkeep |].
  unfold answer in Hans.
  destruct (supabase_fault env n (InsertView userId id name t)).
  1: destruct (Pg.view_violation userId id (db w')).
  all: destruct Hans as (-> & Hpv & _); cbn [status].
  2: { split; [| congruence]. intros _. do 3 eexists.
       split; [reflexivity |]. split; [reflexivity |]. split; [exact Hpv |].
       split; reflexivity. }
  all: split; [discriminate | auto].
Qed.

End RecorderRuns.




(** C7.  Of two requests for the same product identifier, the second
    leaves the product row as the first left it; a row the first request
    created carries the first name; and each request that is answered 200
    appends a view that carries its own name. *)
Theorem product_name_kept_views_verbatim
    (env : Run.Env) (req1 req2 : Recorder.Request) (id name1 name2 : string)
    (w0 : Run.World (option string)) :
  Recorder.product_id req1 = Js.JStr id ->
  Recorder.product_name req1 = Js.JStr name1 ->
  Recorder.product_id req2 = Js.JStr id ->
  Recorder.product_name req2 = Js.JStr name2 ->
  exists resp1 w1 resp2 w2,
    Recorder.trackView env req1 w0 = (Run.Normal resp1, w1)
    /\ Recorder.trackView env req2 w1 = (Run.Normal resp2, w2)
    /\ (forall p, Obs.product id (Run.db w1) = Some p ->
                  Obs.product id (Run.db w2) = Some p)
    /\ (forall t, Obs.accepted env (Run.Date_now env (Run.steps w0)) req1 id name1 t ->
          Obs.product id (Run.db w0) = None ->
          (forall k q, Obs.is_product_query q = true ->
                       Run.supabase_fault env k q = Run.NoFault) ->
          Obs.product id (Run.db w1)
          = Some {| Products.id := id; Products.name := name1 |}
          /\ Obs.product id (Run.db w2)
             = Some {| Products.id := id; Products.name := name1 |})
    /\ (Recorder.status resp1 = 200 ->
        exists row,
          Pg.products_viewed (Run.db w1) = (Pg.products_viewed (Run.db w0) ++ [row])%list
          /\ ProductsViewed.product_id row = id
          /\ ProductsViewed.product_name row = name1)
    /\ (Recorder.status resp2 = 200 ->
        exists row,
          Pg.products_viewed (Run.db w2) = (Pg.products_viewed (Run.db w1) ++ [row])%list
          /\ ProductsViewed.product_id row = id
          /\ ProductsViewed.product_name row = name2).
Proof.
  intros Hi1 Hn1 Hi2 Hn2.
  destruct (trackView_total env req1 w0) as (resp1 & w1 & Hrun1 & Hkeep1 & Hok1 & _).
  destruct (trackView_total env req2 w1) as (resp2 & w2 & Hrun2 & Hkeep2 & Hok2 & _).
  exists resp1, w1, resp2, w2.
  split; [exact Hrun1 |]. split; [exact Hrun2 |]. split; [apply Hkeep2 |].
  split; [| split].
  - intros t Hacc Hnone Hall.
    destruct (trackView_accepted env req1 id name1 t w0 Hacc)
      as (n & userId & resp & w' & Hrun & _ & _ & _ & Hnew & _).
    rewrite Hrun1 in Hrun. injection Hrun as _ <-.
    specialize (Hnew Hnone Hall). split; [exact Hnew | now apply Hkeep2].
  - intros Hs. destruct (Hok1 Hs) as (i & n & row & Ei & En & Hpv & Hri & Hrn).
    exists row. split; [exact Hpv |]. split; congruence.
  - intros Hs. destruct (Hok2 Hs) as (i & n & row & Ei & En & Hpv & Hri & Hrn).
    exists row. split; [exact Hpv |]. split; congruence.
Qed.

(** The same product seen twice by Alice, as a gadget and then as a
    gizmo: the product row says gadget, the two views say gadget and gizmo. *)
Lemma product_name_kept_views_verbatim_witness :
  exists w1 w2 r1 r2 v1 v2,
    Recorder.trackView Sample.quiet
      {| Recorder.user_email := Js.JStr "a@x.com"; Recorder.product_id := Js.JStr "p2";
         Recorder.product_name := Js.JStr "Gadget";
         Recorder.timestamp := Js.JUndefined |}
      (Sample.start Sample.shop None) = (Run.Normal r1, w1)
    /\ Recorder.trackView Sample.quiet
         {| Recorder.user_email := Js.JStr "a@x.com"; Recorder.product_id := Js.JStr "p2";
            Recorder.product_name := Js.JStr "Gizmo";
            Recorder.timestamp := Js.JUndefined |} w1 = (Run.Normal r2, w2)
    /\ Obs.product "p2" (Run.db w2)
       = Some {| Products.id := "p2"; Products.name := "Gadget" |}
    /\ Pg.products_viewed (Run.db w1) = (Pg.products_viewed Sample.shop ++ [v1])%list
    /\ ProductsViewed.product_name v1 = "Gadget"
    /\ Pg.products_viewed (Run.db w2) = (Pg.products_viewed (Run.db w1) ++ [v2])%list
    /\ ProductsViewed.product_name v2 = "Gizmo".
Proof.
  destruct (product_name_kept_views_verbatim Sample.quiet
              {| Recorder.user_email := Js.JStr "a@x.com"; Recorder.product_id := Js.JStr "p2";
                 Recorder.product_name := Js.JStr "Gadget";
                 Recorder.timestamp := Js.JUndefined |}
              {| Recorder.user_email := Js.JStr "a@x.com"; Recorder.product_id := Js.JStr "p2";
                 Recorder.product_name := Js.JStr "Gizmo";
                 Recorder.timestamp := Js.JUndefined |}
              "p2" "Gadget" "Gizmo" (Sample.start Sample.shop None)
              eq_refl eq_refl eq_refl eq_refl)
    as (r1 & w1 & r2 & w2 & Hrun1 & Hrun2 & _ & Hnew & Hv1 & Hv2).
  destruct (Hnew 900600) as [_ Hp].
  { repeat (split; [reflexivity |]). intros _. reflexivity. }
  { reflexivity. }
  { intros k q _. reflexivity. }
  assert (S1 : Recorder.status r1 = 200).
  { vm_compute in Hrun1. now injection Hrun1 as <- _. }
  assert (S2 : Recorder.status r2 = 200).
  { vm_compute in Hrun1. injection Hrun1 as _ <-.
    vm_compute in Hrun2. now injection Hrun2 as <- _. }
  destruct (Hv1 S1) as (v1 & Hpv1 & _ & Hn1).
  destruct (Hv2 S2) as (v2 & Hpv2 & _ & Hn2).
  exists w1, w2, r1, r2, v1, v2. auto 10.
Defined.

(* ================================================================== *)
(** * The address pattern                                              *)
(* ================================================================== *)

Section PatternFacts.
Import Recorder.

Lemma all_plain_app (a b : string) :
  all_plain (a ++ b) = all_plain a && all_plain b.
Proof.
  induction a as [|c a IH]; cbn [append all_plain]; [reflexivity |].
  rewrite IH. now rewrite andb_assoc.
Qed.

Lemma dot_inside_iff (r : string) :
  dot_inside r = true <-> exists b c, r = b ++ "." ++ c /\ c <> "".
Proof.
  induction r as [|ch r IH]; cbn [dot_inside].
  - split; [discriminate |]. intros (b & c & E & _). destruct b; discriminate E.
  - rewrite orb_true_iff, andb_true_iff, IH. split.
    + intros [[Hd Hr] | (b & c & -> & Hc)].
      * apply Ascii.eqb_eq in Hd. subst ch. exists "", r. split; [reflexivity |].
        now destruct r.
      * exists (String ch b), c. split; [reflexivity | exact Hc].
    + intros (b & c & E & Hc). destruct b as [|ch' b]; cbn [append] in E.
      * injection E as -> ->. left. split; [reflexivity | now destruct c].
      * injection E as -> ->. right. now exists b, c.
Qed.

Lemma domain_ok_iff (s : string) :
  domain_ok s = true <->
  exists b c, s = b ++ "." ++ c /\ b <> "" /\ c <> ""
              /\ all_plain b = true /\ all_plain c = true.
Proof.
  destruct s as [|ch r]; cbn [domain_ok].
  - split; [discriminate |]. intros (b & c & E & _). destruct b; discriminate E.
  - rewrite !andb_true_iff, dot_inside_iff. split.
    + intros [[Hp Ha] (b & c & -> & Hc)].
      rewrite all_plain_app in Ha. apply andb_true_iff in Ha as [Hb Hc'].
      exists (String ch b), c. split; [reflexivity |]. split; [discriminate |].
      split; [exact Hc |]. split; [cbn [all_plain]; now rewrite Hp, Hb |].
      cbn [append all_plain] in Hc'. now apply andb_true_iff in Hc' as [_ Hc'].
    + intros (b & c & E & Hb & Hc & Pb & Pc).
      destruct b as [|ch' b]; [congruence |]. cbn [append] in E. injection E as -> ->.
      cbn [all_plain] in Pb. apply andb_true_iff in Pb as [Pch Pb].
      split; [split; [exact Pch |] |].
      * rewrite all_plain_app, Pb. cbn [append all_plain andb]. now rewrite Pc.
      * now exists b, c.
Qed.

Lemma local_then_domain_iff (some : bool) (s : string) :
  local_then_domain some s = true <->
  exists a rest, s = a ++ "@" ++ rest /\ all_plain a = true
                 /\ (some = true \/ a <> "") /\ domain_ok rest = true.
Proof.
  revert some. induction s as [|ch r IH]; intros some; cbn [local_then_domain].
  - split; [discriminate |]. intros (a & rest & E & _). destruct a; discriminate E.
  - destruct (Ascii.eqb_spec ch "@") as [-> | Hne].
    + rewrite andb_true_iff. split.
      * intros [Hs Hd]. exists "", r. cbn. auto.
      * intros (a & rest & E & Pa & Hs & Hd). destruct a as [|ch' a]; cbn [append] in E.
        -- injection E as ->. destruct Hs; [auto | congruence].
        -- injection E as <- _. cbn in Pa. discriminate.
    + rewrite andb_true_iff, IH. split.
      * intros [Hp (a & rest & -> & Pa & _ & Hd)].
        exists (String ch a), rest. split; [reflexivity |].
        split; [cbn [all_plain]; now rewrite Hp, Pa |]. split; [right; discriminate | exact Hd].
      * intros (a & rest & E & Pa & Hs & Hd). destruct a as [|ch' a]; cbn [append] in E.
        -- injection E as -> _. congruence.
        -- injection E as -> ->. cbn [all_plain] in Pa.
           apply andb_true_iff in Pa as [Pch Pa]. split; [exact Pch |].
           exists a, rest. auto.
Qed.

End PatternFacts.

(** X1.  The address test accepts exactly the strings of the form
    local@domain.tail whose three parts are non-empty and hold neither white
    space nor an at sign (the domain and the tail may hold dots). *)
Theorem emailRegex_shape (s : string) :
  Recorder.emailRegex s = true <->
  exists a b c,
    s = a ++ "@" ++ b ++ "." ++ c
    /\ a <> "" /\ b <> "" /\ c <> ""
    /\ Recorder.all_plain a = true
    /\ Recorder.all_plain b = true
    /\ Recorder.all_plain c = true.
Proof.
  unfold Recorder.emailRegex. rewrite local_then_domain_iff. split.
  - intros (a & rest & -> & Pa & [Hs | Ha] & Hd); [discriminate |].
    apply domain_ok_iff in Hd as (b & c & -> & Hb & Hc & Pb & Pc).
    exists a, b, c. auto 10.
  - intros (a & b & c & -> & Ha & Hb & Hc & Pa & Pb & Pc).
    exists a, (b ++ "." ++ c). split; [reflexivity |]. split; [exact Pa |].
    split; [now right |]. apply domain_ok_iff. exists b, c. auto.
Qed.

(* ================================================================== *)
(** * Trimming and distinct elements                                   *)
(* ================================================================== *)

Section StringFacts.

Lemma trim_all_space (s : string) : Js.all_space s = true -> Js.trim s = "".
Proof.
  unfold Js.trim. induction s as [|c s IH]; cbn [Js.all_space Js.trimStart];
    [reflexivity |].
  intros H. apply andb_true_iff in H as [Hc Hs]. rewrite Hc. now apply IH.
Qed.

Lemma trimEnd_empty (s : string) : Js.trimEnd s = "" -> Js.all_space s = true.
Proof.
  destruct s as [|c s]; [reflexivity |]. cbn [Js.trimEnd].
  destruct (Js.all_space (String c s)); [reflexivity | discriminate].
Qed.

Lemma trimStart_suffix (s : string) :
  exists p, s = p ++ Js.trimStart s /\ Js.all_space p = true.
Proof.
  induction s as [|c s (p & E & Hp)]; cbn [Js.trimStart].
  - now exists "".
  - destruct (Js.is_space c) eqn:Hc.
    + exists (String c p). cbn [append Js.all_space]. rewrite Hc, Hp. split; [now f_equal | reflexivity].
    + now exists "".
Qed.

Lemma all_space_app (a b : string) :
  Js.all_space (a ++ b) = Js.all_space a && Js.all_space b.
Proof.
  induction a as [|c a IH]; cbn [append Js.all_space]; [reflexivity |].
  rewrite IH. now rewrite andb_assoc.
Qed.

Lemma trim_empty_iff (s : string) : Js.trim s = "" <-> Js.all_space s = true.
Proof.
  split; [| apply trim_all_space].
  intros H. unfold Js.trim in H. apply trimEnd_empty in H.
  destruct (trimStart_suffix s) as (p & E & Hp).
  rewrite E, all_space_app, Hp, H. reflexivity.
Qed.

Lemma seen_iff (x : string) (seen : list string) :
  existsb (String.eqb x) seen = true <-> In x seen.
Proof.
  rewrite existsb_exists. split.
  - intros (y & Hy & E). apply String.eqb_eq in E. now subst.
  - intros H. exists x. split; [exact H | apply String.eqb_refl].
Qed.

Lemma dedupe_acc_In (seen l : list string) (x : string) :
  In x (Js.dedupe_acc seen l) <-> In x l /\ ~ In x seen.
Proof.
  revert seen. induction l as [|y l IH]; intros seen; cbn [Js.dedupe_acc In]; [tauto |].
  destruct (existsb (String.eqb y) seen) eqn:E.
  - apply seen_iff in E. rewrite IH. split; [tauto |].
    intros [[-> | H] Hn]; tauto.
  - assert (Hy : ~ In y seen) by (rewrite <- seen_iff, E; discriminate).
    cbn [In]. rewrite IH. cbn [In]. split.
    + intros [<- | [H Hn]]; tauto.
    + intros [[<- | H] Hn]; [now left |].
      destruct (string_dec y x) as [<- | Hne]; [now left | right; tauto].
Qed.

Lemma dedupe_acc_NoDup (seen l : list string) : NoDup (Js.dedupe_acc seen l).
Proof.
  revert seen. induction l as [|y l IH]; intros seen; cbn [Js.dedupe_acc];
    [constructor |].
  destruct (existsb (String.eqb y) seen); [apply IH |].
  constructor; [| apply IH]. rewrite dedupe_acc_In. cbn [In]. tauto.
Qed.

Lemma filter_filter_absorb {A : Type} (p q : A -> bool) (l : list A) :
  (forall x, p x = true -> q x = true) ->
  filter p (filter q l) = filter p l.
Proof.
  intros H. induction l as [|x l IH]; cbn [filter]; [reflexivity |].
  destruct (q x) eqn:Q; cbn [filter]; destruct (p x) eqn:P;
    rewrite ?IH; try reflexivity.
  rewrite (H x P) in Q. discriminate.
Qed.

Lemma filter_filter_and {A : Type} (p q : A -> bool) (l : list A) :
  filter p (filter q l) = filter (fun x => q x && p x) l.
Proof.
  induction l as [|x l IH]; cbn [filter]; [reflexivity |].
  destruct (q x); cbn [filter andb]; rewrite IH; reflexivity.
Qed.

(** What is left of the distinct elements once some are already seen. *)
Lemma dedupe_acc_filter (seen l : list string) :
  Js.dedupe_acc seen l
  = filter (fun y => negb (existsb (String.eqb y) seen)) (Js.dedupe l).
Proof.
  unfold Js.dedupe. revert seen. induction l as [|x l IH]; intros seen;
    cbn [Js.dedupe_acc filter existsb]; [reflexivity |].
  destruct (existsb (String.eqb x) seen) eqn:E; cbn [negb].
  - rewrite (IH seen), (IH [x]). symmetry. apply filter_filter_absorb.
    intros y Hy. cbn [existsb]. rewrite orb_false_r.
    destruct (String.eqb_spec y x) as [-> | _]; [| reflexivity].
    rewrite E in Hy. discriminate.
  - f_equal. rewrite (IH (x :: seen)), (IH [x]), filter_filter_and.
    apply filter_ext. intros y. cbn [existsb]. rewrite orb_false_r.
    now rewrite negb_orb.
Qed.

End StringFacts.

(** X2.  A [product_id] or [product_name] made of white space only is
    answered 400 like an empty one, before the clock is read or anything is
    logged; a string field passes this check exactly when it holds a
    character that is not white space. *)
Theorem whitespace_only_product_is_rejected
    (env : Run.Env) (req : Recorder.Request) (w : Run.World (option string))
    (s : string) :
  Recorder.product_id req = Js.JStr s \/ Recorder.product_name req = Js.JStr s ->
  Js.all_space s = true ->
  (exists error,
     Recorder.trackView env req w
     = (Run.Normal {| Recorder.status := 400; Recorder.body := Recorder.ErrorOnly error |},
        w))
  /\ (forall t, Obs.blank (Js.JStr t) = true <-> Js.all_space t = true).
Proof.
  intros Hs Ha. split.
  - apply trackView_blank.
    destruct Hs as [-> | ->]; [left | right]; cbn [Obs.blank];
      rewrite (trim_all_space s Ha); reflexivity.
  - intros t. cbn [Obs.blank]. rewrite String.eqb_eq. apply trim_empty_iff.
Qed.

Lemma whitespace_only_product_is_rejected_witness :
  exists error,
    Recorder.trackView Sample.quiet
      {| Recorder.user_email := Js.JUndefined; Recorder.product_id := Js.JStr "p1";
         Recorder.product_name := Js.JStr "   "; Recorder.timestamp := Js.JUndefined |}
      (Sample.start Sample.shop None)
    = (Run.Normal {| Recorder.status := 400; Recorder.body := Recorder.ErrorOnly error |},
       Sample.start Sample.shop None).
Proof.
  exact (proj1 (whitespace_only_product_is_rejected Sample.quiet
                  {| Recorder.user_email := Js.JUndefined;
                     Recorder.product_id := Js.JStr "p1";
                     Recorder.product_name := Js.JStr "   ";
                     Recorder.timestamp := Js.JUndefined |}
                  (Sample.start Sample.shop None) "   " (or_intror eq_refl) eq_refl)).
Defined.

(** X3.  The list of distinct product identifiers (or names) of a group
    holds every viewed one exactly once, in the order in which they are first
    met: the first element comes first, followed by the distinct elements of
    the rest without it. *)
Theorem dedupe_first_occurrences (l : list string) :
  NoDup (Js.dedupe l)
  /\ (forall x, In x (Js.dedupe l) <-> In x l)
  /\ Js.dedupe [] = []
  /\ (forall x r,
        Js.dedupe (x :: r)
        = x :: filter (fun y => negb (String.eqb y x)) (Js.dedupe r)).
Proof.
  split; [apply dedupe_acc_NoDup |]. split; [| split].
  - intros x. unfold Js.dedupe. rewrite dedupe_acc_In. cbn [In]. tauto.
  - reflexivity.
  - intros x r. unfold Js.dedupe at 1. cbn [Js.dedupe_acc existsb]. f_equal.
    rewrite dedupe_acc_filter. apply filter_ext. intros y. cbn [existsb].
    now rewrite orb_false_r.
Qed.

(** X4.  [generateReminderMessage] fails closed.  With an empty name or
    product text, or a level other than the three, it throws the validation
    error without calling the text generator; a failure of the generator is
    thrown on after the one call; every error is logged once before it is
    thrown; and a message is returned only for valid inputs and an answered
    call.  The database and the caller's variables are never touched. *)
Theorem generateReminderMessage_fails_closed
    (L : Type) (env : Run.Env) (userName productName urgencyLevel : string)
    (checkoutLink : option string) (w : Run.World L) :
  exists c w',
    Composer.generateReminderMessage env userName productName urgencyLevel checkoutLink w
    = (c, w')
    /\ Run.db w' = Run.db w
    /\ Run.locals w' = Run.locals w
    /\ (Js.truthy_str userName = false \/ Js.truthy_str productName = false ->
        c = Run.Thrown "userName and productName are required"
        /\ Run.steps w' = Run.steps w
        /\ Run.trace w'
           = Run.Console (Run.ErrGenerating "userName and productName are required")
             :: Run.trace w)
    /\ (Js.truthy_str userName = true -> Js.truthy_str productName = true ->
        ~ In urgencyLevel Composer.urgency_levels ->
        c = Run.Thrown Composer.urgency_error
        /\ Run.steps w' = Run.steps w
        /\ Run.trace w'
           = Run.Console (Run.ErrGenerating Composer.urgency_error) :: Run.trace w)
    /\ (Js.truthy_str userName = true -> Js.truthy_str productName = true ->
        In urgencyLevel Composer.urgency_levels ->
        forall x, Run.openai_reply env (Run.steps w) = Run.Failure x ->
        c = Run.Thrown x
        /\ Run.trace w'
           = Run.Console (Run.ErrGenerating x)
             :: Run.OpenAI userName productName urgencyLevel checkoutLink
             :: Run.trace w)
    /\ (forall m, c = Run.Normal m ->
        Js.truthy_str userName = true /\ Js.truthy_str productName = true
        /\ In urgencyLevel Composer.urgency_levels
        /\ exists content,
             Run.openai_reply env (Run.steps w) = Run.Content content
             /\ m = Cleanup.clean content).
Proof.
  assert (Hlev : existsb (String.eqb urgencyLevel) Composer.urgency_levels = true
                 <-> In urgencyLevel Composer.urgency_levels) by apply seen_iff.
  unfold Composer.generateReminderMessage.
  destruct (Js.truthy_str userName) eqn:Hn, (Js.truthy_str productName) eqn:Hp;
    destruct (existsb (String.eqb urgencyLevel) Composer.urgency_levels) eqn:Hu;
    run; try destruct (Run.openai_reply env (Run.steps w)) eqn:Hr; run.
  all: do 2 eexists; split; [reflexivity |]; cbn [Run.db Run.locals Run.steps Run.trace].
  all: split; [reflexivity |]; split; [reflexivity |].
  all: split; [solve [intros [H | H]; first [discriminate H | auto]] |].
  all: split; [solve [intros H1 H2 Hnot;
                      first [ discriminate H1 | discriminate H2
                            | exfalso; apply Hnot; now apply Hlev
                            | auto ]] |].
  all: split; [solve [intros H1 H2 H3 y Hy;
                      first [ discriminate H1 | discriminate H2
                            | discriminate Hy
                            | apply Hlev in H3; discriminate H3
                            | injection Hy as <-; auto ]] |].
  all: intros m Hm; try discriminate Hm.
  injection Hm as <-. split; [reflexivity |]. split; [reflexivity |].
  split; [now apply Hlev |]. eexists. split; reflexivity.
Qed.

(* ================================================================== *)
(** * The ledger of a tick: counters, rows and clock                   *)
(* ================================================================== *)

Section LedgerFacts.
Import Run Scanner Obs.
Variable env : Env.

(** What one row added by the loop body for [userId] between the
    interactions [lo] and [hi] looks like. *)
Let row_ok (userId : string) (lo hi : nat) (m : MessagesSent.row) : Prop :=
  MessagesSent.user_id m = userId
  /\ MessagesSent.message_type m = "sms"
  /\ (String.length (MessagesSent.content m) <= 160)%nat
  /\ exists k, (lo <= k < hi)%nat /\ MessagesSent.sent_at m = Date_now env k.

Lemma processUser_ledger (cutoff : Z) (userId : string) (views : list View)
    (w : World Tally) :
  exists w' rows,
    processUser env cutoff userId views w = (Normal tt, w')
    /\ Pg.messages_sent (db w') = (Pg.messages_sent (db w) ++ rows)%list
    /\ sentCount (locals w') = (sentCount (locals w) + List.length rows)%nat
    /\ (processedCount (locals w) + List.length rows <= processedCount (locals w')
        <= processedCount (locals w) + 1)%nat
    /\ (sentCount (locals w') - sentCount (locals w)
        <= processedCount (locals w') - processedCount (locals w))%nat
    /\ (steps w <= steps w')%nat
    /\ forall m, In m rows -> row_ok userId (steps w) (steps w') m.
Proof.
  unfold processUser, remind, Composer.generateReminderMessage.
  repeat (run; try branch).
  all: do 2 eexists; split; [reflexivity |]; cbn [db locals steps].
  all: split; [first [reflexivity | exact (eq_sym (app_nil_r _))] |].
  all: cbn [processedCount sentCount List.length].
  all: split; [lia |]; split; [lia |]; split; [lia |]; split; [lia |].
  all: try solve [intros ? []].
  intros ? [<- | []]. unfold row_ok. cbn.
  split; [reflexivity |]. split; [reflexivity |].
  split; [apply truncate_length |].
  eexists. split; [| reflexivity]. lia.
Qed.

Lemma forEachUser_ledger (cutoff : Z) (g : Groups) :
  forall w : World Tally,
  exists w' rows,
    forEachUser env cutoff g w = (Normal tt, w')
    /\ Pg.messages_sent (db w') = (Pg.messages_sent (db w) ++ rows)%list
    /\ sentCount (locals w') = (sentCount (locals w) + List.length rows)%nat
    /\ (processedCount (locals w) + List.length rows <= processedCount (locals w')
        <= processedCount (locals w) + List.length g)%nat
    /\ (steps w <= steps w')%nat
    /\ forall m, In m rows ->
         exists userId, In userId (map fst g) /\ row_ok userId (steps w) (steps w') m.
Proof.
  induction g as [|[userId views] g IH]; intros w.
  - exists w, []. cbn [forEachUser List.length]. run. rewrite app_nil_r.
    split; [reflexivity |]. split; [reflexivity |]. split; [lia |]. split; [lia |].
    split; [lia | intros m []].
  - destruct (processUser_ledger cutoff userId views w)
      as (w1 & rows1 & Hrun & Hm & Hs & Hp & _ & Hst & Hrows).
    destruct (IH w1) as (w' & rows2 & Hrun' & Hm' & Hs' & Hp' & Hst' & Hrows').
    exists w', (rows1 ++ rows2)%list.
    cbn [forEachUser]. unfold bind at 1. rewrite Hrun. fold (forEachUser env cutoff g).
    split; [exact Hrun' |].
    split; [rewrite Hm', Hm; now rewrite app_assoc |].
    rewrite length_app. cbn [List.length map fst].
    split; [lia |]. split; [lia |]. split; [lia |].
    intros m Hin. apply in_app_or in Hin as [Hin | Hin].
    + exists userId. split; [now left |].
      destruct (Hrows m Hin) as (Hu & Ht & Hl & k & Hk & Hat).
      repeat (split; [assumption |]). exists k. split; [lia | exact Hat].
    + destruct (Hrows' m Hin) as (u & Hu & Hid & Ht & Hl & k & Hk & Hat).
      exists u. split; [now right |].
      repeat (split; [assumption |]). exists k. split; [lia | exact Hat].
Qed.

(** The tick as a whole.  Its last line is the summary exactly when the
    batch was fetched and is not empty. *)
Lemma checkAbandonedCarts_ledger (w : World Tally) :
  let cutoff := Date_now env (S (steps w)) - 30 * 60 * 1000 in
  let userGroups := groupByUser (Pg.select_recent_views cutoff (db w)) in
  exists w' rows,
    checkAbandonedCarts env w = (Normal tt, w')
    /\ Pg.messages_sent (db w') = (Pg.messages_sent (db w) ++ rows)%list
    /\ (steps w < steps w')%nat
    /\ (forall m, In m rows ->
          MessagesSent.message_type m = "sms"
          /\ (String.length (MessagesSent.content m) <= 160)%nat
          /\ exists k, (steps w <= k < steps w')%nat
                       /\ MessagesSent.sent_at m = Date_now env k)
    /\ (forall p s, hd_error (trace w') = Some (Console (Summary p s)) ->
          s = List.length rows /\ (s <= p <= List.length userGroups)%nat
          /\ locals w' = {| processedCount := p; sentCount := s |})
    /\ (supabase_fault env (2 + steps w) (SelectRecentViews cutoff) = NoFault ->
        Pg.select_recent_views cutoff (db w) <> [] ->
        exists p s, hd_error (trace w') = Some (Console (Summary p s)))
    /\ (Pg.select_recent_views cutoff (db w) = [] \/
        supabase_fault env (2 + steps w) (SelectRecentViews cutoff) <> NoFault ->
        db w' = db w /\ locals w' = locals w /\ rows = []
        /\ forall q, In (Supabase q) (trace w') ->
                     q = SelectRecentViews cutoff \/ In (Supabase q) (trace w)).
Proof.
  intros cutoff userGroups. unfold checkAbandonedCarts. fold cutoff.
  run. fold cutoff. cbn [Nat.add].
  destruct (supabase_fault env (S (S (steps w))) (SelectRecentViews cutoff)) eqn:Ef; run.
  2, 3: eexists; exists []; (split; [reflexivity |]); cbn [db steps trace locals];
    rewrite app_nil_r; (split; [reflexivity |]); (split; [lia |]);
    (split; [intros ? [] |]); (split; [intros p s H; discriminate H |]);
    (split; [intros H; discriminate H |]);
    intros _; do 3 (split; [reflexivity |]);
    intros q [H | [H | [H | H]]];
    [discriminate H | injection H as <-; now left | discriminate H | now right].
  destruct (List.length (Pg.select_recent_views cutoff (db w)) =? 0)%nat eqn:El; run.
  - eexists; exists []; (split; [reflexivity |]); cbn [db steps trace locals].
    rewrite app_nil_r. split; [reflexivity |]. split; [lia |].
    split; [intros ? [] |]. split; [intros p s H; discriminate H |].
    split.
    + intros _ Hne. apply Nat.eqb_eq in El.
      destruct (Pg.select_recent_views cutoff (db w)); [now elim Hne | discriminate El].
    + intros _. do 3 (split; [reflexivity |]).
      intros q [H | [H | [H | H]]];
        [discriminate H | injection H as <-; now left | discriminate H | now right].
  - match goal with
    | |- context [forEachUser env cutoff ?g ?w1] =>
        destruct (forEachUser_ledger cutoff g w1)
          as (w2 & rows & Hrun & Hm & Hs & Hp & Hst & Hrows);
        rewrite Hrun
    end.
    cbn [db steps locals processedCount sentCount] in *.
    eexists; exists rows; (split; [reflexivity |]); cbn [db steps trace locals].
    split; [exact Hm |]. split; [lia |].
    split.
    { intros m Hin. destruct (Hrows m Hin) as (u & _ & _ & Ht & Hl & k & Hk & Hat).
      split; [exact Ht |]. split; [exact Hl |]. exists k. split; [lia | exact Hat]. }
    split.
    { intros p s H. cbn [hd_error] in H. injection H as <- <-.
      fold userGroups in Hp. split; [lia |]. split; [lia |].
      now destruct (locals w2). }
    split; [intros _ _; do 2 eexists; reflexivity |].
    intros [Hnil | Hf]; [| congruence].
    rewrite Hnil in El. discriminate El.
Qed.

End LedgerFacts.

(** X5.  A tick never changes [users], [products] or [products_viewed]
    and never removes or changes a row of [messages_sent]: it only appends.
    Every row it appends is an SMS row of at most 160 characters, for a user
    that has an address and had no reminder since the cutoff, stamped with a
    reading of the clock taken during the tick. *)
Theorem tick_only_appends_reminders (env : Run.Env) (w : Run.World Scanner.Tally) :
  let cutoff := Run.Date_now env (S (Run.steps w)) - 30 * 60 * 1000 in
  exists w' rows,
    Scanner.checkAbandonedCarts env w = (Run.Normal tt, w')
    /\ Pg.users (Run.db w') = Pg.users (Run.db w)
    /\ Pg.products (Run.db w') = Pg.products (Run.db w)
    /\ Pg.products_viewed (Run.db w') = Pg.products_viewed (Run.db w)
    /\ Pg.messages_sent (Run.db w') = (Pg.messages_sent (Run.db w) ++ rows)%list
    /\ forall m, In m rows ->
         MessagesSent.message_type m = "sms"
         /\ (String.length (MessagesSent.content m) <= 160)%nat
         /\ Obs.has_address (Run.db w) (MessagesSent.user_id m) = true
         /\ Obs.reminded (MessagesSent.user_id m) cutoff (Run.db w) = false
         /\ exists k, (Run.steps w <= k < Run.steps w')%nat
                      /\ MessagesSent.sent_at m = Run.Date_now env k.
Proof.
  intros cutoff.
  destruct (checkAbandonedCarts_spec env w)
    as (w' & Hrun & _ & Hu & Hpv & Hp & _ & (rows0 & Hm0 & _ & Hlen) & _ & Hwhy).
  destruct (checkAbandonedCarts_ledger env w)
    as (w2 & rows & Hrun2 & Hm & _ & Hrows & _).
  rewrite Hrun in Hrun2. injection Hrun2 as <-.
  assert (E : rows0 = rows) by (rewrite Hm0 in Hm; now apply app_inv_head in Hm).
  subst rows0. exists w', rows.
  split; [exact Hrun |]. do 3 (split; [assumption |]). split; [exact Hm |].
  intros m Hin. destruct (Hrows m Hin) as (Ht & Hl & Hk).
  split; [exact Ht |]. split; [exact Hl |].
  assert (Hchg : Obs.inserts (MessagesSent.user_id m) (Run.trace w')
                 <> Obs.inserts (MessagesSent.user_id m) (Run.trace w)).
  { specialize (Hlen (MessagesSent.user_id m)).
    assert (Hf : In m (filter (Obs.row_for (MessagesSent.user_id m)) rows)).
    { apply filter_In. split; [exact Hin |]. unfold Obs.row_for. apply String.eqb_refl. }
    destruct (filter (Obs.row_for (MessagesSent.user_id m)) rows); [now elim Hf |].
    cbn [List.length] in Hlen. lia. }
  destruct (Hwhy _ Hchg) as (Ha & Hr & _). fold cutoff in Hr. auto.
Qed.

(** X6.  When a tick ends with its summary line, the second count is the
    number of rows the tick appended to [messages_sent], the first is the
    number of users that passed the two skips, and second <= first <= number
    of groups; the summary is the last line exactly when the batch was
    fetched and is not empty. *)
Theorem summary_counts (env : Run.Env) (w : Run.World Scanner.Tally) :
  let cutoff := Run.Date_now env (S (Run.steps w)) - 30 * 60 * 1000 in
  let batch := Pg.select_recent_views cutoff (Run.db w) in
  exists w' rows,
    Scanner.checkAbandonedCarts env w = (Run.Normal tt, w')
    /\ Pg.messages_sent (Run.db w') = (Pg.messages_sent (Run.db w) ++ rows)%list
    /\ (forall p s,
          hd_error (Run.trace w') = Some (Run.Console (Run.Summary p s)) ->
          s = List.length rows
          /\ (s <= p <= List.length (Scanner.groupByUser batch))%nat
          /\ Run.locals w' = {| Scanner.processedCount := p; Scanner.sentCount := s |})
    /\ ((exists p s, hd_error (Run.trace w') = Some (Run.Console (Run.Summary p s)))
        <-> Run.supabase_fault env (2 + Run.steps w) (Run.SelectRecentViews cutoff)
            = Run.NoFault
            /\ batch <> []).
Proof.
  intros cutoff batch.
  destruct (checkAbandonedCarts_ledger env w)
    as (w' & rows & Hrun & Hm & _ & _ & Hsum & Hyes & Hno).
  fold cutoff in Hsum, Hyes, Hno. fold batch in Hyes, Hno.
  exists w', rows. split; [exact Hrun |]. split; [exact Hm |]. split; [exact Hsum |].
  split; [| intros [Hf Hb]; now apply Hyes].
  intros (p & s & Hhd).
  destruct (Run.supabase_fault env (2 + Run.steps w) (Run.SelectRecentViews cutoff))
    eqn:Ef.
  - split; [reflexivity |]. intros Hnil.
    assert (Hq : Scanner.checkAbandonedCarts env w
                 = (Run.Normal tt,
                    {| Run.db := Run.db w; Run.steps := 3 + Run.steps w;
                       Run.trace := Run.Console Run.NoRecentViews
                                    :: Run.Supabase (Run.SelectRecentViews cutoff)
                                    :: Run.Console (Run.Checking (Run.Date_now env (Run.steps w)))
                                    :: Run.trace w;
                       Run.locals := Run.locals w |})).
    { unfold Scanner.checkAbandonedCarts. run. fold cutoff. cbn [Nat.add] in Ef.
      rewrite Ef. run. fold batch. rewrite Hnil. reflexivity. }
    rewrite Hq in Hrun. injection Hrun as <-. discriminate Hhd.
  - exfalso.
    rewrite (tick_fetch_fails env w (Run.Fails e) Ef) in Hrun by discriminate.
    injection Hrun as <-. discriminate Hhd.
  - exfalso.
    rewrite (tick_fetch_fails env w (Run.Rejects x) Ef) in Hrun by discriminate.
    injection Hrun as <-. discriminate Hhd.
Qed.

(** X7.  The insert arms the cooldown.  If the cutoff of the next tick
    does not pass the clock readings of this one (the next tick starts within
    thirty minutes), then every user this tick recorded a reminder for gets
    no insert request and no new row in the next tick. *)
Theorem reminder_arms_cooldown (env : Run.Env) (w : Run.World Scanner.Tally) :
  exists w1 rows,
    Scanner.checkAbandonedCarts env w = (Run.Normal tt, w1)
    /\ Pg.messages_sent (Run.db w1) = (Pg.messages_sent (Run.db w) ++ rows)%list
    /\ ((forall k, (Run.steps w <= k < Run.steps w1)%nat ->
           Run.Date_now env (S (Run.steps w1)) - 30 * 60 * 1000 <= Run.Date_now env k) ->
        forall m, In m rows ->
          exists w2,
            Scanner.checkAbandonedCarts env w1 = (Run.Normal tt, w2)
            /\ Obs.inserts (MessagesSent.user_id m) (Run.trace w2)
               = Obs.inserts (MessagesSent.user_id m) (Run.trace w1)
            /\ Obs.rows_for (MessagesSent.user_id m) (Run.db w2)
               = Obs.rows_for (MessagesSent.user_id m) (Run.db w1)).
Proof.
  destruct (checkAbandonedCarts_ledger env w)
    as (w1 & rows & Hrun & Hm & _ & Hrows & _).
  exists w1, rows. split; [exact Hrun |]. split; [exact Hm |].
  intros Hclock m Hin.
  apply tick_quiet_for. right. apply reminded_iff.
  exists m. destruct (Hrows m Hin) as (Ht & _ & k & Hk & Hat).
  split; [rewrite Hm; apply in_or_app; now right |].
  split; [reflexivity |]. split; [exact Ht |].
  rewrite Hat. now apply Hclock.
Qed.

(** Alice is reminded in a first tick and left alone in the next. *)
Lemma reminder_arms_cooldown_witness :
  exists w1 w2,
    Scanner.checkAbandonedCarts Sample.quiet (Sample.start Sample.shop Sample.tally0)
    = (Run.Normal tt, w1)
    /\ Obs.rows_for "u-alice" (Run.db w1) <> []
    /\ Scanner.checkAbandonedCarts Sample.quiet w1 = (Run.Normal tt, w2)
    /\ Obs.rows_for "u-alice" (Run.db w2) = Obs.rows_for "u-alice" (Run.db w1).
Proof.
  destruct (reminder_arms_cooldown Sample.quiet (Sample.start Sample.shop Sample.tally0))
    as (w1 & rows & Hrun & Hm & Harm).
  assert (E : Scanner.checkAbandonedCarts Sample.quiet
                (Sample.start Sample.shop Sample.tally0)
              = (Run.Normal tt, w1)) by exact Hrun.
  vm_compute in Hrun. injection Hrun as <-.
  cbn in Hm. subst rows.
  destruct (Harm (fun k _ => ltac:(cbn; lia)) _ (or_introl eq_refl))
    as (w2 & Hrun2 & _ & Hrows).
  eexists; exists w2. split; [exact E |]. split; [discriminate |].
  split; [exact Hrun2 | exact Hrows].
Defined.

(** X8.  When no view of [products_viewed] is both recent (not older than
    the cutoff) and attached to an existing user, and the batch query goes
    through, the tick logs that there is nothing to do and stops: one query,
    no call to the text generator, no insert, the counters untouched. *)
Theorem nothing_to_do_without_recent_views (env : Run.Env) (w : Run.World Scanner.Tally) :
  let cutoff := Run.Date_now env (S (Run.steps w)) - 30 * 60 * 1000 in
  Run.supabase_fault env (2 + Run.steps w) (Run.SelectRecentViews cutoff) = Run.NoFault ->
  (forall v, In v (Pg.products_viewed (Run.db w)) ->
     ProductsViewed.timestamp v < cutoff \/ Pg.join_user (Run.db w) v = None) ->
  Scanner.checkAbandonedCarts env w
  = (Run.Normal tt,
     {| Run.db := Run.db w; Run.steps := 3 + Run.steps w;
        Run.trace := Run.Console Run.NoRecentViews
                     :: Run.Supabase (Run.SelectRecentViews cutoff)
                     :: Run.Console (Run.Checking (Run.Date_now env (Run.steps w)))
                     :: Run.trace w;
        Run.locals := Run.locals w |}).
Proof.
  intros cutoff Hf Hold.
  assert (Hnil : Pg.select_recent_views cutoff (Run.db w) = []).
  { destruct (Pg.select_recent_views cutoff (Run.db w)) as [|j l] eqn:E; [reflexivity |].
    assert (Hj : In j (Pg.select_recent_views cutoff (Run.db w)))
      by (rewrite E; now left).
    apply select_recent_views_In in Hj as (Hv & Ht & Hjoin).
    destruct (Hold _ Hv) as [Hlt | Hnone]; [unfold Scanner.timestamp in Ht; lia | congruence]. }
  unfold Scanner.checkAbandonedCarts. run. fold cutoff. cbn [Nat.add] in Hf.
  rewrite Hf. run. rewrite Hnil. reflexivity.
Qed.

Lemma nothing_to_do_without_recent_views_witness :
  Scanner.checkAbandonedCarts Sample.quiet
    (Sample.start
       (Pg.with_products_viewed Sample.shop
          [Sample.view "v3" None "p1" "Widget" 0;
           Sample.view "v4" (Some "u-gone") "p1" "Widget" 0;
           Sample.view "v5" (Some "u-alice") "p1" "Widget" (-900000)])
       Sample.tally0)
  = (Run.Normal tt,
     {| Run.db := Pg.with_products_viewed Sample.shop
                    [Sample.view "v3" None "p1" "Widget" 0;
                     Sample.view "v4" (Some "u-gone") "p1" "Widget" 0;
                     Sample.view "v5" (Some "u-alice") "p1" "Widget" (-900000)];
        Run.steps := 3;
        Run.trace := [Run.Console Run.NoRecentViews;
                      Run.Supabase (Run.SelectRecentViews (900600 - 1800000));
                      Run.Console (Run.Checking 900600)];
        Run.locals := Sample.tally0 |}).
Proof.
  apply (nothing_to_do_without_recent_views Sample.quiet
           (Sample.start
              (Pg.with_products_viewed Sample.shop
                 [Sample.view "v3" None "p1" "Widget" 0;
                  Sample.view "v4" (Some "u-gone") "p1" "Widget" 0;
                  Sample.view "v5" (Some "u-alice") "p1" "Widget" (-900000)])
              Sample.tally0)).
  - reflexivity.
  - intros v [<- | [<- | [<- | []]]]; cbn; first [now right | left; lia].
Defined.

(* ================================================================== *)
(** * More on the View Recorder                                        *)
(* ================================================================== *)

Section RecorderMore.
Import Run Recorder Obs.
Variable env : Env.

(** A request is turned away by the validation or accepted by it. *)
Lemma trackView_cases (req : Request) (w : World (option string)) :
  (exists error w',
     trackView env req w = (Normal (bad_request error), w')
     /\ db w' = db w /\ trace w' = trace w)
  \/ (exists id name t, accepted env (Date_now env (steps w)) req id name t).
Proof.
  destruct (blank (product_id req)) eqn:Bi.
  { left. destruct (trackView_blank env req w (or_introl Bi)) as [error E].
    exists error, w. auto. }
  destruct (blank (product_name req)) eqn:Bn.
  { left. destruct (trackView_blank env req w (or_intror Bn)) as [error E].
    exists error, w. auto. }
  destruct (product_id req) as [| | | |id|] eqn:Ei; try discriminate Bi.
  destruct (product_name req) as [| | | |name|] eqn:En; try discriminate Bn.
  cbn [blank] in Bi, Bn.
  assert (Hrej :
            (Js.truthy (timestamp req) = true /\ parse_timestamp env (timestamp req) = None)
            \/ (Js.truthy (user_email req) = true /\ email_test (user_email req) = false) ->
            exists error w', trackView env req w = (Normal (bad_request error), w')
                             /\ db w' = db w /\ trace w' = trace w).
  { intros H. rewrite (trackView_passes env req id name w Ei Bi En Bn).
    destruct (validated_rejects env req id name w H) as (error & w' & Hv & Hd & Ht).
    exists error, w'. unfold try_catch. rewrite Hv. auto. }
  destruct (if Js.truthy (timestamp req) then parse_timestamp env (timestamp req)
            else Some (Date_now env (steps w))) as [t|] eqn:Et.
  2: { left. destruct (Js.truthy (timestamp req)); [| discriminate]. apply Hrej. now left. }
  destruct (Js.truthy (user_email req) && negb (email_test (user_email req))) eqn:Ee.
  { left. apply andb_true_iff in Ee as [E1 E2]. apply negb_true_iff in E2.
    apply Hrej. now right. }
  right. exists id, name, t.
  repeat (split; [assumption |]). intros Htr. rewrite Htr in Ee.
  cbn in Ee. now apply negb_false_iff in Ee.
Qed.

End RecorderMore.

(** X9.  The Next.js route answers 405 to every method other than POST,
    without reading the body, the clock or the database; for POST it is the
    Express route, whose status is always 200, 400 or 500. *)
Theorem handler_method_gate
    (env : Run.Env) (method : string) (req : Recorder.Request)
    (w : Run.World (option string)) :
  (method <> "POST" ->
   NextRoute.handler env method req w
   = (Run.Normal {| Recorder.status := 405;
                    Recorder.body :=
                      Recorder.ErrorOnly
                        "Method not allowed. Only POST requests are accepted." |}, w))
  /\ (method = "POST" ->
      exists resp w',
        NextRoute.handler env method req w = (Run.Normal resp, w')
        /\ Recorder.trackView env req w = (Run.Normal resp, w')
        /\ (Recorder.status resp = 200 \/ Recorder.status resp = 400
            \/ Recorder.status resp = 500)).
Proof.
  unfold NextRoute.handler. split.
  - intros Hm. apply String.eqb_neq in Hm. rewrite Hm. reflexivity.
  - intros ->. cbn [String.eqb Ascii.eqb Bool.eqb negb].
    destruct (trackView_cases env req w)
      as [(error & w' & E & _) | (id & name & t & Hacc)].
    + exists (Recorder.bad_request error), w'. cbn. auto.
    + destruct (trackView_accepted env req id name t w Hacc)
        as (n & userId & resp & w' & Hrun & _ & _ & _ & _ & Hans & _).
      exists resp, w'. split; [exact Hrun |]. split; [exact Hrun |].
      unfold Obs.answer in Hans.
      destruct (Run.supabase_fault env n (Run.InsertView userId id name t)).
      1: destruct (Pg.view_violation userId id (Run.db w')).
      all: destruct Hans as [-> _]; cbn; auto.
Qed.

Lemma handler_method_gate_witness :
  NextRoute.handler Sample.quiet "GET"
    {| Recorder.user_email := Js.JStr "a@x.com"; Recorder.product_id := Js.JStr "p1";
       Recorder.product_name := Js.JStr "Widget"; Recorder.timestamp := Js.JUndefined |}
    (Sample.start Sample.shop None)
  = (Run.Normal {| Recorder.status := 405;
                   Recorder.body :=
                     Recorder.ErrorOnly
                       "Method not allowed. Only POST requests are accepted." |},
     Sample.start Sample.shop None).
Proof.
  apply (proj1 (handler_method_gate Sample.quiet "GET"
                  {| Recorder.user_email := Js.JStr "a@x.com";
                     Recorder.product_id := Js.JStr "p1";
                     Recorder.product_name := Js.JStr "Widget";
                     Recorder.timestamp := Js.JUndefined |}
                  (Sample.start Sample.shop None))).
  discriminate.
Defined.

Section Faultless.
Import Run Recorder Obs.
Variable env : Env.
Hypothesis faultless : forall n q, supabase_fault env n q = NoFault.






End Faultless.



(* ================================================================== *)
(** * The other two generators                                         *)
(* ================================================================== *)

(** [run2] also unfolds the entries made beside the trace. *)
Ltac run2 :=
  run; cbv beta iota zeta delta [Aside.note Aside.lift];
  cbn [Run.db Run.steps Run.trace Run.locals Aside.own Aside.said]; run.

Section GeneratorFacts.
Import Run Aside Generators.
Context {L : Type}.
Variable env : Env.
Variables userName productName urgencyLevel : string.
Variable checkoutLink : option string.
Hypothesis name_ok : Js.truthy_str userName = true.
Hypothesis product_ok : Js.truthy_str productName = true.
Hypothesis level_ok : In urgencyLevel Composer.urgency_levels.

Lemma generate_answered (w : World L) (c : string) :
  openai_reply env (steps w) = Content c ->
  Composer.generateReminderMessage env userName productName urgencyLevel checkoutLink w
  = (Normal (Cleanup.clean c),
     {| db := db w; steps := S (steps w);
        trace := OpenAI userName productName urgencyLevel checkoutLink :: trace w;
        locals := locals w |}).
Proof.
  intros Hc. unfold Composer.generateReminderMessage.
  rewrite name_ok, product_ok, (proj2 (seen_iff _ _) level_ok). run. now rewrite Hc.
Qed.

Lemma generate_refused (w : World L) (x : Exn) :
  openai_reply env (steps w) = Failure x ->
  Composer.generateReminderMessage env userName productName urgencyLevel checkoutLink w
  = (Thrown x,
     {| db := db w; steps := S (steps w);
        trace := Console (ErrGenerating x)
                 :: OpenAI userName productName urgencyLevel checkoutLink :: trace w;
        locals := locals w |}).
Proof.
  intros Hc. unfold Composer.generateReminderMessage.
  rewrite name_ok, product_ok, (proj2 (seen_iff _ _) level_ok). run. now rewrite Hc.
Qed.

End GeneratorFacts.

Section VariationFacts.
Import Run Aside Generators.
Context {L : Type}.
Variable env : Env.
Variables userName productName urgencyLevel : string.
Variable checkoutLink : option string.
Hypothesis name_ok : Js.truthy_str userName = true.
Hypothesis product_ok : Js.truthy_str productName = true.
Hypothesis level_ok : In urgencyLevel Composer.urgency_levels.

Lemma rounds_answered (n : nat) :
  forall (messages : list string) (w : World (Aside L)),
  (forall i, (i < n)%nat -> exists c, openai_reply env (steps w + i) = Content c) ->
  exists fresh w',
    rounds env userName productName urgencyLevel checkoutLink n messages w
    = (Normal (messages ++ fresh)%list, w')
    /\ List.length fresh = n
    /\ (forall i c, (i < n)%nat -> openai_reply env (steps w + i) = Content c ->
          nth_error fresh i = Some (Cleanup.clean c))
    /\ db w' = db w /\ steps w' = (steps w + n)%nat /\ locals w' = locals w.
Proof.
  induction n as [|n IH]; intros messages w Hall.
  - exists [], w. cbn [rounds]. run. rewrite app_nil_r, Nat.add_0_r.
    split; [reflexivity |]. split; [reflexivity |].
    split; [intros i c Hi; lia | auto].
  - destruct (Hall 0%nat ltac:(lia)) as [c0 Hc0]. rewrite Nat.add_0_r in Hc0.
    cbn [rounds]. unfold bind at 1.
    rewrite (generate_answered env userName productName urgencyLevel checkoutLink
               name_ok product_ok level_ok w c0 Hc0).
    match goal with
    | |- context [rounds _ _ _ _ _ n ?ms ?w1] =>
        destruct (IH ms w1) as (fresh & w' & Hrun & Hlen & Hnth & Hd & Hs & Hl)
    end.
    { intros i Hi. cbn [steps]. destruct (Hall (S i) ltac:(lia)) as [c Hc].
      exists c. now rewrite Nat.add_succ_comm. }
    cbn [db steps locals] in *.
    exists (Cleanup.clean c0 :: fresh), w'. rewrite Hrun, <- app_assoc.
    split; [reflexivity |]. split; [cbn; lia |].
    split; [| split; [exact Hd | split; [lia | exact Hl]]].
    intros [|i] c Hi Hc.
    + rewrite Nat.add_0_r, Hc0 in Hc. now injection Hc as <-.
    + cbn [nth_error]. apply Hnth; [lia |]. now rewrite Nat.add_succ_comm.
Qed.

Lemma rounds_refused (n : nat) :
  forall (messages : list string) (w : World (Aside L)) (k : nat) (x : Exn),
  (k < n)%nat ->
  (forall i, (i < k)%nat -> exists c, openai_reply env (steps w + i) = Content c) ->
  openai_reply env (steps w + k) = Failure x ->
  exists w',
    rounds env userName productName urgencyLevel checkoutLink n messages w = (Thrown x, w')
    /\ db w' = db w /\ steps w' = (steps w + S k)%nat /\ locals w' = locals w.
Proof.
  induction n as [|n IH]; intros messages w k x Hk Hall Hx; [lia |].
  cbn [rounds]. unfold bind at 1. destruct k as [|k].
  - rewrite Nat.add_0_r in Hx.
    rewrite (generate_refused env userName productName urgencyLevel checkoutLink
               name_ok product_ok level_ok w x Hx).
    eexists. split; [reflexivity |]. cbn. split; [reflexivity |]. split; [lia | reflexivity].
  - destruct (Hall 0%nat ltac:(lia)) as [c0 Hc0]. rewrite Nat.add_0_r in Hc0.
    rewrite (generate_answered env userName productName urgencyLevel checkoutLink
               name_ok product_ok level_ok w c0 Hc0).
    match goal with
    | |- context [rounds _ _ _ _ _ n ?ms ?w1] =>
        destruct (IH ms w1 k x) as (w' & Hrun & Hd & Hs & Hl)
    end.
    + lia.
    + intros i Hi. cbn [steps]. destruct (Hall (S i) ltac:(lia)) as [c Hc].
      exists c. now rewrite Nat.add_succ_comm.
    + cbn [steps]. now rewrite Nat.add_succ_comm.
    + cbn [db steps locals] in *. exists w'. rewrite Hrun.
      split; [reflexivity |]. split; [exact Hd |]. split; [lia | exact Hl].
Qed.

End VariationFacts.

(** X11.  [generateMessageVariations] is all or nothing.  With a count of
    zero or less it returns the empty list without any call.  When the text
    generator answers every one of the [n] calls, the result holds exactly
    the [n] cleaned answers in order, each of at most 160 characters.  When
    the call of rank [k] fails, the error is noted and thrown on after
    [k + 1] calls, and the messages obtained before are lost. *)
Theorem variations_all_or_nothing
    (L : Type) (env : Run.Env) (userName productName urgencyLevel : string)
    (checkoutLink : option string) (variations : Z) (w : Run.World (Aside.Aside L)) :
  let n := Z.to_nat variations in
  (variations <= 0 ->
   Generators.generateMessageVariations env userName productName urgencyLevel
     checkoutLink variations w = (Run.Normal [], w))
  /\ (Js.truthy_str userName = true -> Js.truthy_str productName = true ->
      In urgencyLevel Composer.urgency_levels ->
      (forall i, (i < n)%nat ->
         exists c, Run.openai_reply env (Run.steps w + i) = Run.Content c) ->
      exists messages w',
        Generators.generateMessageVariations env userName productName urgencyLevel
          checkoutLink variations w = (Run.Normal messages, w')
        /\ List.length messages = n
        /\ (forall i c, (i < n)%nat ->
              Run.openai_reply env (Run.steps w + i) = Run.Content c ->
              nth_error messages i = Some (Cleanup.clean c))
        /\ Forall (fun m => (String.length m <= 160)%nat) messages
        /\ Run.db w' = Run.db w
        /\ Run.steps w' = (Run.steps w + n)%nat
        /\ Run.locals w' = Run.locals w)
  /\ (Js.truthy_str userName = true -> Js.truthy_str productName = true ->
      In urgencyLevel Composer.urgency_levels ->
      forall k x, (k < n)%nat ->
        (forall i, (i < k)%nat ->
           exists c, Run.openai_reply env (Run.steps w + i) = Run.Content c) ->
        Run.openai_reply env (Run.steps w + k) = Run.Failure x ->
        exists w',
          Generators.generateMessageVariations env userName productName urgencyLevel
            checkoutLink variations w = (Run.Thrown x, w')
          /\ Run.db w' = Run.db w
          /\ Run.steps w' = (Run.steps w + S k)%nat
          /\ Aside.own (Run.locals w') = Aside.own (Run.locals w)
          /\ Aside.said (Run.locals w')
             = (List.length (Run.trace w'), Aside.ErrVariations x)
               :: Aside.said (Run.locals w)).
Proof.
  intros n. unfold Generators.generateMessageVariations. fold n.
  split; [| split].
  - intros Hz. replace n with 0%nat by (unfold n; lia). cbn [Generators.rounds].
    run. now destruct w.
  - intros Hn Hp Hl Hall.
    destruct (rounds_answered env userName productName urgencyLevel checkoutLink
                Hn Hp Hl n [] w Hall)
      as (fresh & w' & Hrun & Hlen & Hnth & Hd & Hs & Hloc).
    cbn [app] in Hrun. exists fresh, w'. unfold Run.try_catch. rewrite Hrun.
    split; [reflexivity |]. split; [exact Hlen |]. split; [exact Hnth |].
    split; [| auto].
    apply Forall_forall. intros m Hm.
    apply In_nth_error in Hm as [i Hi].
    assert (Hlt : (i < n)%nat).
    { rewrite <- Hlen. apply nth_error_Some. congruence. }
    destruct (Hall i Hlt) as [c Hc]. rewrite (Hnth i c Hlt Hc) in Hi.
    injection Hi as <-. apply truncate_length.
  - intros Hn Hp Hl k x Hk Hall Hx.
    destruct (rounds_refused env userName productName urgencyLevel checkoutLink
                Hn Hp Hl n [] w k x Hk Hall Hx)
      as (w' & Hrun & Hd & Hs & Hloc).
    unfold Run.try_catch. rewrite Hrun. run2.
    eexists. split; [reflexivity |]. cbn [Run.db Run.steps Run.trace Run.locals
                                          Aside.own Aside.said].
    rewrite Hloc. auto.
Qed.

(** Two variations of a long completion. *)
Lemma variations_all_or_nothing_witness :
  exists w',
    Generators.generateMessageVariations Sample.verbose "Sarah" "Widget" "medium" None 2
      (Sample.start Sample.shop {| Aside.own := tt; Aside.said := [] |})
    = (Run.Normal [Sample.many 157 "x" ++ "..."; Sample.many 157 "x" ++ "..."], w')
    /\ Run.steps w' = 2%nat.
Proof.
  destruct (variations_all_or_nothing unit Sample.verbose "Sarah" "Widget" "medium" None 2
              (Sample.start Sample.shop {| Aside.own := tt; Aside.said := [] |}))
    as (_ & Hok & _).
  destruct Hok as (messages & w' & Hrun & Hlen & Hnth & _ & _ & Hs & _).
  - reflexivity.
  - reflexivity.
  - cbn. tauto.
  - intros i _. now exists Sample.long_text.
  - exists w'. split; [| exact Hs].
    rewrite Hrun. f_equal. f_equal.
    destruct messages as [|m0 [|m1 [|m2 l]]]; try discriminate Hlen.
    pose proof (Hnth 0%nat Sample.long_text ltac:(cbn; lia) eq_refl) as H0.
    pose proof (Hnth 1%nat Sample.long_text ltac:(cbn; lia) eq_refl) as H1.
    cbn [nth_error] in H0, H1. injection H0 as ->. injection H1 as ->.
    reflexivity.
Defined.

(** X12.  [generateMessageFromTemplate] checks none of its arguments: for
    any name, product and template, empty ones included, it sends one request
    and returns the cleaned answer, of at most 160 characters, or notes the
    failure and throws it on; it logs nothing on the console trace and
    touches neither the database nor the caller's variables.  With an empty
    name [generateReminderMessage] refuses where it goes ahead. *)
Theorem template_is_unchecked
    (L : Type) (env : Run.Env) (userName productName template : string)
    (checkoutLink : option string) (w : Run.World (Aside.Aside L)) :
  (forall c, Run.openai_reply env (Run.steps w) = Run.Content c ->
     Generators.generateMessageFromTemplate env userName productName template
       checkoutLink w
     = (Run.Normal (Cleanup.clean c),
        {| Run.db := Run.db w; Run.steps := S (Run.steps w); Run.trace := Run.trace w;
           Run.locals :=
             {| Aside.own := Aside.own (Run.locals w);
                Aside.said :=
                  (List.length (Run.trace w),
                   Aside.TemplateRequest template userName productName checkoutLink)
                  :: Aside.said (Run.locals w) |} |})
     /\ (String.length (Cleanup.clean c) <= 160)%nat)
  /\ (forall x, Run.openai_reply env (Run.steps w) = Run.Failure x ->
        Generators.generateMessageFromTemplate env userName productName template
          checkoutLink w
        = (Run.Thrown x,
           {| Run.db := Run.db w; Run.steps := S (Run.steps w); Run.trace := Run.trace w;
              Run.locals :=
                {| Aside.own := Aside.own (Run.locals w);
                   Aside.said :=
                     (List.length (Run.trace w), Aside.ErrTemplate x)
                     :: (List.length (Run.trace w),
                         Aside.TemplateRequest template userName productName checkoutLink)
                     :: Aside.said (Run.locals w) |} |}))
  /\ (userName = "" ->
      exists w',
        Composer.generateReminderMessage env userName productName "medium" checkoutLink w
        = (Run.Thrown "userName and productName are required", w')
        /\ Run.steps w' = Run.steps w).
Proof.
  unfold Generators.generateMessageFromTemplate, Generators.chat_template.
  split; [| split].
  - intros c Hc. run2. rewrite Hc. run2. split; [reflexivity | apply truncate_length].
  - intros x Hx. run2. rewrite Hx. run2. reflexivity.
  - intros ->. unfold Composer.generateReminderMessage. run.
    eexists. split; reflexivity.
Qed.

Lemma template_is_unchecked_witness :
  fst (Generators.generateMessageFromTemplate Sample.verbose "" "" "Hey {name}!" None
         (Sample.start Sample.shop {| Aside.own := tt; Aside.said := [] |}))
  = Run.Normal (Sample.many 157 "x" ++ "...").
Proof.
  rewrite (proj1 (proj1 (template_is_unchecked unit Sample.verbose "" "" "Hey {name}!" None
                           (Sample.start Sample.shop
                              {| Aside.own := tt; Aside.said := [] |}))
                    Sample.long_text eq_refl)).
  reflexivity.
Defined.

(* ================================================================== *)
(** * The Delivery Channel                                             *)
(* ================================================================== *)

(** X13.  [sendSMS] calls the SMS gateway exactly when the recipient, the
    text and the three credentials are all present.  A missing recipient or
    text, then a missing credential, is thrown before anything else happens;
    otherwise the gateway is called once with the recipient and the text, and
    its identifier is returned or its failure noted and thrown on. *)
Theorem sendSMS_guards
    (L : Type) (env : Run.Env) (accountSid authToken fromNumber : option string)
    (phoneNumber message : string) (w : Run.World (Aside.Aside L)) :
  let ready := Js.truthy_str phoneNumber && Js.truthy_str message in
  let configured := Js.truthy_opt accountSid && Js.truthy_opt authToken
                    && Js.truthy_opt fromNumber in
  (ready = false ->
   Delivery.sendSMS env accountSid authToken fromNumber phoneNumber message w
   = (Run.Thrown "phoneNumber and message are required", w))
  /\ (ready = true -> configured = false ->
      Delivery.sendSMS env accountSid authToken fromNumber phoneNumber message w
      = (Run.Thrown "Twilio credentials are not set in environment variables", w))
  /\ (ready = true -> configured = true ->
      exists c w',
        Delivery.sendSMS env accountSid authToken fromNumber phoneNumber message w = (c, w')
        /\ Run.trace w' = Run.Twilio phoneNumber message :: Run.trace w
        /\ Run.db w' = Run.db w
        /\ match Run.twilio_reply env (Run.steps w) with
           | inr sid =>
               c = Run.Normal sid
               /\ Aside.said (Run.locals w')
                  = (S (List.length (Run.trace w)), Aside.SmsSentSuccessfully sid)
                    :: Aside.said (Run.locals w)
           | inl x =>
               c = Run.Thrown x
               /\ Aside.said (Run.locals w')
                  = (S (List.length (Run.trace w)), Aside.SmsSendingFailed x)
                    :: Aside.said (Run.locals w)
           end)
  /\ Obs.deliveries
       (Run.trace (snd (Delivery.sendSMS env accountSid authToken fromNumber
                          phoneNumber message w)))
     = (Obs.deliveries (Run.trace w) + (if ready && configured then 1 else 0))%nat.
Proof.
  intros ready configured. subst ready configured. unfold Delivery.sendSMS.
  destruct (Js.truthy_str phoneNumber), (Js.truthy_str message),
    (Js.truthy_opt accountSid), (Js.truthy_opt authToken), (Js.truthy_opt fromNumber);
    cbn [andb negb orb]; run2;
    try destruct (Run.twilio_reply env (Run.steps w)) eqn:Er; run2.
  all: split; [intros H; first [discriminate H | reflexivity] |].
  all: split; [intros H1 H2; first [discriminate H1 | discriminate H2 | reflexivity] |].
  all: split; [intros H1 H2; first [discriminate H1 | discriminate H2 | idtac] |].
  all: try (do 2 eexists; split; [reflexivity |];
            cbn [Run.db Run.trace Run.locals Aside.said]; auto).
  all: cbn [snd Run.trace]; unfold Obs.deliveries; cbn [filter Obs.is_twilio List.length]; lia.
Qed.

Lemma sendSMS_guards_witness :
  Delivery.sendSMS Sample.quiet None (Some "token") (Some "+15550000") "+15551111" "Hi"
    (Sample.start Sample.shop {| Aside.own := tt; Aside.said := [] |})
  = (Run.Thrown "Twilio credentials are not set in environment variables",
     Sample.start Sample.shop {| Aside.own := tt; Aside.said := [] |}).
Proof.
  exact (proj1 (proj2 (sendSMS_guards unit Sample.quiet None (Some "token")
                         (Some "+15550000") "+15551111" "Hi"
                         (Sample.start Sample.shop
                            {| Aside.own := tt; Aside.said := [] |})))
           eq_refl eq_refl).
Defined.

(* ================================================================== *)
(** * The exported handler                                             *)
(* ================================================================== *)

Section ExportedFacts.
Import Run Recorder Aside.
Variable env : Env.

(** Two runs that agree on everything but the console. *)
Let agree (r1 r2 : Completion Response * World (option string)) : Prop :=
  fst r1 = fst r2
  /\ db (snd r1) = db (snd r2)
  /\ steps (snd r1) = steps (snd r2)
  /\ locals (snd r1) = locals (snd r2).

Lemma bind_run {L A B : Type} (m : M L A) (f : A -> M L B) (w : World L) :
  bind m f w
  = match m w with
    | (Normal a, w') => f a w'
    | (Thrown x, w') => (Thrown x, w')
    end.
Proof. reflexivity. Qed.

Lemma record_agree (id name : string) (t : Z) (w : World (option string)) :
  agree (Recorder.record env id name t w) (Exported.record env id name t w).
Proof.
  unfold agree, Recorder.record, Exported.record.
  rewrite (bind_run (resolve_product env id name) _ w).
  rewrite (bind_run (resolve_product env id name) _ w).
  destruct (resolve_product env id name w) as [[[]|x] w1];
    [| repeat split; reflexivity].
  run. destruct (supabase_fault env (steps w1) (InsertView (locals w1) id name t)); run.
  1: destruct (Pg.view_violation (locals w1) id (db w1)); run.
  all: repeat split; reflexivity.
Qed.

Lemma validated_agree (req : Request) (id name : string) (w : World (option string)) :
  agree (Recorder.validated env req id name w) (Exported.validated env req id name w).
Proof.
  unfold Recorder.validated, Exported.validated. run.
  destruct (if Js.truthy (timestamp req) then parse_timestamp env (timestamp req)
            else Some (Date_now env (steps w))) as [t|];
    [| repeat split; reflexivity].
  run. destruct (Js.truthy (user_email req)); [| apply record_agree].
  destruct (negb (email_test (user_email req))); [repeat split; reflexivity |].
  destruct (email_string (user_email req)) as [email|]; [| apply record_agree].
  destruct (resolve_user env email _) as [[[]|x] w1]; [apply record_agree |].
  repeat split; reflexivity.
Qed.

Lemma attempt_agree (req : Request) (w : World (option string)) :
  exists c1 w1 c2 w2,
    Exported.attempt env req w = (c2, w2)
    /\ trackView env req w
       = (match c1 with
          | Normal a => (Normal a, w1)
          | Thrown x =>
              (Normal {| status := 500; body := ErrorMessage "Internal server error" x |},
               {| db := db w1; steps := steps w1;
                  trace := Console (ErrTrackView x) :: trace w1; locals := locals w1 |})
          end)
    /\ c1 = c2 /\ db w1 = db w2 /\ steps w1 = steps w2 /\ locals w1 = locals w2.
Proof.
  unfold trackView, Exported.attempt, try_catch.
  assert (Hsame : forall c : Completion Response,
            (exists a, c = Normal a) ->
            exists c1 w1 c2 w2,
              (c, w) = (c2, w2)
              /\ (let (c0, w') := (c, w) in
                  match c0 with
                  | Normal a => (Normal a, w')
                  | Thrown x =>
                      (bind (log (ErrTrackView x))
                         (fun _ => ret {| status := 500;
                                          body := ErrorMessage "Internal server error" x |}))
                        w'
                  end)
                 = (match c1 with
                    | Normal a => (Normal a, w1)
                    | Thrown x =>
                        (Normal {| status := 500;
                                   body := ErrorMessage "Internal server error" x |},
                         {| db := db w1; steps := steps w1;
                            trace := Console (ErrTrackView x) :: trace w1;
                            locals := locals w1 |})
                    end)
              /\ c1 = c2 /\ db w1 = db w2 /\ steps w1 = steps w2 /\ locals w1 = locals w2).
  { intros c [a ->]. exists (Normal a), w, (Normal a), w. repeat split; reflexivity. }
  destruct (negb (Js.truthy (product_id req)) || negb (Js.truthy (product_name req)));
    [apply Hsame; eexists; reflexivity |].
  destruct (product_id req) as [| | | |id|];
    try (apply Hsame; eexists; reflexivity).
  destruct (String.eqb (Js.trim id) ""); [apply Hsame; eexists; reflexivity |].
  destruct (product_name req) as [| | | |name|];
    try (apply Hsame; eexists; reflexivity).
  destruct (String.eqb (Js.trim name) ""); [apply Hsame; eexists; reflexivity |].
  clear Hsame.
  pose proof (validated_agree req id name w) as (Hc & Hd & Hs & Hl).
  destruct (Recorder.validated env req id name w) as [c1 w1].
  destruct (Exported.validated env req id name w) as [c2 w2].
  cbn [fst snd] in *. exists c1, w1, c2, w2.
  split; [reflexivity |]. split; [| auto].
  run. now destruct c1.
Qed.

End ExportedFacts.

(** X14.  [trackViewHandler] answers every request as the route does:
    the same response, the same database, the same number of interactions
    and the same [userId]; the two differ on the console only. *)
Theorem exported_handler_matches_route
    (env : Run.Env) (req : Recorder.Request) (w : Run.World (Aside.Aside (option string))) :
  exists resp w1 w2,
    Recorder.trackView env req
      {| Run.db := Run.db w; Run.steps := Run.steps w; Run.trace := Run.trace w;
         Run.locals := Aside.own (Run.locals w) |}
    = (Run.Normal resp, w1)
    /\ Exported.trackViewHandler env req w = (Run.Normal resp, w2)
    /\ Run.db w2 = Run.db w1
    /\ Run.steps w2 = Run.steps w1
    /\ Aside.own (Run.locals w2) = Run.locals w1.
Proof.
  destruct (attempt_agree env req
              {| Run.db := Run.db w; Run.steps := Run.steps w; Run.trace := Run.trace w;
                 Run.locals := Aside.own (Run.locals w) |})
    as (c1 & w1 & c2 & w2 & Hat & Htv & <- & Hd & Hs & Hl).
  unfold Exported.trackViewHandler. run2. rewrite Hat, Htv.
  destruct c1 as [resp|x]; run2.
  - do 3 eexists. split; [reflexivity |]. split; [reflexivity |].
    cbn [Run.db Run.steps Run.locals Aside.own]. auto.
  - do 3 eexists. split; [reflexivity |]. split; [reflexivity |].
    cbn [Run.db Run.steps Run.locals Aside.own]. auto.
Qed.

(* ================================================================== *)
(** * A reminder on request                                            *)
(* ================================================================== *)

(** X15.  [sendAbandonedCartReminder] looks the user up by address, then
    the product by identifier, and throws User not found or Product not
    found when the lookup returns an error or no single row, before any call
    to the text generator.  Otherwise it generates the text and makes one
    insert into [messages_sent] without consulting the rows already there (no
    cooldown); it reports success with the text even when that insert
    returned an error, the message identifier then being undefined. *)
Theorem reminder_on_request
    (L : Type) (env : Run.Env) (userEmail productId urgencyLevel : string)
    (w : Run.World (Aside.Aside L)) :
  let ask_user := Run.SelectUserByEmail userEmail in
  let ask_product := Run.SelectProduct productId in
  (forall err,
     Run.supabase_fault env (Run.steps w) ask_user = Run.Fails err
     \/ (Run.supabase_fault env (Run.steps w) ask_user = Run.NoFault
         /\ Pg.select_user_by_email userEmail (Run.db w) = Pg.Error err) ->
     OnRequest.sendAbandonedCartReminder env userEmail productId urgencyLevel w
     = (Run.Thrown "User not found",
        {| Run.db := Run.db w; Run.steps := S (Run.steps w);
           Run.trace := Run.Supabase ask_user :: Run.trace w;
           Run.locals :=
             {| Aside.own := Aside.own (Run.locals w);
                Aside.said :=
                  (S (List.length (Run.trace w)), Aside.ErrSendingReminder "User not found")
                  :: Aside.said (Run.locals w) |} |}))
  /\ (forall user err,
        Run.supabase_fault env (Run.steps w) ask_user = Run.NoFault ->
        Pg.select_user_by_email userEmail (Run.db w) = Pg.Data user ->
        Run.supabase_fault env (S (Run.steps w)) ask_product = Run.Fails err
        \/ (Run.supabase_fault env (S (Run.steps w)) ask_product = Run.NoFault
            /\ Pg.select_product productId (Run.db w) = Pg.Error err) ->
        OnRequest.sendAbandonedCartReminder env userEmail productId urgencyLevel w
        = (Run.Thrown "Product not found",
           {| Run.db := Run.db w; Run.steps := S (S (Run.steps w));
              Run.trace := Run.Supabase ask_product :: Run.Supabase ask_user :: Run.trace w;
              Run.locals :=
                {| Aside.own := Aside.own (Run.locals w);
                   Aside.said :=
                     (S (S (List.length (Run.trace w))),
                      Aside.ErrSendingReminder "Product not found")
                     :: Aside.said (Run.locals w) |} |}))
  /\ (forall user product c,
        Run.supabase_fault env (Run.steps w) ask_user = Run.NoFault ->
        Pg.select_user_by_email userEmail (Run.db w) = Pg.Data user ->
        Run.supabase_fault env (S (Run.steps w)) ask_product = Run.NoFault ->
        Pg.select_product productId (Run.db w) = Pg.Data product ->
        Js.truthy_str (Scanner.display_name user) = true ->
        Js.truthy_str (Products.name product) = true ->
        In urgencyLevel Composer.urgency_levels ->
        Run.openai_reply env (2 + Run.steps w) = Run.Content c ->
        let sent_at := Run.Date_now env (3 + Run.steps w) in
        let q := Run.InsertMessage (Users.id user) "sms" (Cleanup.clean c) sent_at in
        let sent mid :=
          {| OnRequest.message := Cleanup.clean c;
             OnRequest.user_id := Users.id user;
             OnRequest.product_id := productId;
             OnRequest.message_id := mid |} in
        exists r w',
          OnRequest.sendAbandonedCartReminder env userEmail productId urgencyLevel w
          = (r, w')
          /\ Obs.inserts (Users.id user) (Run.trace w')
             = S (Obs.inserts (Users.id user) (Run.trace w))
          /\ (String.length (Cleanup.clean c) <= 160)%nat
          /\ match Run.supabase_fault env (4 + Run.steps w) q with
             | Run.NoFault =>
                 r = Run.Normal (sent (Some (Run.uuid env (4 + Run.steps w))))
                 /\ Pg.messages_sent (Run.db w')
                    = (Pg.messages_sent (Run.db w)
                         ++ [{| MessagesSent.id := Run.uuid env (4 + Run.steps w);
                                MessagesSent.user_id := Users.id user;
                                MessagesSent.message_type := "sms";
                                MessagesSent.content := Cleanup.clean c;
                                MessagesSent.sent_at := sent_at |}])%list
             | Run.Fails err =>
                 r = Run.Normal (sent None)
                 /\ Pg.messages_sent (Run.db w') = Pg.messages_sent (Run.db w)
                 /\ exists stamp,
                      Aside.said (Run.locals w')
                      = (stamp, Aside.ErrLoggingReminder err) :: Aside.said (Run.locals w)
             | Run.Rejects x =>
                 r = Run.Thrown x
                 /\ Pg.messages_sent (Run.db w') = Pg.messages_sent (Run.db w)
             end).
Proof.
  intros ask_user ask_product. subst ask_user ask_product.
  unfold OnRequest.sendAbandonedCartReminder. split; [| split].
  - intros err [Hf | [Hf Hs]]; run2; rewrite Hf; run2; [reflexivity |].
    rewrite Hs. run2. reflexivity.
  - intros user err Hf Hs [Hf' | [Hf' Hs']]; run2; rewrite Hf; run2; rewrite Hs; run2;
      rewrite Hf'; run2; [reflexivity |].
    rewrite Hs'. run2. reflexivity.
  - intros user product c Hf Hs Hf' Hs' Hn Hp Hl Hc. cbv zeta. cbn [Nat.add] in *.
    run2. rewrite Hf. run2. rewrite Hs. run2. rewrite Hf'. run2. rewrite Hs'. run2.
    unfold Composer.generateReminderMessage.
    rewrite Hn, Hp, (proj2 (seen_iff _ _) Hl). run2. rewrite Hc. run2.
    match goal with
    | |- context [Run.supabase_fault env ?n ?q] =>
        destruct (Run.supabase_fault env n q) eqn:Eq
    end; run2.
    all: do 2 eexists; split; [reflexivity |];
      cbn [Run.db Run.trace Run.locals Aside.said Pg.messages_sent].
    all: split; [unfold Obs.inserts; cbn [filter Obs.insert_for];
                 rewrite String.eqb_refl; reflexivity |].
    all: split; [apply truncate_length |].
    + split; reflexivity.
    + split; [reflexivity |]. split; [reflexivity |]. eexists. reflexivity.
    + split; reflexivity.
Qed.

(** Alice, reminded ten seconds ago, is reminded again on request. *)
Lemma reminder_on_request_witness :
  exists r w',
    OnRequest.sendAbandonedCartReminder Sample.quiet "a@x.com" "p1" "medium"
      (Sample.start (Sample.shop_reminded 890600) {| Aside.own := tt; Aside.said := [] |})
    = (r, w')
    /\ r = Run.Normal {| OnRequest.message := Sample.text;
                         OnRequest.user_id := "u-alice";
                         OnRequest.product_id := "p1";
                         OnRequest.message_id := Some "m1" |}
    /\ List.length (Pg.messages_sent (Run.db w')) = 2%nat.
Proof.
  destruct (reminder_on_request unit Sample.quiet "a@x.com" "p1" "medium"
              (Sample.start (Sample.shop_reminded 890600)
                 {| Aside.own := tt; Aside.said := [] |}))
    as (_ & _ & Hsend).
  destruct (Hsend Sample.alice Sample.widget Sample.text
              eq_refl eq_refl eq_refl eq_refl eq_refl eq_refl
              (or_intror (or_introl eq_refl)) eq_refl)
    as (r & w' & Hrun & _ & _ & Hr & Hm).
  exists r, w'. split; [exact Hrun |]. split; [exact Hr |].
  rewrite Hm. reflexivity.
Defined.
